(** * Fraud-scoring engine of the interview service: model and properties

    A shallow embedding of [services/keystrokeAnalyzer.ts] and
    [services/fraudDetection.ts] (the enhanced, cross-modal version).

    Conventions of the model.
    - A TypeScript [Map<string, V>] is a [gmap string V]; an array is a
      [list] in index order.  An array obtained from a map and then mutated
      in place ([push], [sort]) is written back to the map entry it came
      from, which is what the aliasing in the source amounts to.
    - Timestamps ([t], [startMs], [endMs], [Date.now()]) are integers of
      milliseconds ([Z]); averages, variances and scores are exact rationals
      ([Q]).  The two anomaly verdicts add weights such as 0.1 and 0.2 and
      compare the sum with 0.3, where binary64 decides otherwise than the
      reals (0.1 + 0.2 > 0.3): module [Doubles] has both verdicts with the
      additions, the comparison and the cap of IEEE doubles, and what is
      stated of a verdict as the program returns it is stated there.  The
      scorer is given the verdicts with confidences as exact sums.
      [Math.min()] of no argument is [Infinity]; the one place where that
      can happen is modelled with [option].
    - A string holds the UTF-8 bytes of the text; [s.length], which counts
      UTF-16 code units, is [jsLength].
    - The clock and the UUID generator are inputs of each operation.  The
      string [new Date().toISOString()] is represented by the clock reading
      it renders.
    - [Array.prototype.sort] is stable; it is modelled by a stable
      insertion sort. *)

From stdpp Require Import gmap strings list pretty.
From Stdlib Require Import ZArith QArith Qminmax Lia Lqa.

Local Open Scope string_scope.
Local Open Scope list_scope.

(** ** Numbers *)

Module Num.

Definition Qltb (a b : Q) : bool :=
  (Qnum a * QDen b <? Qnum b * QDen a)%Z.

Definition Qleb (a b : Q) : bool :=
  (Qnum a * QDen b <=? Qnum b * QDen a)%Z.

Definition ofZ (z : Z) : Q := inject_Z z.
Definition ofNat (n : nat) : Q := inject_Z (Z.of_nat n).

(** [xs.reduce((s, x) => s + x, 0)] *)
Definition sumQ (xs : list Q) : Q := fold_left Qplus xs 0%Q.
Definition sumZ (xs : list Z) : Z := fold_left Z.add xs 0%Z.

(** [Math.min(...xs)] and [Math.max(...xs)]; [None] stands for the
    infinity returned on no argument. *)
Definition minimum (xs : list Z) : option Z :=
  match xs with
  | [] => None
  | x :: xs' => Some (fold_left Z.min xs' x)
  end.

Definition maximum (xs : list Z) : option Z :=
  match xs with
  | [] => None
  | x :: xs' => Some (fold_left Z.max xs' x)
  end.

(** [s.length] counts UTF-16 code units.  In the UTF-8 bytes of the text, a
    character of one, two or three bytes is one unit, a character of four
    bytes is a surrogate pair, and a continuation byte adds nothing. *)
Definition codeUnits (byte : Ascii.ascii) : nat :=
  let n := Ascii.N_of_ascii byte in
  if (n <? 128)%N then 1%nat
  else if (n <? 192)%N then 0%nat
  else if (n <? 240)%N then 1%nat
  else 2%nat.

Fixpoint jsLength (s : string) : nat :=
  match s with
  | EmptyString => 0%nat
  | String byte rest => (codeUnits byte + jsLength rest)%nat
  end.

(** The weight of a rule in a sum: [w] if the rule fires, nothing if not. *)
Definition contribution (fires : bool) (w : Q) : Q := if fires then w else 0%Q.

(** Stable sort by an integer key: [xs.sort((a, b) => key(a) - key(b))]. *)
Fixpoint insertBy {A} (key : A -> Z) (x : A) (l : list A) : list A :=
  match l with
  | [] => [x]
  | y :: l' =>
      if (key y <? key x)%Z then y :: insertBy key x l' else x :: y :: l'
  end.

Fixpoint sortBy {A} (key : A -> Z) (l : list A) : list A :=
  match l with
  | [] => []
  | x :: l' => insertBy key x (sortBy key l')
  end.

(** A [Map<string, T[]>] filled by "create the group if absent, then push":
    kept as an association list in insertion order of the keys. *)
Fixpoint groupPush {A} (k : string) (v : A) (groups : list (string * list A))
  : list (string * list A) :=
  match groups with
  | [] => [(k, [v])]
  | (k', vs) :: rest =>
      if String.eqb k' k then (k', vs ++ [v]) :: rest
      else (k', vs) :: groupPush k v rest
  end.

End Num.

(** ** Shared types ([types/index.ts]) *)

Inductive KeyAction := down | up.

Definition KeyAction_eqb (a b : KeyAction) : bool :=
  match a, b with
  | down, down | up, up => true
  | _, _ => false
  end.

Record KeystrokeEvent := mkKeystrokeEvent {
  ke_sessionId : string;
  ke_t : Z;
  ke_key : string;
  ke_action : KeyAction
}.

Record KeystrokeDigraph := mkDigraph {
  dg_sessionId : string;
  dg_key1 : string;
  dg_key2 : string;
  dg_latency : Z;
  dg_timestamp : Z
}.

Record KeystrokeTrigraph := mkTrigraph {
  tg_sessionId : string;
  tg_key1 : string;
  tg_key2 : string;
  tg_key3 : string;
  tg_latency1 : Z;
  tg_latency2 : Z;
  tg_timestamp : Z
}.

Record TypingProfile := mkTypingProfile {
  tp_sessionId : string;
  averageSpeed : Q;
  digraphLatencies : list (string * Q);
  trigraphLatencies : list (string * Q);
  keyHoldDurations : list (string * Q);
  pauseDistribution : list Z;
  variance : Q
}.

(** The result of [detectTypingAnomalies] and of [detectCodeAnomalies]. *)
Record Anomalies := mkAnomalies {
  isSuspicious : bool;
  anomalies : list string;
  confidence : Q
}.

(** ** [KeystrokeAnalyzer] *)

Module KeystrokeAnalyzer.
Import Num.

Record t := mk {
  keystrokeEvents : gmap string (list KeystrokeEvent);
  digraphs : gmap string (list KeystrokeDigraph);
  trigraphs : gmap string (list KeystrokeTrigraph);
  typingProfiles : gmap string TypingProfile
}.

Definition new : t := mk ∅ ∅ ∅ ∅.

Definition inBand (latency : Z) : bool :=
  (10 <=? latency)%Z && (latency <=? 2000)%Z.

(** The loop of [analyzeDigraphs]: one pass over the adjacent pairs of
    [events], collecting what it pushes. *)
Fixpoint scanDigraphs (sessionId : string) (events : list KeystrokeEvent)
  : list KeystrokeDigraph :=
  match events with
  | current :: (next :: _) as rest =>
      let latency := (ke_t next - ke_t current)%Z in
      (if KeyAction_eqb (ke_action current) up
          && KeyAction_eqb (ke_action next) down
          && inBand latency
       then [mkDigraph sessionId (ke_key current) (ke_key next) latency (ke_t next)]
       else [])
      ++ scanDigraphs sessionId rest
  | _ => []
  end.

Definition analyzeDigraphs (sessionId : string) (events : list KeystrokeEvent)
  (ka : t) : t :=
  if (length events <? 2)%nat then ka
  else
    let stored := default [] (digraphs ka !! sessionId) in
    mk (keystrokeEvents ka)
       (<[sessionId := stored ++ scanDigraphs sessionId events]> (digraphs ka))
       (trigraphs ka) (typingProfiles ka).

(** The loop of [analyzeTrigraphs], with the condition of the source:
    the second event is tested for ['down'] and for ['up']. *)
Fixpoint scanTrigraphs (sessionId : string) (events : list KeystrokeEvent)
  : list KeystrokeTrigraph :=
  match events with
  | first :: (second :: third :: _) as rest =>
      let latency1 := (ke_t second - ke_t first)%Z in
      let latency2 := (ke_t third - ke_t second)%Z in
      (if KeyAction_eqb (ke_action first) up
          && KeyAction_eqb (ke_action second) down
          && KeyAction_eqb (ke_action second) up
          && KeyAction_eqb (ke_action third) down
          && (inBand latency1 && inBand latency2)
       then [mkTrigraph sessionId (ke_key first) (ke_key second) (ke_key third)
               latency1 latency2 (ke_t third)]
       else [])
      ++ scanTrigraphs sessionId rest
  | _ => []
  end.

Definition analyzeTrigraphs (sessionId : string) (events : list KeystrokeEvent)
  (ka : t) : t :=
  if (length events <? 3)%nat then ka
  else
    let stored := default [] (trigraphs ka !! sessionId) in
    mk (keystrokeEvents ka) (digraphs ka)
       (<[sessionId := stored ++ scanTrigraphs sessionId events]> (trigraphs ka))
       (typingProfiles ka).

Definition recordKeystroke (sessionId : string) (event : KeystrokeEvent)
  (ka : t) : t :=
  let events := default [] (keystrokeEvents ka !! sessionId) ++ [event] in
  let ka1 := mk (<[sessionId := events]> (keystrokeEvents ka))
                (digraphs ka) (trigraphs ka) (typingProfiles ka) in
  analyzeTrigraphs sessionId events (analyzeDigraphs sessionId events ka1).

(** *** Helper methods *)

Definition createEmptyProfile (sessionId : string) : TypingProfile :=
  mkTypingProfile sessionId 0 [] [] [] [] 0.

(** [getSessionDuration] sorts the array it is given in place; the sorted
    array is returned next to the duration. *)
Definition getSessionDuration (events : list KeystrokeEvent)
  : Z * list KeystrokeEvent :=
  if (length events <? 2)%nat then (0%Z, events)
  else
    let sorted := sortBy ke_t events in
    match head sorted, last sorted with
    | Some e0, Some en => ((ke_t en - ke_t e0)%Z, sorted)
    | _, _ => (0%Z, sorted)
    end.

Definition keyPair (d : KeystrokeDigraph) : string :=
  dg_key1 d +:+ "-" +:+ dg_key2 d.

Definition keyTriple (g : KeystrokeTrigraph) : string :=
  tg_key1 g +:+ "-" +:+ tg_key2 g +:+ "-" +:+ tg_key3 g.

Definition groupDigraphsByKeyPair (ds : list KeystrokeDigraph)
  : list (string * list Z) :=
  fold_left (fun groups d => groupPush (keyPair d) (dg_latency d) groups) ds [].

Definition groupTrigraphsByKeyTriple (gs : list KeystrokeTrigraph)
  : list (string * list Q) :=
  fold_left
    (fun groups g =>
       groupPush (keyTriple g)
         ((ofZ (tg_latency1 g + tg_latency2 g) / 2)%Q) groups)
    gs [].

Definition averageZ (xs : list Z) : Q :=
  (ofZ (sumZ xs) / ofNat (length xs))%Q.

Definition averageQ (xs : list Q) : Q :=
  (sumQ xs / ofNat (length xs))%Q.

(** The loop of [calculateKeyHoldDurations]. *)
Fixpoint scanHolds (events : list KeystrokeEvent)
  (holdDurations : list (string * list Z)) : list (string * list Z) :=
  match events with
  | press :: (release :: _) as rest =>
      let duration := (ke_t release - ke_t press)%Z in
      scanHolds rest
        (if KeyAction_eqb (ke_action press) down
            && KeyAction_eqb (ke_action release) up
            && String.eqb (ke_key press) (ke_key release)
            && ((0 <? duration)%Z && (duration <? 2000)%Z)
         then groupPush (ke_key press) duration holdDurations
         else holdDurations)
  | _ => holdDurations
  end.

Definition calculateKeyHoldDurations (events : list KeystrokeEvent)
  : list (string * Q) :=
  map (fun '(key, durations) => (key, averageZ durations)) (scanHolds events []).

(** [events.filter(e => e.action === 'down').sort((a, b) => a.t - b.t)]:
    [filter] copies, so this sort leaves [events] alone. *)
Definition keyPresses (events : list KeystrokeEvent) : list KeystrokeEvent :=
  sortBy ke_t (List.filter (fun e => KeyAction_eqb (ke_action e) down) events).

(** [keyPresses[i].t - keyPresses[i - 1].t] for [i = 1 ..]. *)
Fixpoint intervals (presses : list KeystrokeEvent) : list Z :=
  match presses with
  | prev :: (cur :: _) as rest => (ke_t cur - ke_t prev)%Z :: intervals rest
  | _ => []
  end.

Definition calculatePauseDistribution (events : list KeystrokeEvent) : list Z :=
  List.filter (fun pause => (100 <? pause)%Z) (intervals (keyPresses events)).

Definition varianceQ (xs : list Q) : Q :=
  let mean := averageQ xs in
  (sumQ (map (fun x => (x - mean) * (x - mean)) xs) / ofNat (length xs))%Q.

Definition calculateInterKeystrokeVariance (events : list KeystrokeEvent) : Q :=
  let presses := keyPresses events in
  if (length presses <? 2)%nat then 0%Q
  else varianceQ (map ofZ (intervals presses)).

Definition calculateDigraphVariance (digraphLatencies : list (string * Q)) : Q :=
  let latencies := map snd digraphLatencies in
  if (length latencies <? 2)%nat then 0%Q else varianceQ latencies.

(** *** [generateTypingProfile]

    Returns the profile and the analyzer afterwards: the session's event
    array sorted in place by [getSessionDuration], and the profile stored.
    On an empty log the empty profile is returned and nothing is stored. *)
Definition generateTypingProfile (sessionId : string) (ka : t)
  : TypingProfile * t :=
  let events := default [] (keystrokeEvents ka !! sessionId) in
  let ds := default [] (digraphs ka !! sessionId) in
  let gs := default [] (trigraphs ka !! sessionId) in
  if (length events =? 0)%nat then (createEmptyProfile sessionId, ka)
  else
    let '(sessionDuration, events) := getSessionDuration events in
    let characterCount :=
      length (List.filter
                (fun e => KeyAction_eqb (ke_action e) down
                          && (jsLength (ke_key e) =? 1)%nat) events) in
    let averageSpeed :=
      if (0 <? sessionDuration)%Z
      then (ofNat characterCount / ofZ sessionDuration * 60000)%Q
      else 0%Q in
    let digraphLatencies :=
      map (fun '(k, latencies) => (k, averageZ latencies))
          (groupDigraphsByKeyPair ds) in
    let trigraphLatencies :=
      map (fun '(k, latencies) => (k, averageQ latencies))
          (groupTrigraphsByKeyTriple gs) in
    let profile :=
      mkTypingProfile sessionId averageSpeed digraphLatencies trigraphLatencies
        (calculateKeyHoldDurations events)
        (calculatePauseDistribution events)
        (calculateInterKeystrokeVariance events) in
    (profile,
     mk (<[sessionId := events]> (keystrokeEvents ka)) (digraphs ka)
        (trigraphs ka) (<[sessionId := profile]> (typingProfiles ka))).

(** *** [detectTypingAnomalies]

    The verdict with the confidence as the exact sum of the weights, as the
    scorer is given it.  The source accumulates doubles:
    [Doubles.detectTypingAnomaliesD] is the verdict with that arithmetic. *)

Definition noAnomalies : Anomalies := mkAnomalies false [] 0.

(** One [if (cond) { anomalies.push(msg); confidence += w; }] step. *)
Definition flag (cond : bool) (msg : string) (w : Q) (acc : list string * Q)
  : list string * Q :=
  if cond then (fst acc ++ [msg], (snd acc + w)%Q) else acc.

Definition pausePatternFires (p : TypingProfile) : bool :=
  let longPauses :=
    length (List.filter (fun pause => (5000 <? pause)%Z) (pauseDistribution p)) in
  let totalPauses := length (pauseDistribution p) in
  (0 <? totalPauses)%nat && Qltb (3 # 10) (ofNat longPauses / ofNat totalPauses).

Definition detectOnProfile (profile : TypingProfile) : Anomalies :=
  let acc := ([], 0%Q) in
  let acc := flag (Qltb (variance profile) 50)
               "Unusually uniform keystroke timing detected" (3 # 10) acc in
  let acc :=
    if Qltb 200 (averageSpeed profile)
    then flag true "Unusually fast typing speed detected" (2 # 10) acc
    else flag (Qltb (averageSpeed profile) 20)
           "Unusually slow typing speed detected" (1 # 10) acc in
  let acc := flag (pausePatternFires profile)
               "Frequent long pauses detected (possible copy-paste)" (2 # 10) acc in
  let acc := flag (Qltb (calculateDigraphVariance (digraphLatencies profile)) 100)
               "Unusually consistent digraph timing detected" (2 # 10) acc in
  mkAnomalies (Qltb (3 # 10) (snd acc)) (fst acc) (Qmin (snd acc) 1).

Definition detectTypingAnomalies (sessionId : string) (ka : t) : Anomalies :=
  match typingProfiles ka !! sessionId with
  | None => noAnomalies
  | Some profile => detectOnProfile profile
  end.

Definition getTypingProfile (sessionId : string) (ka : t) : option TypingProfile :=
  typingProfiles ka !! sessionId.

Definition clearSession (sessionId : string) (ka : t) : t :=
  mk (delete sessionId (keystrokeEvents ka)) (delete sessionId (digraphs ka))
     (delete sessionId (trigraphs ka)) (delete sessionId (typingProfiles ka)).

End KeystrokeAnalyzer.

(** ** Types of the service ([types/index.ts]) *)

Inductive FraudRiskLevel := low | medium | high.

Record FraudReason := mkReason {
  code : string;
  message : string;
  weight : option Q
}.

Record FraudScore := mkFraudScore {
  fs_sessionId : string;
  score : Q;
  level : FraudRiskLevel;
  reasons : list FraudReason;
  at_ : Z
}.

Inductive Speaker := candidate | interviewer.

Record TranscriptChunk := mkChunk {
  tc_id : option string;
  tc_sessionId : string;
  seq : Z;
  text : string;
  startMs : Z;
  endMs : Z;
  speaker : option Speaker
}.

(** The six event types of the declared union, and the three more that the
    scorer compares against. *)
Inductive ScreenEventType :=
| TAB_BLUR | TAB_FOCUS | PASTE | URL_CHANGE | COPY | WINDOW_SWITCH
| KEYSTROKE_BATCH | MOUSE_ANOMALY | APPLICATION_SWITCH.

Definition ScreenEventType_eqb (a b : ScreenEventType) : bool :=
  match a, b with
  | TAB_BLUR, TAB_BLUR | TAB_FOCUS, TAB_FOCUS | PASTE, PASTE
  | URL_CHANGE, URL_CHANGE | COPY, COPY | WINDOW_SWITCH, WINDOW_SWITCH
  | KEYSTROKE_BATCH, KEYSTROKE_BATCH | MOUSE_ANOMALY, MOUSE_ANOMALY
  | APPLICATION_SWITCH, APPLICATION_SWITCH => true
  | _, _ => false
  end.

(** [meta?: Record<string, any>]: the two entries the scorer reads, a
    number under [count] and a string under [pattern]. *)
Record Meta := mkMeta {
  meta_count : option Z;
  meta_pattern : option string
}.

Record ScreenEvent := mkScreenEvent {
  se_id : option string;
  se_sessionId : string;
  se_t : Z;
  se_type : ScreenEventType;
  meta : option Meta
}.

Inductive CompileAction := compile | run | test.

Record CompileRunEvent := mkCompileEvent {
  ce_id : option string;
  ce_sessionId : string;
  ce_t : Z;
  ce_action : CompileAction;
  ok : option bool
}.

Inductive SessionStatus := created | live | ended | canceled.

Record Consent := mkConsent {
  audio : bool;
  video : bool;
  screen : bool;
  telemetry : bool
}.

Record SessionData := mkSession {
  id : string;
  candidateId : string;
  companyId : string;
  role : option string;
  status : SessionStatus;
  startedAt : option Z;
  endedAt : option Z;
  consent : Consent
}.

(** A call either returns or throws [new Error(msg)]. *)
Inductive Outcome (A : Type) :=
| Returns (a : A)
| Throws (msg : string).
Arguments Returns {A} a.
Arguments Throws {A} msg.

Record Ack := mkAck { success : bool }.

(** The stylometry analyzer ([services/codeStylometryAnalyzer.ts]) is used
    by the scorer through two methods only; it is taken as an interface. *)
Module CodeStylometryAnalyzer.

Class t := {
  Features : Type;
  analyzeCode : string -> Features;
  detectCodeAnomalies : Features -> Anomalies
}.

(** An analyzer that reports nothing, whatever the code. *)
Definition silent : t :=
  {| Features := unit;
     analyzeCode := fun _ => tt;
     detectCodeAnomalies := fun _ => KeystrokeAnalyzer.noAnomalies |}.

End CodeStylometryAnalyzer.

(** ** [FraudDetectionService] *)

Module FraudDetectionService.
Import Num.

Record t := mk {
  sessions : gmap string SessionData;
  fraudSignals : gmap string (list FraudScore);
  transcriptChunks : gmap string (list TranscriptChunk);
  screenEvents : gmap string (list ScreenEvent);
  compileEvents : gmap string (list CompileRunEvent);
  keystrokeEvents : gmap string (list KeystrokeEvent);
  codeSamples : gmap string string;
  keystrokeAnalyzer : KeystrokeAnalyzer.t
}.

(** The state built by the constructor. *)
Definition new : t := mk ∅ ∅ ∅ ∅ ∅ ∅ ∅ KeystrokeAnalyzer.new.

Definition set_sessions (f : gmap string SessionData -> gmap string SessionData)
  (s : t) : t :=
  mk (f (sessions s)) (fraudSignals s) (transcriptChunks s) (screenEvents s)
     (compileEvents s) (keystrokeEvents s) (codeSamples s) (keystrokeAnalyzer s).

Definition set_fraudSignals
  (f : gmap string (list FraudScore) -> gmap string (list FraudScore))
  (s : t) : t :=
  mk (sessions s) (f (fraudSignals s)) (transcriptChunks s) (screenEvents s)
     (compileEvents s) (keystrokeEvents s) (codeSamples s) (keystrokeAnalyzer s).

Definition set_transcriptChunks
  (f : gmap string (list TranscriptChunk) -> gmap string (list TranscriptChunk))
  (s : t) : t :=
  mk (sessions s) (fraudSignals s) (f (transcriptChunks s)) (screenEvents s)
     (compileEvents s) (keystrokeEvents s) (codeSamples s) (keystrokeAnalyzer s).

Definition set_screenEvents
  (f : gmap string (list ScreenEvent) -> gmap string (list ScreenEvent))
  (s : t) : t :=
  mk (sessions s) (fraudSignals s) (transcriptChunks s) (f (screenEvents s))
     (compileEvents s) (keystrokeEvents s) (codeSamples s) (keystrokeAnalyzer s).

Definition set_compileEvents
  (f : gmap string (list CompileRunEvent) -> gmap string (list CompileRunEvent))
  (s : t) : t :=
  mk (sessions s) (fraudSignals s) (transcriptChunks s) (screenEvents s)
     (f (compileEvents s)) (keystrokeEvents s) (codeSamples s) (keystrokeAnalyzer s).

Definition set_keystrokeEvents
  (f : gmap string (list KeystrokeEvent) -> gmap string (list KeystrokeEvent))
  (s : t) : t :=
  mk (sessions s) (fraudSignals s) (transcriptChunks s) (screenEvents s)
     (compileEvents s) (f (keystrokeEvents s)) (codeSamples s) (keystrokeAnalyzer s).

Definition set_codeSamples (f : gmap string string -> gmap string string)
  (s : t) : t :=
  mk (sessions s) (fraudSignals s) (transcriptChunks s) (screenEvents s)
     (compileEvents s) (keystrokeEvents s) (f (codeSamples s)) (keystrokeAnalyzer s).

Definition set_keystrokeAnalyzer (f : KeystrokeAnalyzer.t -> KeystrokeAnalyzer.t)
  (s : t) : t :=
  mk (sessions s) (fraudSignals s) (transcriptChunks s) (screenEvents s)
     (compileEvents s) (keystrokeEvents s) (codeSamples s) (f (keystrokeAnalyzer s)).

(** *** Session management *)

Record StartData := mkStartData {
  sd_candidateId : string;
  sd_companyId : string;
  sd_role : option string;
  sd_consent : Consent
}.

Definition startInterview (now : Z) (uuid : string) (data : StartData) (s : t)
  : string * t :=
  let sessionId := "session_" +:+ pretty now +:+ "_" +:+ String.substring 0 8 uuid in
  let session :=
    mkSession sessionId (sd_candidateId data) (sd_companyId data) (sd_role data)
      live (Some now) None (sd_consent data) in
  (sessionId,
   mk (<[sessionId := session]> (sessions s))
      (<[sessionId := []]> (fraudSignals s))
      (<[sessionId := []]> (transcriptChunks s))
      (<[sessionId := []]> (screenEvents s))
      (<[sessionId := []]> (compileEvents s))
      (keystrokeEvents s) (codeSamples s) (keystrokeAnalyzer s)).

Definition endInterview (now : Z) (sessionId : string) (s : t)
  : Outcome Ack * t :=
  match sessions s !! sessionId with
  | None => (Throws "Session not found", s)
  | Some session =>
      let session :=
        mkSession (id session) (candidateId session) (companyId session)
          (role session) ended (startedAt session) (Some now) (consent session) in
      (Returns (mkAck true), set_sessions (insert sessionId session) s)
  end.

(** *** Behavioural patterns *)

Record BehavioralAnalysis := mkAnalysis {
  pasteBursts : nat;
  tabSwitches : nat;
  compileCount : nat;
  avgChunkLen : Q;
  sessionDuration : option Z;
  suspiciousTiming : bool;
  keystrokeAnomalies : bool;
  mouseAnomalies : bool;
  applicationSwitching : bool
}.

Definition hasType (ty : ScreenEventType) (e : ScreenEvent) : bool :=
  ScreenEventType_eqb (se_type e) ty.

(** [sortedChunks[i].startMs - sortedChunks[i-1].endMs] for [i = 1 ..]. *)
Fixpoint gapsOf (chunks : list TranscriptChunk) : list Z :=
  match chunks with
  | prev :: (cur :: _) as rest => (startMs cur - endMs prev)%Z :: gapsOf rest
  | _ => []
  end.

(** [detectSuspiciousTiming] sorts [chunks] in place; the verdict comes with
    the array as it is left. *)
Definition detectSuspiciousTiming (chunks : list TranscriptChunk)
  : bool * list TranscriptChunk :=
  if (length chunks <? 2)%nat then (false, chunks)
  else
    let sortedChunks := sortBy startMs chunks in
    let gaps := gapsOf sortedChunks in
    let avgGap := (ofZ (sumZ gaps) / ofNat (length gaps))%Q in
    let longGaps :=
      length (List.filter (fun gap => Qltb (avgGap * 3) (ofZ gap)) gaps) in
    (Qltb (3 # 10) (ofNat longGaps / ofNat (length gaps)), sortedChunks).

Definition largeBatch (e : ScreenEvent) : bool :=
  match meta e with
  | Some m =>
      match meta_count m with
      | Some count => negb (count =? 0)%Z && (50 <? count)%Z
      | None => false
      end
  | None => false
  end.

Definition detectKeystrokeAnomalies (screenEvents : list ScreenEvent) : bool :=
  let keystrokeBatches := List.filter (hasType KEYSTROKE_BATCH) screenEvents in
  if (length keystrokeBatches =? 0)%nat then false
  else (0 <? length (List.filter largeBatch keystrokeBatches))%nat.

Definition suspiciousPattern (e : ScreenEvent) : bool :=
  match meta e with
  | Some m =>
      match meta_pattern m with
      | Some pattern =>
          negb (String.eqb pattern "")
          && (String.eqb pattern "linear_movement"
              || String.eqb pattern "perfect_clicking"
              || String.eqb pattern "no_human_delay")
      | None => false
      end
  | None => false
  end.

Definition detectMouseAnomalies (screenEvents : list ScreenEvent) : bool :=
  let anomalies := List.filter (hasType MOUSE_ANOMALY) screenEvents in
  if (length anomalies =? 0)%nat then false
  else (0 <? length (List.filter suspiciousPattern anomalies))%nat.

Definition detectApplicationSwitching (now : Z) (screenEvents : list ScreenEvent)
  : bool :=
  let appSwitches := List.filter (hasType APPLICATION_SWITCH) screenEvents in
  if (length appSwitches <? 5)%nat then false
  else
    let recentSwitches :=
      List.filter (fun e => (now - se_t e <? 30000)%Z) appSwitches in
    (5 <=? length recentSwitches)%nat.

(** [sessionEnd - sessionStart]; with the three logs empty this is
    [-Infinity - Infinity], rendered as [None]. *)
Definition spanOf (chunks : list TranscriptChunk) (screenEvents : list ScreenEvent)
  (compileEvents : list CompileRunEvent) : option Z :=
  let sessionStart :=
    minimum (map startMs chunks ++ map se_t screenEvents ++ map ce_t compileEvents) in
  let sessionEnd :=
    maximum (map endMs chunks ++ map se_t screenEvents ++ map ce_t compileEvents) in
  match sessionStart, sessionEnd with
  | Some a, Some b => Some (b - a)%Z
  | _, _ => None
  end.

Definition analyzeBehavioralPatterns (now : Z) (chunks : list TranscriptChunk)
  (screenEvents : list ScreenEvent) (compileEvents : list CompileRunEvent)
  : BehavioralAnalysis * list TranscriptChunk :=
  let pasteBursts := length (List.filter (hasType PASTE) screenEvents) in
  let tabSwitches :=
    length (List.filter (fun e => hasType WINDOW_SWITCH e || hasType TAB_BLUR e)
              screenEvents) in
  let compileCount := length compileEvents in
  let totalChars :=
    fold_left (fun a c => (a + jsLength (text c))%nat) chunks 0%nat in
  let avgChunkLen :=
    if (length chunks =? 0)%nat then 0%Q
    else (ofNat totalChars / ofNat (length chunks))%Q in
  let sessionDuration := spanOf chunks screenEvents compileEvents in
  let '(suspiciousTiming, chunks) := detectSuspiciousTiming chunks in
  (mkAnalysis pasteBursts tabSwitches compileCount avgChunkLen sessionDuration
     suspiciousTiming (detectKeystrokeAnomalies screenEvents)
     (detectMouseAnomalies screenEvents)
     (detectApplicationSwitching now screenEvents),
   chunks).

(** *** Cross-modal fusion *)

Section Scoring.
Context {csa : CodeStylometryAnalyzer.t}.

(** [chunks[0]?.sessionId || 'unknown'] *)
Definition sessionIdOf (chunks : list TranscriptChunk) : string :=
  match chunks with
  | c :: _ => if String.eqb (tc_sessionId c) "" then "unknown" else tc_sessionId c
  | [] => "unknown"
  end.

(** One [if (cond) { rawScore += w; reasons.push(...rs); }] step. *)
Definition rule (cond : bool) (w : Q) (rs : list FraudReason)
  (acc : Q * list FraudReason) : Q * list FraudReason :=
  if cond then ((fst acc + w)%Q, snd acc ++ rs) else acc.

Definition anomalyReasons (code : string) (a : Anomalies) (k : Q)
  : list FraudReason :=
  map (fun anomaly => mkReason code anomaly (Some (confidence a * k)%Q))
      (anomalies a).

Definition pasteWeight (b : BehavioralAnalysis) : Q :=
  ofNat (Nat.min (pasteBursts b * 6) 15).

Definition tabWeight (b : BehavioralAnalysis) : Q :=
  ofNat (Nat.min (tabSwitches b * 3) 10).

Definition longSession (b : BehavioralAnalysis) : bool :=
  match sessionDuration b with
  | Some d => (300000 <? d)%Z
  | None => false
  end.

(** The seven rules, in the order of the source; the result is [rawScore]
    and [reasons] as they stand before clamping. *)
Definition fuse (typingAnomalies codeAnomalies : Anomalies)
  (b : BehavioralAnalysis) : Q * list FraudReason :=
  let acc := (0%Q, []) in
  let acc :=
    rule (isSuspicious typingAnomalies) (confidence typingAnomalies * 30)
      (anomalyReasons "KEYSTROKE_ANOMALY" typingAnomalies 10) acc in
  let acc :=
    rule (isSuspicious codeAnomalies) (confidence codeAnomalies * 25)
      (anomalyReasons "CODE_STYLOMETRY_ANOMALY" codeAnomalies 8) acc in
  let acc :=
    rule (2 <=? pasteBursts b)%nat (pasteWeight b)
      [mkReason "PASTE_BURST"
         ("Multiple large paste actions (" +:+ pretty (pasteBursts b)
          +:+ " detected)")
         (Some (pasteWeight b))] acc in
  let acc :=
    rule (3 <=? tabSwitches b)%nat (tabWeight b)
      [mkReason "TAB_SWITCHING"
         ("Frequent tab/window switching (" +:+ pretty (tabSwitches b)
          +:+ " switches)")
         (Some (tabWeight b))] acc in
  let acc :=
    rule ((compileCount b <=? 1)%nat && longSession b) 10
      [mkReason "LOW_COMPILE" "Low compile/run activity for extended session"
         (Some 10%Q)] acc in
  let acc :=
    rule (suspiciousTiming b) 5
      [mkReason "SUSPICIOUS_TIMING" "Unusual timing patterns detected"
         (Some 5%Q)] acc in
  let acc :=
    rule (mouseAnomalies b) 3
      [mkReason "MOUSE_ANOMALIES" "Unusual mouse activity patterns detected"
         (Some 3%Q)] acc in
  rule (applicationSwitching b) 2
    [mkReason "APPLICATION_SWITCHING" "Frequent application switching detected"
       (Some 2%Q)] acc.

Definition levelOf (clamped : Q) : FraudRiskLevel :=
  if Qleb 70 clamped then high
  else if Qleb 40 clamped then medium
  else low.

(** The outputs of the three analyzers for one rescoring, with the arrays
    they leave behind: the transcript array sorted by the timing detector
    and the keystroke analyzer after profile generation. *)
Record Signals := mkSignals {
  typingAnomalies : Anomalies;
  codeAnomalies : Anomalies;
  behavioralAnalysis : BehavioralAnalysis;
  chunksAfter : list TranscriptChunk;
  analyzerAfter : KeystrokeAnalyzer.t
}.

Definition gatherSignals (now : Z) (chunks : list TranscriptChunk)
  (screenEvents : list ScreenEvent) (compileEvents : list CompileRunEvent)
  (codeSample : string) (ka : KeystrokeAnalyzer.t) : Signals :=
  let '(_, ka) := KeystrokeAnalyzer.generateTypingProfile (sessionIdOf chunks) ka in
  let typingAnomalies :=
    KeystrokeAnalyzer.detectTypingAnomalies (sessionIdOf chunks) ka in
  let codeFeatures := CodeStylometryAnalyzer.analyzeCode codeSample in
  let codeAnomalies := CodeStylometryAnalyzer.detectCodeAnomalies codeFeatures in
  let '(behavioralAnalysis, chunks) :=
    analyzeBehavioralPatterns now chunks screenEvents compileEvents in
  mkSignals typingAnomalies codeAnomalies behavioralAnalysis chunks ka.

Definition rawScoreOf (sg : Signals) : Q :=
  fst (fuse (typingAnomalies sg) (codeAnomalies sg) (behavioralAnalysis sg)).

Definition calculateEnhancedFraudScore (now : Z) (chunks : list TranscriptChunk)
  (screenEvents : list ScreenEvent) (compileEvents : list CompileRunEvent)
  (keystrokeEvents : list KeystrokeEvent) (codeSample : string)
  (ka : KeystrokeAnalyzer.t)
  : FraudScore * list TranscriptChunk * KeystrokeAnalyzer.t :=
  let sg := gatherSignals now chunks screenEvents compileEvents codeSample ka in
  let '(rawScore, reasons) :=
    fuse (typingAnomalies sg) (codeAnomalies sg) (behavioralAnalysis sg) in
  let clamped := Qmax 0 (Qmin 100 rawScore) in
  (mkFraudScore (sessionIdOf (chunksAfter sg)) clamped (levelOf clamped) reasons now,
   chunksAfter sg, analyzerAfter sg).

(** The signals that a rescoring of [sessionId] reads in state [s]. *)
Definition signalsFor (now : Z) (sessionId : string) (s : t) : Signals :=
  gatherSignals now
    (default [] (transcriptChunks s !! sessionId))
    (default [] (screenEvents s !! sessionId))
    (default [] (compileEvents s !! sessionId))
    (default "" (codeSamples s !! sessionId))
    (keystrokeAnalyzer s).

Definition analyzeFraud (now : Z) (sessionId : string) (s : t) : t :=
  let chunks := default [] (transcriptChunks s !! sessionId) in
  let screenEvents := default [] (screenEvents s !! sessionId) in
  let compileEvents := default [] (compileEvents s !! sessionId) in
  let keystrokeEvents := default [] (keystrokeEvents s !! sessionId) in
  let codeSample := default "" (codeSamples s !! sessionId) in
  let '(score, chunks, ka) :=
    calculateEnhancedFraudScore now chunks screenEvents compileEvents
      keystrokeEvents codeSample (keystrokeAnalyzer s) in
  let s := set_keystrokeAnalyzer (fun _ => ka) s in
  let s := set_transcriptChunks (alter (fun _ => chunks) sessionId) s in
  let signals := default [] (fraudSignals s !! sessionId) in
  set_fraudSignals (insert sessionId (signals ++ [score])) s.

(** *** Data ingestion *)

Definition ingestTranscript (now : Z) (uuid : string) (data : TranscriptChunk)
  (s : t) : Outcome Ack * t :=
  let chunks := default [] (transcriptChunks s !! tc_sessionId data) in
  let chunks :=
    chunks ++ [mkChunk (Some uuid) (tc_sessionId data) (seq data) (text data)
                 (startMs data) (endMs data) (speaker data)] in
  let s := set_transcriptChunks (insert (tc_sessionId data) chunks) s in
  (Returns (mkAck true), analyzeFraud now (tc_sessionId data) s).

Definition ingestScreenEvent (now : Z) (uuid : string) (data : ScreenEvent)
  (s : t) : Outcome Ack * t :=
  let events := default [] (screenEvents s !! se_sessionId data) in
  let events :=
    events ++ [mkScreenEvent (Some uuid) (se_sessionId data) (se_t data)
                 (se_type data) (meta data)] in
  let s := set_screenEvents (insert (se_sessionId data) events) s in
  (Returns (mkAck true), analyzeFraud now (se_sessionId data) s).

Definition ingestCompileEvent (now : Z) (uuid : string) (data : CompileRunEvent)
  (s : t) : Outcome Ack * t :=
  let events := default [] (compileEvents s !! ce_sessionId data) in
  let events :=
    events ++ [mkCompileEvent (Some uuid) (ce_sessionId data) (ce_t data)
                 (ce_action data) (ok data)] in
  let s := set_compileEvents (insert (ce_sessionId data) events) s in
  (Returns (mkAck true), analyzeFraud now (ce_sessionId data) s).

Definition ingestKeystrokeEvent (now : Z) (data : KeystrokeEvent) (s : t)
  : Outcome Ack * t :=
  let events := default [] (keystrokeEvents s !! ke_sessionId data) ++ [data] in
  let s := set_keystrokeEvents (insert (ke_sessionId data) events) s in
  let s :=
    set_keystrokeAnalyzer
      (KeystrokeAnalyzer.recordKeystroke (ke_sessionId data) data) s in
  (Returns (mkAck true), analyzeFraud now (ke_sessionId data) s).

Definition analyzeCode (now : Z) (sessionId : string) (code : string) (s : t)
  : Outcome Ack * t :=
  let s := set_codeSamples (insert sessionId code) s in
  (Returns (mkAck true), analyzeFraud now sessionId s).

End Scoring.

(** *** Data retrieval *)

Definition defaultScore (now : Z) (sessionId : string) : FraudScore :=
  mkFraudScore sessionId 0 low [] now.

Definition getLatestScore (now : Z) (sessionId : string) (s : t) : FraudScore :=
  let signals := default [] (fraudSignals s !! sessionId) in
  match last signals with
  | None => defaultScore now sessionId
  | Some latest => latest
  end.

Record Report := mkReport {
  rp_session : option SessionData;
  rp_scores : list FraudScore;
  rp_chunks : list TranscriptChunk;
  rp_events : list ScreenEvent;
  rp_compiles : list CompileRunEvent
}.

Definition getReport (sessionId : string) (s : t) : Report :=
  mkReport (sessions s !! sessionId)
    (default [] (fraudSignals s !! sessionId))
    (default [] (transcriptChunks s !! sessionId))
    (default [] (screenEvents s !! sessionId))
    (default [] (compileEvents s !! sessionId)).

Definition getSession (sessionId : string) (s : t) : option SessionData :=
  sessions s !! sessionId.

Definition clearSession (sessionId : string) (s : t) : t :=
  mk (delete sessionId (sessions s)) (delete sessionId (fraudSignals s))
     (delete sessionId (transcriptChunks s)) (delete sessionId (screenEvents s))
     (delete sessionId (compileEvents s)) (delete sessionId (keystrokeEvents s))
     (delete sessionId (codeSamples s))
     (KeystrokeAnalyzer.clearSession sessionId (keystrokeAnalyzer s)).

End FraudDetectionService.

From Stdlib Require Floats Sorting.Sorted.

(** ** [CodeStylometryAnalyzer]: the verdict and the helpers that read the
    text character by character

    The feature extraction of [analyzeCode] rests on regular expressions and
    is not modelled; its result is the record below. *)

Module Stylometry.
Import Num Stdlib.Strings.Ascii.

Record StructuralPatterns := mkStructural {
  functionCount : nat;
  classCount : nat;
  importCount : nat;
  variableNamingPattern : string
}.

Record CodeStylometryFeatures := mkFeatures {
  cf_sessionId : string;
  lineCount : nat;
  characterCount : nat;
  hasTernaryOperators : bool;
  hasDirectReturns : bool;
  hasDuplicateExpressions : bool;
  averageLineLength : Q;
  commentRatio : Q;
  complexityScore : nat;
  aiGeneratedProbability : Q;
  perplexityScore : Q;
  structuralPatterns : StructuralPatterns
}.

(** The five conditions of [detectCodeAnomalies], in the order tested. *)
Definition aiLikely (f : CodeStylometryFeatures) : bool :=
  Qltb (7 # 10) (aiGeneratedProbability f).
Definition chatLike (f : CodeStylometryFeatures) : bool :=
  hasTernaryOperators f && hasDirectReturns f.
Definition tooClean (f : CodeStylometryFeatures) : bool :=
  Qltb (commentRatio f) (2 # 100) && (20 <? lineCount f)%nat.
Definition tooSimple (f : CodeStylometryFeatures) : bool :=
  (complexityScore f <? 2)%nat && (30 <? lineCount f)%nat.
Definition camelNaming (f : CodeStylometryFeatures) : bool :=
  String.eqb (variableNamingPattern (structuralPatterns f)) "camelCase"
  && (5 <? functionCount (structuralPatterns f))%nat.

(** The verdict with the confidence as the exact sum of the weights, as the
    scorer is given it; [Doubles.detectCodeAnomaliesD] is the verdict with
    the arithmetic of the source. *)
Definition detectCodeAnomalies (features : CodeStylometryFeatures) : Anomalies :=
  let acc := ([], 0%Q) in
  let acc := KeystrokeAnalyzer.flag (aiLikely features)
               "High probability of AI-generated code" (4 # 10) acc in
  let acc := KeystrokeAnalyzer.flag (chatLike features)
               "Code exhibits ChatGPT-like patterns (ternary operators + direct returns)"
               (3 # 10) acc in
  let acc := KeystrokeAnalyzer.flag (tooClean features)
               "Unusually clean code with minimal comments" (2 # 10) acc in
  let acc := KeystrokeAnalyzer.flag (tooSimple features)
               "Unusually simple code for its length" (2 # 10) acc in
  let acc := KeystrokeAnalyzer.flag (camelNaming features)
               "Consistent camelCase naming (AI-typical)" (1 # 10) acc in
  mkAnomalies (Qltb (3 # 10) (snd acc)) (fst acc) (Qmin (snd acc) 1).

(** The loop of [calculateNestingLevel]: [(maxNesting, currentNesting)]
    after the characters read so far. *)
Definition nestingStep (st : nat * nat) (char : Ascii.ascii) : nat * nat :=
  let '(maxNesting, currentNesting) := st in
  if Ascii.eqb char "{"%char || Ascii.eqb char "("%char
  then (Nat.max maxNesting (S currentNesting), S currentNesting)
  else if Ascii.eqb char "}"%char || Ascii.eqb char ")"%char
  then (maxNesting, Nat.max 0 (currentNesting - 1))
  else (maxNesting, currentNesting).

Definition calculateNestingLevel (code : string) : nat :=
  fst (fold_left nestingStep (String.list_ascii_of_string code) (0, 0)%nat).

(** The scorer's analyzer with the verdict of the repository and a feature
    extraction left open. *)
Definition analyzerWith (extract : string -> CodeStylometryFeatures)
  : CodeStylometryAnalyzer.t :=
  {| CodeStylometryAnalyzer.Features := CodeStylometryFeatures;
     CodeStylometryAnalyzer.analyzeCode := extract;
     CodeStylometryAnalyzer.detectCodeAnomalies := detectCodeAnomalies |}.

End Stylometry.

(** ** The two verdicts with confidences accumulated in binary64

    The conditions are those of the exact model; the additions, the
    comparison with 0.3 and the cap are the ones of IEEE doubles. *)

Module Doubles.
Import Num PrimFloat.
#[local] Set Warnings "-inexact-float".

Record AnomaliesD := mkAnomaliesD {
  isSuspiciousD : bool;
  anomaliesD : list string;
  confidenceD : float
}.

Definition flagD (cond : bool) (msg : string) (w : float)
  (acc : list string * float) : list string * float :=
  if cond then (fst acc ++ [msg], (snd acc + w)%float) else acc.

(** [Math.min(confidence, 1.0)] on two numbers. *)
Definition minD (a b : float) : float := if (b <? a)%float then b else a.

(** [x <= 1] on doubles. *)
Definition atMostOne (x : float) : bool := (x <=? 1)%float.

Definition verdictD (acc : list string * float) : AnomaliesD :=
  mkAnomaliesD (0.3 <? snd acc)%float (fst acc) (minD (snd acc) 1).

(** The weight of a rule in a sum of doubles. *)
Definition contributionD (fires : bool) (w : float) : float :=
  if fires then w else 0%float.

Definition detectOnProfileD (profile : TypingProfile) : AnomaliesD :=
  let acc := ([], 0%float) in
  let acc := flagD (Qltb (variance profile) 50)
               "Unusually uniform keystroke timing detected" 0.3 acc in
  let acc :=
    if Qltb 200 (averageSpeed profile)
    then flagD true "Unusually fast typing speed detected" 0.2 acc
    else flagD (Qltb (averageSpeed profile) 20)
           "Unusually slow typing speed detected" 0.1 acc in
  let acc := flagD (KeystrokeAnalyzer.pausePatternFires profile)
               "Frequent long pauses detected (possible copy-paste)" 0.2 acc in
  let acc := flagD (Qltb (KeystrokeAnalyzer.calculateDigraphVariance
                            (digraphLatencies profile)) 100)
               "Unusually consistent digraph timing detected" 0.2 acc in
  verdictD acc.

Definition noAnomaliesD : AnomaliesD := mkAnomaliesD false [] 0.

Definition detectTypingAnomaliesD (sessionId : string) (ka : KeystrokeAnalyzer.t)
  : AnomaliesD :=
  match KeystrokeAnalyzer.typingProfiles ka !! sessionId with
  | None => noAnomaliesD
  | Some profile => detectOnProfileD profile
  end.

Definition detectCodeAnomaliesD (features : Stylometry.CodeStylometryFeatures)
  : AnomaliesD :=
  let acc := ([], 0%float) in
  let acc := flagD (Stylometry.aiLikely features)
               "High probability of AI-generated code" 0.4 acc in
  let acc := flagD (Stylometry.chatLike features)
               "Code exhibits ChatGPT-like patterns (ternary operators + direct returns)"
               0.3 acc in
  let acc := flagD (Stylometry.tooClean features)
               "Unusually clean code with minimal comments" 0.2 acc in
  let acc := flagD (Stylometry.tooSimple features)
               "Unusually simple code for its length" 0.2 acc in
  let acc := flagD (Stylometry.camelNaming features)
               "Consistent camelCase naming (AI-typical)" 0.1 acc in
  verdictD acc.

End Doubles.

(** ** [LLMService]: the analysis returned when the model call fails *)

Module LLMService.
Import Num.

Record InterviewAnalysis := mkAnalysis {
  suspiciousBehavior : bool;
  ia_confidence : Q;
  suggestions : list string;
  riskFactors : list string;
  nextQuestions : list string
}.

Definition getFallbackAnalysis (fraudScore : Q) : InterviewAnalysis :=
  let suspiciousBehavior := Qltb 50 fraudScore in
  let confidence := Qmin fraudScore 80 in
  let suggestions :=
    if suspiciousBehavior
    then ["Ask for specific examples from their experience";
          "Request a live coding demonstration";
          "Ask about challenges they faced in previous projects"]
    else ["Continue with technical questions";
          "Ask about their problem-solving approach"] in
  let riskFactors :=
    if suspiciousBehavior
    then ["High fraud detection score"; "Potential AI assistance detected"]
    else [] in
  let nextQuestions :=
    ["Can you walk me through a specific project you worked on?";
     "What was the most challenging technical problem you solved?";
     "How do you approach debugging complex issues?"] in
  mkAnalysis suspiciousBehavior confidence suggestions riskFactors nextQuestions.

End LLMService.

(** * Properties *)

Module NumFacts.
Import Num.

Lemma Qltb_lt (a b : Q) : Qltb a b = true <-> (a < b)%Q.
Proof. unfold Qltb, Qlt. apply Z.ltb_lt. Qed.

Lemma Qleb_le (a b : Q) : Qleb a b = true <-> (a <= b)%Q.
Proof. unfold Qleb, Qle. apply Z.leb_le. Qed.

Lemma Qltb_ge (a b : Q) : Qltb a b = false <-> (b <= a)%Q.
Proof. unfold Qltb, Qle. rewrite Z.ltb_ge. reflexivity. Qed.

Lemma Qleb_gt (a b : Q) : Qleb a b = false <-> (b < a)%Q.
Proof. unfold Qleb, Qlt. rewrite Z.leb_gt. reflexivity. Qed.




End NumFacts.

(** ** The keystroke analyzer *)

Module KeystrokeFacts.
Import Num NumFacts KeystrokeAnalyzer.

(** The trigraph condition asks the second event to be a press and a
    release at once: the scan pushes nothing, whatever the log. *)
Lemma scanTrigraphs_nil (sessionId : string) (events : list KeystrokeEvent) :
  scanTrigraphs sessionId events = [].
Proof.
  induction events as [|first rest IH]; [reflexivity|].
  destruct rest as [|second [|third rest']]; try reflexivity.
  cbn [scanTrigraphs]. cbn [scanTrigraphs] in IH. rewrite IH.
  destruct (ke_action first), (ke_action second); reflexivity.
Qed.

Lemma analyzeTrigraphs_stored (sessionId : string) (events : list KeystrokeEvent)
  (ka : t) :
  default [] (trigraphs (analyzeTrigraphs sessionId events ka) !! sessionId)
  = default [] (trigraphs ka !! sessionId).
Proof.
  unfold analyzeTrigraphs. destruct (length events <? 3)%nat; [reflexivity|].
  cbn. rewrite lookup_insert_eq, scanTrigraphs_nil, app_nil_r. reflexivity.
Qed.

Lemma analyzeDigraphs_trigraphs (sessionId : string) (events : list KeystrokeEvent)
  (ka : t) :
  trigraphs (analyzeDigraphs sessionId events ka) = trigraphs ka.
Proof. unfold analyzeDigraphs. destruct (length events <? 2)%nat; reflexivity. Qed.

(** No call of [recordKeystroke] ever adds a trigraph to a session. *)
Lemma recordKeystroke_trigraphs (sessionId : string) (event : KeystrokeEvent)
  (ka : t) :
  default [] (trigraphs (recordKeystroke sessionId event ka) !! sessionId)
  = default [] (trigraphs ka !! sessionId).
Proof.
  unfold recordKeystroke. rewrite analyzeTrigraphs_stored, analyzeDigraphs_trigraphs.
  reflexivity.
Qed.

(** What one [recordKeystroke] does to the stored digraphs: the digraphs of
    the whole log, old pairs included, are appended to what is stored. *)
Lemma recordKeystroke_digraphs (sessionId : string) (event : KeystrokeEvent)
  (ka : t) :
  let events := default [] (keystrokeEvents ka !! sessionId) ++ [event] in
  (2 <= length events)%nat ->
  digraphs (recordKeystroke sessionId event ka) !! sessionId
  = Some (default [] (digraphs ka !! sessionId) ++ scanDigraphs sessionId events).
Proof.
  intros events Hlen. unfold recordKeystroke. fold events.
  unfold analyzeTrigraphs, analyzeDigraphs.
  destruct (length events <? 2)%nat eqn:E2; [apply Nat.ltb_lt in E2; lia|].
  destruct (length events <? 3)%nat; cbn; apply lookup_insert_eq.
Qed.

Lemma recordKeystroke_log (sessionId : string) (event : KeystrokeEvent) (ka : t) :
  keystrokeEvents (recordKeystroke sessionId event ka) !! sessionId
  = Some (default [] (keystrokeEvents ka !! sessionId) ++ [event]).
Proof.
  unfold recordKeystroke, analyzeTrigraphs, analyzeDigraphs.
  repeat match goal with |- context [if ?b then _ else _] => destruct b end;
    cbn; apply lookup_insert_eq.
Qed.

(** The log that [generateTypingProfile], called for [key], leaves for a
    session with a non-empty log: sorted by time if it is the session of
    the call, untouched if not. *)
Lemma generateTypingProfile_log (key sessionId : string) (ka : t)
  (log : list KeystrokeEvent) :
  keystrokeEvents ka !! sessionId = Some log -> log <> [] ->
  keystrokeEvents (snd (generateTypingProfile key ka)) !! sessionId
  = Some (if String.eqb key sessionId then sortBy ke_t log else log).
Proof.
  intros Hlog Hne. unfold generateTypingProfile.
  destruct (String.eqb_spec key sessionId) as [->|Hkey].
  - rewrite Hlog. cbn [from_option Datatypes.id].
    destruct log as [|e rest]; [congruence|]. cbn [length Nat.eqb].
    assert (snd (getSessionDuration (e :: rest)) = sortBy ke_t (e :: rest))
      as Hsorted.
    { unfold getSessionDuration.
      destruct (length (e :: rest) <? 2)%nat eqn:E.
      - destruct rest as [|e' rest']; [reflexivity | discriminate E].
      - destruct (head (sortBy ke_t (e :: rest))),
          (last (sortBy ke_t (e :: rest))); reflexivity. }
    destruct (getSessionDuration (e :: rest)) as [duration sorted].
    cbn [snd] in Hsorted. subst sorted. cbn. apply lookup_insert_eq.
  - destruct (length (default [] (keystrokeEvents ka !! key)) =? 0)%nat;
      [exact Hlog|].
    destruct (getSessionDuration _) as [duration sorted]. cbn.
    rewrite lookup_insert_ne; [exact Hlog | exact Hkey].
Qed.

(** *** Scenarios *)

Definition press (t : Z) (key : string) : KeystrokeEvent :=
  mkKeystrokeEvent "s1" t key down.
Definition release (t : Z) (key : string) : KeystrokeEvent :=
  mkKeystrokeEvent "s1" t key up.

Definition recordAll (events : list KeystrokeEvent) (ka : t) : t :=
  fold_left (fun ka e => recordKeystroke (ke_sessionId e) e ka) events ka.

(** Release of [a], then [b] pressed and released, then [c] pressed: the
    pattern named in the comment of [analyzeTrigraphs], with release-to-press
    latencies of 100 ms and 120 ms. *)
Definition threeKeys : list KeystrokeEvent :=
  [release 0 "a"; press 100 "b"; release 180 "b"; press 300 "c"].

Lemma recordKeystroke_trigraphs_any (sessionId other : string)
  (event : KeystrokeEvent) (ka : t) :
  default [] (trigraphs (recordKeystroke other event ka) !! sessionId)
  = default [] (trigraphs ka !! sessionId).
Proof.
  destruct (decide (other = sessionId)) as [->|Hne].
  - apply recordKeystroke_trigraphs.
  - unfold recordKeystroke, analyzeTrigraphs.
    match goal with |- context [if ?b then _ else _] => destruct b end;
      cbn [trigraphs]; rewrite ?lookup_insert_ne by exact Hne;
      rewrite analyzeDigraphs_trigraphs; reflexivity.
Qed.

Lemma recordAll_trigraphs (events : list KeystrokeEvent) (sessionId : string)
  (ka : t) :
  default [] (trigraphs (recordAll events ka) !! sessionId)
  = default [] (trigraphs ka !! sessionId).
Proof.
  revert ka. induction events as [|e events IH]; intros ka; [reflexivity|].
  cbn [recordAll fold_left]. fold (recordAll events).
  rewrite IH. apply recordKeystroke_trigraphs_any.
Qed.

(** C4. Whatever keystrokes are recorded, no session ever has a trigraph.
    In particular on the log [threeKeys] the raw log is kept and its two
    release-to-press pairs are in band (they are the digraphs of the log),
    yet the stored trigraph list is empty. *)
Theorem no_trigraph_recorded :
  (forall (events : list KeystrokeEvent) (sessionId : string),
      default [] (trigraphs (recordAll events new) !! sessionId) = [])
  /\ keystrokeEvents (recordAll threeKeys new) !! "s1" = Some threeKeys
  /\ scanDigraphs "s1" threeKeys
     = [mkDigraph "s1" "a" "b" 100 100; mkDigraph "s1" "b" "c" 120 300]
  /\ trigraphs (recordAll threeKeys new) !! "s1" = Some [].
Proof.
  split.
  - intros events sessionId. rewrite recordAll_trigraphs. reflexivity.
  - vm_compute. repeat split.
Qed.

(** A release, a press 100 ms later, and one more event. *)
Definition twoThenOne : list KeystrokeEvent :=
  [release 0 "a"; press 100 "b"; release 150 "b"].

(** The digraphs of a log by one pass over it, as the specification words
    the derived collection. *)
Definition recomputedDigraphs (sessionId : string) (ka : t)
  : list KeystrokeDigraph :=
  scanDigraphs sessionId (default [] (keystrokeEvents ka !! sessionId)).

(** C5. After the three calls of [twoThenOne] the raw log holds one in-band
    release-then-press pair, so one recomputation yields one digraph; the
    stored collection holds that digraph twice. *)
Theorem digraph_stored_twice :
  let ka := recordAll twoThenOne new in
  let d := mkDigraph "s1" "a" "b" 100 100 in
  recomputedDigraphs "s1" ka = [d]
  /\ digraphs ka !! "s1" = Some [d; d]
  /\ digraphs ka !! "s1" <> Some (recomputedDigraphs "s1" ka).
Proof. vm_compute. repeat split. discriminate. Qed.

(** *** The anomaly rule *)

Import Doubles PrimFloat.
#[local] Set Warnings "-inexact-float".








(** Three presses of a modifier key at 0, 1000 and 3000 ms, and one profile
    generation: no character is typed, so the speed is 0, and no digraph is
    stored; the intervals vary and no pause is long.  Two rules fire, slow
    typing and consistent digraphs. *)
Definition modifiersOnly : list KeystrokeEvent :=
  [press 0 "Shift"; press 1000 "Shift"; press 3000 "Shift"].
Definition profiled : t :=
  snd (generateTypingProfile "s1" (recordAll modifiersOnly new)).

(** On that profile the sum is 0.1 + 0.2, which in doubles is
    0.30000000000000004 and exceeds 0.3: the verdict is suspicious. *)
Lemma slow_and_consistent_suspicious :
  detectTypingAnomaliesD "s1" profiled
  = mkAnomaliesD true
      ["Unusually slow typing speed detected";
       "Unusually consistent digraph timing detected"]
      0x1.3333333333334p-2.
Proof. vm_compute. reflexivity. Qed.


End KeystrokeFacts.

(** ** The scorer *)

Module ServiceFacts.
Import Num NumFacts FraudDetectionService.

Section Fusion.
Context {csa : CodeStylometryAnalyzer.t}.

(** The snapshot that a rescoring of [sessionId] computes in state [s]. *)
Definition scoreFor (now : Z) (sessionId : string) (s : t) : FraudScore :=
  fst (fst (calculateEnhancedFraudScore now
              (default [] (transcriptChunks s !! sessionId))
              (default [] (screenEvents s !! sessionId))
              (default [] (compileEvents s !! sessionId))
              (default [] (keystrokeEvents s !! sessionId))
              (default "" (codeSamples s !! sessionId))
              (keystrokeAnalyzer s))).

Lemma calculateEnhancedFraudScore_score now chunks screenEvents compileEvents
  keystrokeEvents codeSample ka :
  let sg := gatherSignals now chunks screenEvents compileEvents codeSample ka in
  score (fst (fst (calculateEnhancedFraudScore now chunks screenEvents
                     compileEvents keystrokeEvents codeSample ka)))
  = Qmax 0 (Qmin 100 (rawScoreOf sg)).
Proof.
  intros sg. unfold calculateEnhancedFraudScore, rawScoreOf. fold sg.
  destruct (fuse _ _ _) as [rawScore reasons]. reflexivity.
Qed.

Lemma scoreFor_raw now sessionId s :
  score (scoreFor now sessionId s)
  = Qmax 0 (Qmin 100 (rawScoreOf (signalsFor now sessionId s))).
Proof. apply calculateEnhancedFraudScore_score. Qed.

Lemma calculateEnhancedFraudScore_level now chunks screenEvents compileEvents
  keystrokeEvents codeSample ka :
  let f := fst (fst (calculateEnhancedFraudScore now chunks screenEvents
                       compileEvents keystrokeEvents codeSample ka)) in
  level f = levelOf (score f).
Proof.
  intros f. unfold f, calculateEnhancedFraudScore.
  destruct (fuse _ _ _) as [rawScore reasons]. reflexivity.
Qed.

Lemma clamp_bounds (x : Q) : (0 <= Qmax 0 (Qmin 100 x) <= 100)%Q.
Proof.
  split.
  - apply Q.le_max_l.
  - apply Q.max_lub; [lra | apply Q.le_min_l].
Qed.

Lemma levelOf_spec (c : Q) :
  (levelOf c = high <-> (70 <= c)%Q)
  /\ (levelOf c = medium <-> (40 <= c)%Q /\ (c < 70)%Q)
  /\ (levelOf c = low <-> (c < 40)%Q).
Proof.
  unfold levelOf.
  destruct (Qleb 70 c) eqn:E70; [apply Qleb_le in E70 | apply Qleb_gt in E70];
    (destruct (Qleb 40 c) eqn:E40; [apply Qleb_le in E40 | apply Qleb_gt in E40]);
    repeat split; intros; try discriminate; try lra;
    repeat match goal with H : _ /\ _ |- _ => destruct H end; try lra.
Qed.

(** C3. The score of every computed snapshot lies in [0,100], and its level
    is [high] exactly from 70, [medium] exactly from 40 to below 70, and
    [low] exactly below 40. *)
Theorem score_bounded_and_levelled (now : Z) (chunks : list TranscriptChunk)
  (screenEvents : list ScreenEvent) (compileEvents : list CompileRunEvent)
  (keystrokeEvents : list KeystrokeEvent) (codeSample : string)
  (ka : KeystrokeAnalyzer.t) :
  let f := fst (fst (calculateEnhancedFraudScore now chunks screenEvents
                       compileEvents keystrokeEvents codeSample ka)) in
  (0 <= score f <= 100)%Q
  /\ (level f = high <-> (70 <= score f)%Q)
  /\ (level f = medium <-> (40 <= score f)%Q /\ (score f < 70)%Q)
  /\ (level f = low <-> (score f < 40)%Q).
Proof.
  intros f. split.
  - unfold f. rewrite calculateEnhancedFraudScore_score. apply clamp_bounds.
  - unfold f. rewrite calculateEnhancedFraudScore_level. apply levelOf_spec.
Qed.

(** The raw sum as the specification words it: every term unguarded. *)
Definition claimedRawSum (sg : Signals) : Q :=
  let b := behavioralAnalysis sg in
  (confidence (typingAnomalies sg) * 30
   + confidence (codeAnomalies sg) * 25
   + pasteWeight b
   + tabWeight b
   + contribution ((compileCount b <=? 1)%nat && longSession b) 10
   + contribution (suspiciousTiming b) 5
   + contribution (mouseAnomalies b) 3
   + contribution (applicationSwitching b) 2)%Q.

(** The raw sum with the guards of the source: a modality counts only when
    its analyzer calls it suspicious, pastes only from two, tab switches
    only from three. *)
Definition guardedRawSum (sg : Signals) : Q :=
  let b := behavioralAnalysis sg in
  (contribution (isSuspicious (typingAnomalies sg))
     (confidence (typingAnomalies sg) * 30)
   + contribution (isSuspicious (codeAnomalies sg))
       (confidence (codeAnomalies sg) * 25)
   + contribution (2 <=? pasteBursts b)%nat (pasteWeight b)
   + contribution (3 <=? tabSwitches b)%nat (tabWeight b)
   + contribution ((compileCount b <=? 1)%nat && longSession b) 10
   + contribution (suspiciousTiming b) 5
   + contribution (mouseAnomalies b) 3
   + contribution (applicationSwitching b) 2)%Q.

Lemma rawScoreOf_guarded (sg : Signals) : (rawScoreOf sg == guardedRawSum sg)%Q.
Proof.
  unfold rawScoreOf, guardedRawSum, fuse, rule, contribution.
  destruct (isSuspicious (typingAnomalies sg));
    destruct (isSuspicious (codeAnomalies sg));
    destruct (2 <=? pasteBursts (behavioralAnalysis sg))%nat;
    destruct (3 <=? tabSwitches (behavioralAnalysis sg))%nat;
    destruct ((compileCount (behavioralAnalysis sg) <=? 1)%nat
              && longSession (behavioralAnalysis sg));
    destruct (suspiciousTiming (behavioralAnalysis sg));
    destruct (mouseAnomalies (behavioralAnalysis sg));
    destruct (applicationSwitching (behavioralAnalysis sg));
    cbn [fst snd]; ring.
Qed.

(** C2, amended. For every session state the raw sum of a rescoring is the
    sum of: the keystroke confidence times 30 if the typing verdict is
    suspicious; the stylometry confidence times 25 if the code verdict is
    suspicious; min(6 pasteBursts, 15) if there are at least two pastes;
    min(3 tabSwitches, 10) if there are at least three tab switches; 10 for
    at most one compile in a session longer than 300000 ms; 5, 3 and 2 for
    suspicious timing, the mouse proxy and application switching. *)
Theorem raw_sum_guarded (now : Z) (sessionId : string) (s : t) :
  (rawScoreOf (signalsFor now sessionId s)
   == guardedRawSum (signalsFor now sessionId s))%Q.
Proof. apply rawScoreOf_guarded. Qed.

(** *** What a rescoring reads and what it leaves behind *)

Lemma gatherSignals_chunksAfter now chunks screenEvents compileEvents codeSample ka :
  chunksAfter (gatherSignals now chunks screenEvents compileEvents codeSample ka)
  = snd (detectSuspiciousTiming chunks).
Proof.
  unfold gatherSignals, analyzeBehavioralPatterns.
  destruct (KeystrokeAnalyzer.generateTypingProfile _ _) as [profile ka'].
  destruct (detectSuspiciousTiming chunks) as [verdict sorted]. reflexivity.
Qed.

Lemma gatherSignals_analyzerAfter now chunks screenEvents compileEvents codeSample ka :
  analyzerAfter (gatherSignals now chunks screenEvents compileEvents codeSample ka)
  = snd (KeystrokeAnalyzer.generateTypingProfile (sessionIdOf chunks) ka).
Proof.
  unfold gatherSignals, analyzeBehavioralPatterns.
  destruct (KeystrokeAnalyzer.generateTypingProfile _ _) as [profile ka'].
  destruct (detectSuspiciousTiming chunks) as [verdict sorted]. reflexivity.
Qed.

(** The typing verdict of a rescoring is read under the key
    [sessionIdOf chunks], not under the session being rescored. *)
Lemma gatherSignals_typingAnomalies now chunks screenEvents compileEvents
  codeSample ka :
  typingAnomalies (gatherSignals now chunks screenEvents compileEvents codeSample ka)
  = KeystrokeAnalyzer.detectTypingAnomalies (sessionIdOf chunks)
      (snd (KeystrokeAnalyzer.generateTypingProfile (sessionIdOf chunks) ka)).
Proof.
  unfold gatherSignals, analyzeBehavioralPatterns.
  destruct (KeystrokeAnalyzer.generateTypingProfile _ _) as [profile ka'].
  destruct (detectSuspiciousTiming chunks) as [verdict sorted]. reflexivity.
Qed.

Lemma calculateEnhancedFraudScore_parts now chunks screenEvents compileEvents
  keystrokeEvents codeSample ka :
  let r := calculateEnhancedFraudScore now chunks screenEvents compileEvents
             keystrokeEvents codeSample ka in
  fs_sessionId (fst (fst r)) = sessionIdOf (snd (detectSuspiciousTiming chunks))
  /\ at_ (fst (fst r)) = now
  /\ snd (fst r) = snd (detectSuspiciousTiming chunks)
  /\ snd r = snd (KeystrokeAnalyzer.generateTypingProfile (sessionIdOf chunks) ka).
Proof.
  intros r. unfold r, calculateEnhancedFraudScore.
  destruct (fuse _ _ _) as [rawScore reasons]. cbn [fst snd fs_sessionId at_].
  rewrite gatherSignals_chunksAfter, gatherSignals_analyzerAfter. auto.
Qed.

Lemma analyzeFraud_fraudSignals now sessionId s :
  fraudSignals (analyzeFraud now sessionId s)
  = <[sessionId := default [] (fraudSignals s !! sessionId)
                   ++ [scoreFor now sessionId s]]> (fraudSignals s).
Proof.
  unfold analyzeFraud, scoreFor.
  destruct (calculateEnhancedFraudScore _ _ _ _ _ _ _) as [[snapshot chunks] ka].
  reflexivity.
Qed.

Lemma analyzeFraud_transcriptChunks now sessionId s :
  transcriptChunks (analyzeFraud now sessionId s)
  = alter (fun _ => snd (detectSuspiciousTiming
                           (default [] (transcriptChunks s !! sessionId))))
      sessionId (transcriptChunks s).
Proof.
  unfold analyzeFraud.
  pose proof (calculateEnhancedFraudScore_parts now
                (default [] (transcriptChunks s !! sessionId))
                (default [] (screenEvents s !! sessionId))
                (default [] (compileEvents s !! sessionId))
                (default [] (keystrokeEvents s !! sessionId))
                (default "" (codeSamples s !! sessionId))
                (keystrokeAnalyzer s)) as (_ & _ & Hchunks & _).
  destruct (calculateEnhancedFraudScore _ _ _ _ _ _ _) as [[snapshot chunks] ka].
  cbn in Hchunks |- *. rewrite Hchunks. reflexivity.
Qed.

Lemma analyzeFraud_keystrokeAnalyzer now sessionId s :
  keystrokeAnalyzer (analyzeFraud now sessionId s)
  = snd (KeystrokeAnalyzer.generateTypingProfile
           (sessionIdOf (default [] (transcriptChunks s !! sessionId)))
           (keystrokeAnalyzer s)).
Proof.
  unfold analyzeFraud.
  pose proof (calculateEnhancedFraudScore_parts now
                (default [] (transcriptChunks s !! sessionId))
                (default [] (screenEvents s !! sessionId))
                (default [] (compileEvents s !! sessionId))
                (default [] (keystrokeEvents s !! sessionId))
                (default "" (codeSamples s !! sessionId))
                (keystrokeAnalyzer s)) as (_ & _ & _ & Hka).
  destruct (calculateEnhancedFraudScore _ _ _ _ _ _ _) as [[snapshot chunks] ka].
  cbn in Hka |- *. rewrite Hka. reflexivity.
Qed.

Lemma analyzeFraud_frame now sessionId s :
  sessions (analyzeFraud now sessionId s) = sessions s
  /\ screenEvents (analyzeFraud now sessionId s) = screenEvents s
  /\ compileEvents (analyzeFraud now sessionId s) = compileEvents s
  /\ keystrokeEvents (analyzeFraud now sessionId s) = keystrokeEvents s
  /\ codeSamples (analyzeFraud now sessionId s) = codeSamples s.
Proof.
  unfold analyzeFraud.
  destruct (calculateEnhancedFraudScore _ _ _ _ _ _ _) as [[snapshot chunks] ka].
  cbn. auto.
Qed.

(** With no transcript chunk stored for the session, the snapshot is
    labelled ['unknown'] and the typing verdict is the one of the key
    ['unknown']. *)
Lemma scoreFor_without_transcript now sessionId s :
  default [] (transcriptChunks s !! sessionId) = [] ->
  fs_sessionId (scoreFor now sessionId s) = "unknown"
  /\ typingAnomalies (signalsFor now sessionId s)
     = KeystrokeAnalyzer.detectTypingAnomalies "unknown"
         (snd (KeystrokeAnalyzer.generateTypingProfile "unknown"
                 (keystrokeAnalyzer s))).
Proof.
  intros Hnone. unfold scoreFor, signalsFor.
  pose proof (calculateEnhancedFraudScore_parts now
                (default [] (transcriptChunks s !! sessionId))
                (default [] (screenEvents s !! sessionId))
                (default [] (compileEvents s !! sessionId))
                (default [] (keystrokeEvents s !! sessionId))
                (default "" (codeSamples s !! sessionId))
                (keystrokeAnalyzer s)) as (Hid & _).
  cbn zeta in Hid. rewrite Hid, gatherSignals_typingAnomalies, Hnone.
  split; reflexivity.
Qed.

(** *** Ingestion *)

(** An ingestion call on [sessionId] acknowledged: it returns
    [{ success: true }], the score history of [sessionId] is the one before
    the call with one snapshot appended, and [getLatestScore], whenever it
    is called on the resulting state, returns that snapshot. *)
Definition acknowledged (sessionId : string) (before : t)
  (res : Outcome Ack * t) : Prop :=
  fst res = Returns (mkAck true)
  /\ exists snapshot : FraudScore,
       fraudSignals (snd res) !! sessionId
       = Some (default [] (fraudSignals before !! sessionId) ++ [snapshot])
       /\ forall now' : Z, getLatestScore now' sessionId (snd res) = snapshot.

Lemma getLatestScore_analyzeFraud now now' sessionId s :
  getLatestScore now' sessionId (analyzeFraud now sessionId s)
  = scoreFor now sessionId s.
Proof.
  unfold getLatestScore.
  rewrite analyzeFraud_fraudSignals, lookup_insert_eq.
  cbn [from_option Datatypes.id]. rewrite last_snoc. reflexivity.
Qed.

(** The transcript log that [ingestTranscript] leaves for the session: the
    log with the chunk appended, then sorted by [startMs] as soon as it has
    two entries. *)
Lemma ingestTranscript_log now uuid data s :
  let appended :=
    default [] (transcriptChunks s !! tc_sessionId data)
    ++ [mkChunk (Some uuid) (tc_sessionId data) (seq data) (text data)
          (startMs data) (endMs data) (speaker data)] in
  transcriptChunks (snd (ingestTranscript now uuid data s)) !! tc_sessionId data
  = Some (if (length appended <? 2)%nat then appended
          else sortBy startMs appended).
Proof.
  intros appended. unfold ingestTranscript. cbn [snd].
  rewrite analyzeFraud_transcriptChunks. cbn [transcriptChunks set_transcriptChunks].
  rewrite lookup_alter_eq, lookup_insert_eq. cbn [from_option Datatypes.id fmap option_fmap option_map].
  fold appended. unfold detectSuspiciousTiming.
  destruct (length appended <? 2)%nat; reflexivity.
Qed.

(** A first keystroke of a session that has no transcript: the snapshot put
    in the history of that session is labelled ['unknown']. *)
Lemma first_keystroke_labelled_unknown now now' data :
  fs_sessionId (getLatestScore now' (ke_sessionId data)
                  (snd (ingestKeystrokeEvent now data new)))
  = "unknown".
Proof.
  unfold ingestKeystrokeEvent. cbn [snd].
  rewrite getLatestScore_analyzeFraud.
  apply scoreFor_without_transcript. reflexivity.
Qed.

Lemma analyzeFraud_acknowledged now sessionId before s :
  fraudSignals s = fraudSignals before ->
  acknowledged sessionId before (Returns (mkAck true), analyzeFraud now sessionId s).
Proof.
  intros Hsame. split; [reflexivity|].
  exists (scoreFor now sessionId s). cbn [snd].
  assert (fraudSignals (analyzeFraud now sessionId s) !! sessionId
          = Some (default [] (fraudSignals before !! sessionId)
                  ++ [scoreFor now sessionId s])) as Hlookup.
  { rewrite analyzeFraud_fraudSignals, lookup_insert_eq, Hsame. reflexivity. }
  split; [exact Hlookup|].
  intros now'. unfold getLatestScore. rewrite Hlookup. cbn [from_option Datatypes.id].
  rewrite last_snoc. reflexivity.
Qed.

(** [{ ...data, id: randomUUID() }] *)
Definition stampChunk (uuid : string) (data : TranscriptChunk) : TranscriptChunk :=
  mkChunk (Some uuid) (tc_sessionId data) (seq data) (text data)
    (startMs data) (endMs data) (speaker data).
Definition stampScreen (uuid : string) (data : ScreenEvent) : ScreenEvent :=
  mkScreenEvent (Some uuid) (se_sessionId data) (se_t data) (se_type data)
    (meta data).
Definition stampCompile (uuid : string) (data : CompileRunEvent) : CompileRunEvent :=
  mkCompileEvent (Some uuid) (ce_sessionId data) (ce_t data) (ce_action data)
    (ok data).

(** An ingestion call on [sessionId] served: it is acknowledged, and the log
    [log] of the session holds what it held before the call (nothing, if the
    session had no log) followed by the event, in the order [arrange] in
    which the rescoring leaves that log. *)
Definition ingested {E : Type} (log : t -> gmap string (list E))
  (arrange : list E -> list E) (sessionId : string) (event : E) (before : t)
  (res : Outcome Ack * t) : Prop :=
  acknowledged sessionId before res
  /\ log (snd res) !! sessionId
     = Some (arrange (default [] (log before !! sessionId) ++ [event])).

(** An ingestion call on a session of which the service holds nothing: it
    returns success, the log and the score history are created with the
    event and one snapshot, which [getLatestScore] returns, and no session
    record is made. *)
Definition materialized {E : Type} (log : t -> gmap string (list E))
  (sessionId : string) (event : E) (res : Outcome Ack * t) : Prop :=
  fst res = Returns (mkAck true)
  /\ log (snd res) !! sessionId = Some [event]
  /\ sessions (snd res) !! sessionId = None
  /\ exists snapshot : FraudScore,
       fraudSignals (snd res) !! sessionId = Some [snapshot]
       /\ forall now' : Z, getLatestScore now' sessionId (snd res) = snapshot.

(** The log of a session in the keystroke analyzer. *)
Definition analyzerLog (sessionId : string) (s : t) : option (list KeystrokeEvent) :=
  KeystrokeAnalyzer.keystrokeEvents (keystrokeAnalyzer s) !! sessionId.

Lemma ingested_after_clear {E : Type} (log : t -> gmap string (list E))
  (arrange : list E -> list E) (sessionId : string) (event : E) (s : t)
  (res : Outcome Ack * t) :
  arrange [event] = [event] ->
  log (clearSession sessionId s) !! sessionId = None ->
  sessions (snd res) = sessions (clearSession sessionId s) ->
  ingested log arrange sessionId event (clearSession sessionId s) res ->
  materialized log sessionId event res.
Proof.
  intros Harrange Hnone Hsessions [[Hack (snapshot & Hhistory & Hlatest)] Hlog].
  split; [exact Hack|]. split.
  { rewrite Hlog, Hnone. cbn [from_option app]. rewrite Harrange. reflexivity. }
  split.
  { rewrite Hsessions. cbn [clearSession sessions]. apply lookup_delete_eq. }
  exists snapshot. split; [|exact Hlatest].
  rewrite Hhistory. cbn [clearSession fraudSignals].
  rewrite lookup_delete_eq. reflexivity.
Qed.

Lemma ingestTranscript_ingested now uuid data s :
  ingested transcriptChunks (sortBy startMs) (tc_sessionId data)
    (stampChunk uuid data) s (ingestTranscript now uuid data s).
Proof.
  split; [apply analyzeFraud_acknowledged; reflexivity|].
  rewrite ingestTranscript_log. fold (stampChunk uuid data).
  destruct (length _ <? 2)%nat eqn:E; [|reflexivity].
  apply Nat.ltb_lt in E.
  destruct (default [] (transcriptChunks s !! tc_sessionId data)) as [|c rest];
    [reflexivity|].
  rewrite length_app in E. cbn [length] in E. lia.
Qed.

Lemma ingestScreenEvent_ingested now uuid data s :
  ingested screenEvents (fun log => log) (se_sessionId data)
    (stampScreen uuid data) s (ingestScreenEvent now uuid data s).
Proof.
  split; [apply analyzeFraud_acknowledged; reflexivity|].
  unfold ingestScreenEvent. cbn [snd].
  destruct (analyzeFraud_frame now (se_sessionId data)
              (set_screenEvents
                 (insert (se_sessionId data)
                    (default [] (screenEvents s !! se_sessionId data)
                     ++ [stampScreen uuid data])) s))
    as (_ & Hscreen & _).
  unfold stampScreen in Hscreen |- *. rewrite Hscreen.
  cbn [screenEvents set_screenEvents]. apply lookup_insert_eq.
Qed.

Lemma ingestCompileEvent_ingested now uuid data s :
  ingested compileEvents (fun log => log) (ce_sessionId data)
    (stampCompile uuid data) s (ingestCompileEvent now uuid data s).
Proof.
  split; [apply analyzeFraud_acknowledged; reflexivity|].
  unfold ingestCompileEvent. cbn [snd].
  destruct (analyzeFraud_frame now (ce_sessionId data)
              (set_compileEvents
                 (insert (ce_sessionId data)
                    (default [] (compileEvents s !! ce_sessionId data)
                     ++ [stampCompile uuid data])) s))
    as (_ & _ & Hcompile & _).
  unfold stampCompile in Hcompile |- *. rewrite Hcompile.
  cbn [compileEvents set_compileEvents]. apply lookup_insert_eq.
Qed.

Lemma ingestKeystrokeEvent_ingested now data s :
  ingested keystrokeEvents (fun log => log) (ke_sessionId data) data s
    (ingestKeystrokeEvent now data s).
Proof.
  split; [apply analyzeFraud_acknowledged; reflexivity|].
  unfold ingestKeystrokeEvent. cbn [snd].
  destruct (analyzeFraud_frame now (ke_sessionId data)
              (set_keystrokeAnalyzer
                 (KeystrokeAnalyzer.recordKeystroke (ke_sessionId data) data)
                 (set_keystrokeEvents
                    (insert (ke_sessionId data)
                       (default [] (keystrokeEvents s !! ke_sessionId data)
                        ++ [data])) s)))
    as (_ & _ & _ & Hkeys & _).
  rewrite Hkeys.
  cbn [keystrokeEvents set_keystrokeEvents set_keystrokeAnalyzer].
  apply lookup_insert_eq.
Qed.

(** The analyzer's log of the session after [ingestKeystrokeEvent]: the
    event is appended, and the rescoring sorts the log by time if the
    analyzer key it uses, the session of the first transcript chunk, is the
    session of the event. *)
Lemma ingestKeystrokeEvent_analyzerLog now data s :
  analyzerLog (ke_sessionId data) (snd (ingestKeystrokeEvent now data s))
  = Some (let log :=
            default [] (analyzerLog (ke_sessionId data) s) ++ [data] in
          if String.eqb
               (sessionIdOf (default [] (transcriptChunks s !! ke_sessionId data)))
               (ke_sessionId data)
          then sortBy ke_t log else log).
Proof.
  unfold analyzerLog, ingestKeystrokeEvent. cbn [snd].
  rewrite analyzeFraud_keystrokeAnalyzer.
  cbn [transcriptChunks keystrokeAnalyzer set_keystrokeAnalyzer set_keystrokeEvents].
  apply KeystrokeFacts.generateTypingProfile_log.
  - apply KeystrokeFacts.recordKeystroke_log.
  - intros Hnil. apply app_eq_nil in Hnil as [_ Hnil]. discriminate Hnil.
Qed.

Lemma ingestTranscript_sessions now uuid data s :
  sessions (snd (ingestTranscript now uuid data s)) = sessions s.
Proof.
  unfold ingestTranscript. cbn [snd].
  rewrite (proj1 (analyzeFraud_frame _ _ _)). reflexivity.
Qed.

Lemma ingestScreenEvent_sessions now uuid data s :
  sessions (snd (ingestScreenEvent now uuid data s)) = sessions s.
Proof.
  unfold ingestScreenEvent. cbn [snd].
  rewrite (proj1 (analyzeFraud_frame _ _ _)). reflexivity.
Qed.

Lemma ingestCompileEvent_sessions now uuid data s :
  sessions (snd (ingestCompileEvent now uuid data s)) = sessions s.
Proof.
  unfold ingestCompileEvent. cbn [snd].
  rewrite (proj1 (analyzeFraud_frame _ _ _)). reflexivity.
Qed.

Lemma ingestKeystrokeEvent_sessions now data s :
  sessions (snd (ingestKeystrokeEvent now data s)) = sessions s.
Proof.
  unfold ingestKeystrokeEvent. cbn [snd].
  rewrite (proj1 (analyzeFraud_frame _ _ _)). reflexivity.
Qed.

(** C8. Each of the four ingestion operations, in every state and for every
    session identifier, returns success, leaves the event in the log of that
    identifier after what the log held (the transcript log sorted by
    [startMs], the others in arrival order; the keystroke also in the log of
    the analyzer), and leaves the score history of that identifier extended
    by exactly one snapshot, which is what [getLatestScore] then returns.
    On a session of which the service holds nothing, as after
    [clearSession] or before any start, the log and the history are created
    with the event and one snapshot, and no session record is made. *)
Theorem ingestion_acknowledged (now : Z) (uuid : string) (s : t) :
  (forall data : TranscriptChunk,
      ingested transcriptChunks (sortBy startMs) (tc_sessionId data)
        (stampChunk uuid data) s (ingestTranscript now uuid data s)
      /\ materialized transcriptChunks (tc_sessionId data) (stampChunk uuid data)
           (ingestTranscript now uuid data (clearSession (tc_sessionId data) s)))
  /\ (forall data : ScreenEvent,
         ingested screenEvents (fun log => log) (se_sessionId data)
           (stampScreen uuid data) s (ingestScreenEvent now uuid data s)
         /\ materialized screenEvents (se_sessionId data) (stampScreen uuid data)
              (ingestScreenEvent now uuid data (clearSession (se_sessionId data) s)))
  /\ (forall data : CompileRunEvent,
         ingested compileEvents (fun log => log) (ce_sessionId data)
           (stampCompile uuid data) s (ingestCompileEvent now uuid data s)
         /\ materialized compileEvents (ce_sessionId data) (stampCompile uuid data)
              (ingestCompileEvent now uuid data (clearSession (ce_sessionId data) s)))
  /\ (forall data : KeystrokeEvent,
         ingested keystrokeEvents (fun log => log) (ke_sessionId data) data s
           (ingestKeystrokeEvent now data s)
         /\ materialized keystrokeEvents (ke_sessionId data) data
              (ingestKeystrokeEvent now data (clearSession (ke_sessionId data) s))
         /\ analyzerLog (ke_sessionId data) (snd (ingestKeystrokeEvent now data s))
            = Some (let log :=
                      default [] (analyzerLog (ke_sessionId data) s) ++ [data] in
                    if String.eqb
                         (sessionIdOf
                            (default [] (transcriptChunks s !! ke_sessionId data)))
                         (ke_sessionId data)
                    then sortBy ke_t log else log)
         /\ analyzerLog (ke_sessionId data)
              (snd (ingestKeystrokeEvent now data
                      (clearSession (ke_sessionId data) s)))
            = Some [data]).
Proof.
  split; [|split; [|split]]; intros data.
  - split; [apply ingestTranscript_ingested|].
    apply (ingested_after_clear transcriptChunks (sortBy startMs) _ _ s);
      [reflexivity | | | apply ingestTranscript_ingested].
    + cbn [clearSession transcriptChunks]. apply lookup_delete_eq.
    + apply ingestTranscript_sessions.
  - split; [apply ingestScreenEvent_ingested|].
    apply (ingested_after_clear screenEvents (fun log => log) _ _ s);
      [reflexivity | | | apply ingestScreenEvent_ingested].
    + cbn [clearSession screenEvents]. apply lookup_delete_eq.
    + apply ingestScreenEvent_sessions.
  - split; [apply ingestCompileEvent_ingested|].
    apply (ingested_after_clear compileEvents (fun log => log) _ _ s);
      [reflexivity | | | apply ingestCompileEvent_ingested].
    + cbn [clearSession compileEvents]. apply lookup_delete_eq.
    + apply ingestCompileEvent_sessions.
  - split; [apply ingestKeystrokeEvent_ingested|]. split.
    { apply (ingested_after_clear keystrokeEvents (fun log => log) _ _ s);
        [reflexivity | | | apply ingestKeystrokeEvent_ingested].
      + cbn [clearSession keystrokeEvents]. apply lookup_delete_eq.
      + apply ingestKeystrokeEvent_sessions. }
    split; [apply ingestKeystrokeEvent_analyzerLog|].
    rewrite ingestKeystrokeEvent_analyzerLog.
    unfold analyzerLog.
    cbn [clearSession keystrokeAnalyzer KeystrokeAnalyzer.clearSession
         KeystrokeAnalyzer.keystrokeEvents].
    rewrite lookup_delete_eq. cbn [from_option app].
    destruct (String.eqb _ _); reflexivity.
Qed.

(** A cleared session is like one never started: ingestion materializes
    its log and its history afresh. *)
Lemma ingestTranscript_after_clear now uuid data s :
  let s' := snd (ingestTranscript now uuid data
                   (clearSession (tc_sessionId data) s)) in
  exists snapshot,
    fraudSignals s' !! tc_sessionId data = Some [snapshot]
    /\ transcriptChunks s' !! tc_sessionId data
       = Some [mkChunk (Some uuid) (tc_sessionId data) (seq data) (text data)
                 (startMs data) (endMs data) (speaker data)].
Proof.
  intros s'. eexists. split.
  - unfold s', ingestTranscript. cbn [snd].
    rewrite analyzeFraud_fraudSignals, lookup_insert_eq.
    cbn [clearSession fraudSignals set_transcriptChunks].
    rewrite lookup_delete_eq. reflexivity.
  - unfold s'. rewrite ingestTranscript_log. cbn [clearSession transcriptChunks].
    rewrite lookup_delete_eq. reflexivity.
Qed.

End Fusion.

(** *** Session management and retrieval *)

(** C10. [endInterview] on a known session returns success whatever the
    status was, sets the status to [ended] and [endedAt] to the time of the
    call, and keeps the other fields of the session, the other sessions and
    every log; on an unknown session it throws and the state is the same. *)
Theorem endInterview_frame (now : Z) (sessionId : string) (s : t) :
  let r := endInterview now sessionId s in
  match sessions s !! sessionId with
  | Some session =>
      fst r = Returns (mkAck true)
      /\ (exists session',
            sessions (snd r) !! sessionId = Some session'
            /\ status session' = ended
            /\ endedAt session' = Some now
            /\ id session' = id session
            /\ candidateId session' = candidateId session
            /\ companyId session' = companyId session
            /\ role session' = role session
            /\ consent session' = consent session
            /\ startedAt session' = startedAt session)
      /\ (forall other, other <> sessionId ->
            sessions (snd r) !! other = sessions s !! other)
      /\ fraudSignals (snd r) = fraudSignals s
      /\ transcriptChunks (snd r) = transcriptChunks s
      /\ screenEvents (snd r) = screenEvents s
      /\ compileEvents (snd r) = compileEvents s
      /\ keystrokeEvents (snd r) = keystrokeEvents s
      /\ codeSamples (snd r) = codeSamples s
      /\ keystrokeAnalyzer (snd r) = keystrokeAnalyzer s
  | None => r = (Throws "Session not found", s)
  end.
Proof.
  intros r. unfold r, endInterview.
  destruct (sessions s !! sessionId) as [session|]; [|reflexivity].
  cbn. split; [reflexivity|]. split.
  - eexists. rewrite lookup_insert_eq. split; [reflexivity|]. cbn. tauto.
  - split; [|tauto]. intros other Hne. apply lookup_insert_ne. congruence.
Qed.

(** C9, amended. With a non-empty score history, two calls of
    [getLatestScore] on the same state return the same snapshot, whenever
    they are made.  With an empty history each call returns the default for
    the session stamped with the time of that call, so the two results agree
    on the session, score, level and reasons. *)
Theorem getLatestScore_repeatable (now1 now2 : Z) (sessionId : string) (s : t) :
  (default [] (fraudSignals s !! sessionId) <> [] ->
   getLatestScore now1 sessionId s = getLatestScore now2 sessionId s)
  /\ (default [] (fraudSignals s !! sessionId) = [] ->
      getLatestScore now1 sessionId s = mkFraudScore sessionId 0 low [] now1
      /\ getLatestScore now2 sessionId s = mkFraudScore sessionId 0 low [] now2).
Proof.
  unfold getLatestScore, defaultScore.
  destruct (default [] (fraudSignals s !! sessionId)) as [|f l] eqn:E using rev_ind.
  - split; [congruence|]. intros _. split; reflexivity.
  - rewrite last_snoc. split; [reflexivity|].
    intros Hnil. destruct l; discriminate Hnil.
Qed.

(** *** Scenarios, with an analyzer that finds nothing in the code *)

Section Scenarios.
#[local] Existing Instance CodeStylometryAnalyzer.silent.

Definition pressAt (t : Z) : KeystrokeEvent := mkKeystrokeEvent "s1" t "a" down.
Definition pasteAt (t : Z) : ScreenEvent := mkScreenEvent None "s1" t PASTE None.
Definition switchAt (t : Z) : ScreenEvent :=
  mkScreenEvent None "s1" t WINDOW_SWITCH None.
Definition chunkAt (n startMs endMs : Z) : TranscriptChunk :=
  mkChunk None "s1" n "hello" startMs endMs None.

(** One keystroke on a fresh service. *)
Definition afterOneKey : t := snd (ingestKeystrokeEvent 5 (pressAt 0) new).

(** One paste; two window switches; and a transcript chunk followed by
    three key presses at 0, 1000 and 3000 ms. *)
Definition afterOnePaste : t := snd (ingestScreenEvent 10 "u1" (pasteAt 5) new).

Definition afterTwoSwitches : t :=
  snd (ingestScreenEvent 12 "u2" (switchAt 7)
         (snd (ingestScreenEvent 10 "u1" (switchAt 5) new))).

Definition afterSteadyTyping : t :=
  snd (ingestKeystrokeEvent 4000 (pressAt 3000)
         (snd (ingestKeystrokeEvent 2000 (pressAt 1000)
                 (snd (ingestKeystrokeEvent 1000 (pressAt 0)
                         (snd (ingestTranscript 600 "u0" (chunkAt 1 0 500) new))))))).

(** Two chunks arriving with the later window first, then two keystrokes
    arriving with the later time first. *)
Definition afterLateArrivals : t :=
  snd (ingestKeystrokeEvent 40 (pressAt 50)
         (snd (ingestKeystrokeEvent 30 (pressAt 100)
                 (snd (ingestTranscript 20 "u2" (chunkAt 2 0 500)
                         (snd (ingestTranscript 10 "u1" (chunkAt 1 1000 2000) new))))))).

End Scenarios.

(** C1. A keystroke ingested for a session without transcript: whatever the
    event and the stylometry analyzer, the snapshot appended to the history
    of that session is labelled ['unknown'].  On [afterOneKey] the
    analyzer holds the keystroke in the log of ["s1"], no profile was made
    for ["s1"], the typing verdict that the rescoring used is the empty one
    of the key ['unknown'], and the profile of the log of ["s1"] itself is
    suspicious with confidence 0.6. *)
Theorem keystroke_session_scored_as_unknown :
  (forall (csa : CodeStylometryAnalyzer.t) (now now' : Z) (data : KeystrokeEvent),
      fs_sessionId (getLatestScore now' (ke_sessionId data)
                      (snd (ingestKeystrokeEvent now data new)))
      = "unknown")
  /\ fraudSignals afterOneKey !! "s1" = Some [mkFraudScore "unknown" 0 low [] 5]
  /\ KeystrokeAnalyzer.keystrokeEvents (keystrokeAnalyzer afterOneKey) !! "s1"
     = Some [pressAt 0]
  /\ KeystrokeAnalyzer.typingProfiles (keystrokeAnalyzer afterOneKey) !! "s1" = None
  /\ typingAnomalies
       (signalsFor (csa := CodeStylometryAnalyzer.silent) 6 "s1" afterOneKey)
     = KeystrokeAnalyzer.noAnomalies
  /\ (let own :=
        KeystrokeAnalyzer.detectOnProfile
          (fst (KeystrokeAnalyzer.generateTypingProfile "s1"
                  (keystrokeAnalyzer afterOneKey))) in
      isSuspicious own = true /\ (confidence own == 6 # 10)%Q).
Proof.
  split.
  - intros csa now now' data. apply first_keystroke_labelled_unknown.
  - vm_compute. repeat split; congruence.
Qed.

(** C2, as stated, fails: with one paste the raw sum is 0 where the claimed
    sum is 6; with two window switches likewise; and with a typing verdict
    of confidence 0.2, which is not suspicious, likewise. *)
Lemma raw_sum_unguarded_fails :
  (pasteBursts (behavioralAnalysis (signalsFor (csa := CodeStylometryAnalyzer.silent) 11 "s1" afterOnePaste)) = 1%nat
   /\ ~ (rawScoreOf (signalsFor (csa := CodeStylometryAnalyzer.silent) 11 "s1" afterOnePaste)
         == claimedRawSum (signalsFor (csa := CodeStylometryAnalyzer.silent) 11 "s1" afterOnePaste))%Q)
  /\ (tabSwitches (behavioralAnalysis (signalsFor (csa := CodeStylometryAnalyzer.silent) 13 "s1" afterTwoSwitches)) = 2%nat
      /\ ~ (rawScoreOf (signalsFor (csa := CodeStylometryAnalyzer.silent) 13 "s1" afterTwoSwitches)
            == claimedRawSum (signalsFor (csa := CodeStylometryAnalyzer.silent) 13 "s1" afterTwoSwitches))%Q)
  /\ ((confidence (typingAnomalies (signalsFor (csa := CodeStylometryAnalyzer.silent) 4001 "s1" afterSteadyTyping)) == 2 # 10)%Q
      /\ ~ (rawScoreOf (signalsFor (csa := CodeStylometryAnalyzer.silent) 4001 "s1" afterSteadyTyping)
            == claimedRawSum (signalsFor (csa := CodeStylometryAnalyzer.silent) 4001 "s1" afterSteadyTyping))%Q).
Proof. vm_compute. repeat split; congruence. Qed.

(** C6. [ingestTranscript] leaves the transcript log of the session sorted
    by [startMs] once it has two entries, whatever the arrival order.  On
    [afterLateArrivals] the stored transcript log and the keystroke log of
    the analyzer are both in time order, the reverse of the arrival order;
    the keystroke log of the service itself is in arrival order. *)
Theorem stored_logs_reordered :
  (forall (csa : CodeStylometryAnalyzer.t) (now : Z) (uuid : string)
          (data : TranscriptChunk) (s : t),
      let appended :=
        default [] (transcriptChunks s !! tc_sessionId data)
        ++ [mkChunk (Some uuid) (tc_sessionId data) (seq data) (text data)
              (startMs data) (endMs data) (speaker data)] in
      transcriptChunks (snd (ingestTranscript now uuid data s)) !! tc_sessionId data
      = Some (if (length appended <? 2)%nat then appended
              else sortBy startMs appended))
  /\ transcriptChunks afterLateArrivals !! "s1"
     = Some [mkChunk (Some "u2") "s1" 2 "hello" 0 500 None;
             mkChunk (Some "u1") "s1" 1 "hello" 1000 2000 None]
  /\ KeystrokeAnalyzer.keystrokeEvents (keystrokeAnalyzer afterLateArrivals) !! "s1"
     = Some [pressAt 50; pressAt 100]
  /\ keystrokeEvents afterLateArrivals !! "s1" = Some [pressAt 100; pressAt 50].
Proof.
  split.
  - intros csa now uuid data s. apply ingestTranscript_log.
  - vm_compute. repeat split.
Qed.

Lemma getLatestScore_repeatable_witness :
  default [] (fraudSignals afterOneKey !! "s1") <> []
  /\ getLatestScore 1000 "s1" afterOneKey = getLatestScore 2000 "s1" afterOneKey.
Proof.
  assert (default [] (fraudSignals afterOneKey !! "s1") <> []) as Hhistory
    by (vm_compute; discriminate).
  split; [exact Hhistory|].
  exact (proj1 (getLatestScore_repeatable 1000 2000 "s1" afterOneKey) Hhistory).
Defined.

(** C9, as stated, fails on an empty history: the two defaults carry the
    times of their calls. *)
Lemma getLatestScore_default_differs :
  getLatestScore 1000 "s1" new <> getLatestScore 2000 "s1" new.
Proof. vm_compute. discriminate. Qed.

End ServiceFacts.

(** * Further properties *)

(** ** Sorting *)

Module SortFacts.
Import Num Stdlib.Sorting.Sorted.

Section Sorting.
Context {A : Type} (key : A -> Z).

Definition byKey (a b : A) : Prop := (key a <= key b)%Z.

Lemma insertBy_perm (x : A) (l : list A) : insertBy key x l ≡ₚ x :: l.
Proof.
  induction l as [|y l IH]; [reflexivity|]. cbn [insertBy].
  destruct (key y <? key x)%Z; [|reflexivity].
  rewrite IH. apply Permutation_swap.
Qed.

Lemma sortBy_perm (l : list A) : sortBy key l ≡ₚ l.
Proof.
  induction l as [|x l IH]; [reflexivity|]. cbn [sortBy].
  rewrite insertBy_perm, IH. reflexivity.
Qed.

Lemma sortBy_length (l : list A) : length (sortBy key l) = length l.
Proof. apply Permutation_length, sortBy_perm. Qed.

Lemma insertBy_sorted (x : A) (l : list A) :
  StronglySorted byKey l -> StronglySorted byKey (insertBy key x l).
Proof.
  induction 1 as [|y l Hl IH Hy]; cbn [insertBy].
  - repeat constructor.
  - destruct (key y <? key x)%Z eqn:E.
    + apply Z.ltb_lt in E. constructor; [exact IH|].
      rewrite insertBy_perm. constructor; [unfold byKey; lia | exact Hy].
    + apply Z.ltb_ge in E. constructor; [constructor; assumption|].
      constructor; [exact E|].
      eapply Forall_impl; [exact Hy|]. unfold byKey. intros z Hz. cbn in Hz. lia.
Qed.

Lemma sortBy_sorted (l : list A) : StronglySorted byKey (sortBy key l).
Proof.
  induction l as [|x l IH]; cbn [sortBy]; [constructor|].
  apply insertBy_sorted, IH.
Qed.

Lemma sortBy_fixed (l : list A) : StronglySorted byKey l -> sortBy key l = l.
Proof.
  induction 1 as [|x l Hl IH Hx]; [reflexivity|]. cbn [sortBy]. rewrite IH.
  destruct Hx as [|y l Hxy _]; [reflexivity|]. cbn [insertBy].
  unfold byKey in Hxy. destruct (key y <? key x)%Z eqn:E; [|reflexivity].
  apply Z.ltb_lt in E. lia.
Qed.

Lemma sortBy_idempotent (l : list A) : sortBy key (sortBy key l) = sortBy key l.
Proof. apply sortBy_fixed, sortBy_sorted. Qed.

(** Stability: among the elements that satisfy a predicate constant on each
    key class... the elements with a given key keep their order. *)
Lemma insertBy_filter_key (k : Z) (x : A) (l : list A) :
  StronglySorted byKey l ->
  List.filter (fun a => (key a =? k)%Z) (insertBy key x l)
  = List.filter (fun a => (key a =? k)%Z) (x :: l).
Proof.
  induction 1 as [|y l Hl IH Hy]; [reflexivity|]. cbn [insertBy].
  destruct (key y <? key x)%Z eqn:E; [|reflexivity].
  apply Z.ltb_lt in E. cbn [List.filter] in IH |- *. rewrite IH.
  destruct (key x =? k)%Z eqn:Ex, (key y =? k)%Z eqn:Ey; try reflexivity.
  apply Z.eqb_eq in Ex, Ey. lia.
Qed.

Lemma sortBy_stable (k : Z) (l : list A) :
  List.filter (fun a => (key a =? k)%Z) (sortBy key l)
  = List.filter (fun a => (key a =? k)%Z) l.
Proof.
  induction l as [|x l IH]; [reflexivity|]. cbn [sortBy].
  rewrite insertBy_filter_key by apply sortBy_sorted.
  cbn [List.filter]. rewrite IH. reflexivity.
Qed.

End Sorting.
End SortFacts.

(** ** The keystroke log and its digraphs *)

Module KeystrokeExtras.
Import Num NumFacts Stdlib.Sorting.Sorted SortFacts KeystrokeAnalyzer.

(** *** One pass over the log *)

(** The digraph that an adjacent pair of events stands for. *)
Definition digraphOf (sessionId : string) (a b : KeystrokeEvent) : KeystrokeDigraph :=
  mkDigraph sessionId (ke_key a) (ke_key b) (ke_t b - ke_t a) (ke_t b).

(** The test of [analyzeDigraphs] on an adjacent pair. *)
Definition qualifies (a b : KeystrokeEvent) : bool :=
  KeyAction_eqb (ke_action a) up && KeyAction_eqb (ke_action b) down
  && inBand (ke_t b - ke_t a).

Lemma qualifies_spec (a b : KeystrokeEvent) :
  qualifies a b = true
  <-> ke_action a = up /\ ke_action b = down /\ (10 <= ke_t b - ke_t a <= 2000)%Z.
Proof.
  unfold qualifies, inBand.
  rewrite !andb_true_iff, !Z.leb_le.
  destruct (ke_action a), (ke_action b); cbn; intuition (try discriminate; auto).
Qed.

Lemma scanDigraphs_cons (sessionId : string) (a b : KeystrokeEvent)
  (rest : list KeystrokeEvent) :
  scanDigraphs sessionId (a :: b :: rest)
  = (if qualifies a b then [digraphOf sessionId a b] else [])
    ++ scanDigraphs sessionId (b :: rest).
Proof. reflexivity. Qed.

(** X1. One pass over a log yields exactly the digraphs of its adjacent
    pairs made of a release followed by a press between 10 and 2000 ms
    later. *)
Theorem scanDigraphs_spec (sessionId : string) (events : list KeystrokeEvent)
  (d : KeystrokeDigraph) :
  In d (scanDigraphs sessionId events)
  <-> exists (i : nat) (a b : KeystrokeEvent),
        events !! i = Some a /\ events !! S i = Some b
        /\ ke_action a = up /\ ke_action b = down
        /\ (10 <= ke_t b - ke_t a <= 2000)%Z
        /\ d = digraphOf sessionId a b.
Proof.
  induction events as [|a rest IH].
  { split; [intros [] | intros (i & ? & ? & H & _); destruct i; discriminate H]. }
  destruct rest as [|b rest'].
  { split; [intros [] | intros (i & ? & ? & _ & H & _); destruct i; discriminate H]. }
  rewrite scanDigraphs_cons, in_app_iff, IH. split.
  - intros [Hhead | (i & a' & b' & Ha & Hb & Hrest)].
    + destruct (qualifies a b) eqn:Hq; [|destruct Hhead].
      destruct Hhead as [<- | []]. apply qualifies_spec in Hq.
      exists 0%nat, a, b. tauto.
    + exists (S i), a', b'. auto.
  - intros (i & a' & b' & Ha & Hb & Hup & Hdown & Hband & ->).
    destruct i as [|i].
    + cbn in Ha, Hb. injection Ha as <-. injection Hb as <-.
      left. rewrite (proj2 (qualifies_spec a b)) by tauto. left. reflexivity.
    + right. exists i, a', b'. repeat split; first [assumption | reflexivity | lia].
Qed.

Lemma scanDigraphs_short (sessionId : string) (events : list KeystrokeEvent) :
  (length events < 2)%nat -> scanDigraphs sessionId events = [].
Proof. destruct events as [|a [|b rest]]; cbn; intros; [reflexivity..|lia]. Qed.

(** *** Views of the analyzer *)

Definition logOf (sessionId : string) (ka : t) : list KeystrokeEvent :=
  default [] (keystrokeEvents ka !! sessionId).
Definition digraphsOf (sessionId : string) (ka : t) : list KeystrokeDigraph :=
  default [] (digraphs ka !! sessionId).
Definition trigraphsOf (sessionId : string) (ka : t) : list KeystrokeTrigraph :=
  default [] (trigraphs ka !! sessionId).

Lemma recordKeystroke_logOf (sessionId : string) (e : KeystrokeEvent) (ka : t) :
  logOf sessionId (recordKeystroke sessionId e ka) = logOf sessionId ka ++ [e].
Proof.
  unfold logOf, recordKeystroke, analyzeTrigraphs, analyzeDigraphs.
  repeat match goal with |- context [if ?b then _ else _] => destruct b end;
    cbn [keystrokeEvents]; rewrite lookup_insert_eq; reflexivity.
Qed.

Lemma recordKeystroke_digraphsOf (sessionId : string) (e : KeystrokeEvent) (ka : t) :
  digraphsOf sessionId (recordKeystroke sessionId e ka)
  = digraphsOf sessionId ka ++ scanDigraphs sessionId (logOf sessionId ka ++ [e]).
Proof.
  unfold digraphsOf, logOf, recordKeystroke, analyzeTrigraphs, analyzeDigraphs.
  set (events := default [] (keystrokeEvents ka !! sessionId) ++ [e]).
  destruct (length events <? 2)%nat eqn:E2.
  - apply Nat.ltb_lt in E2. rewrite (scanDigraphs_short _ _ E2), app_nil_r.
    destruct (length events <? 3)%nat; reflexivity.
  - destruct (length events <? 3)%nat; cbn [digraphs];
      rewrite lookup_insert_eq; reflexivity.
Qed.

(** [recordKeystroke] called for one session with a list of events. *)
Definition recordFor (sessionId : string) (events : list KeystrokeEvent) (ka : t) : t :=
  fold_left (fun ka e => recordKeystroke sessionId e ka) events ka.

Lemma recordFor_cons (sessionId : string) (e : KeystrokeEvent)
  (events : list KeystrokeEvent) (ka : t) :
  recordFor sessionId (e :: events) ka
  = recordFor sessionId events (recordKeystroke sessionId e ka).
Proof. reflexivity. Qed.

Lemma recordFor_logOf (sessionId : string) (events : list KeystrokeEvent) (ka : t) :
  logOf sessionId (recordFor sessionId events ka) = logOf sessionId ka ++ events.
Proof.
  revert ka. induction events as [|e events IH]; intros ka.
  - cbn. rewrite app_nil_r. reflexivity.
  - rewrite recordFor_cons, IH, recordKeystroke_logOf, <- app_assoc. reflexivity.
Qed.

Lemma flat_map_seq_shift {B} (F : nat -> list B) (start len : nat) :
  flat_map F (List.seq (S start) len)
  = flat_map (fun k => F (S k)) (List.seq start len).
Proof.
  revert start. induction len as [|len IH]; intros start; [reflexivity|].
  cbn [List.seq flat_map]. rewrite IH. reflexivity.
Qed.

Lemma recordFor_digraphsOf (sessionId : string) (events : list KeystrokeEvent) (ka : t) :
  digraphsOf sessionId (recordFor sessionId events ka)
  = digraphsOf sessionId ka
    ++ flat_map (fun k => scanDigraphs sessionId (logOf sessionId ka ++ take k events))
         (List.seq 1%nat (length events)).
Proof.
  revert ka. induction events as [|e events IH]; intros ka.
  - cbn. rewrite app_nil_r. reflexivity.
  - rewrite recordFor_cons, IH, recordKeystroke_digraphsOf, recordKeystroke_logOf.
    cbn [length List.seq flat_map]. rewrite (flat_map_seq_shift _ 1%nat), <- app_assoc.
    f_equal. f_equal.
    apply flat_map_ext. intros k. cbn [take]. rewrite <- app_assoc. reflexivity.
Qed.

(** X2. Recording a list of events on a fresh session keeps the events in
    the order of the calls, and stores, for each call in turn, the digraphs
    of the whole log as it stands after that call: the stored collection is
    the concatenation of one pass over every prefix of the log. *)
Theorem recordFor_fresh (sessionId : string) (events : list KeystrokeEvent) :
  logOf sessionId (recordFor sessionId events new) = events
  /\ digraphsOf sessionId (recordFor sessionId events new)
     = flat_map (fun k => scanDigraphs sessionId (take k events))
         (List.seq 1%nat (length events)).
Proof.
  split.
  - apply recordFor_logOf.
  - rewrite recordFor_digraphsOf. reflexivity.
Qed.

(** *** Profile generation *)

Lemma getSessionDuration_sorted (events : list KeystrokeEvent) :
  snd (getSessionDuration events) = sortBy ke_t events.
Proof.
  unfold getSessionDuration.
  destruct (length events <? 2)%nat eqn:E.
  - destruct events as [|a [|b rest]]; try reflexivity. discriminate E.
  - destruct (head (sortBy ke_t events)), (last (sortBy ke_t events)); reflexivity.
Qed.

Lemma getSessionDuration_again (events : list KeystrokeEvent) :
  getSessionDuration (snd (getSessionDuration events)) = getSessionDuration events.
Proof.
  rewrite getSessionDuration_sorted. unfold getSessionDuration.
  rewrite sortBy_length, sortBy_idempotent.
  destruct (length events <? 2)%nat eqn:E; [|reflexivity].
  destruct events as [|a [|b rest]]; try reflexivity. discriminate E.
Qed.

(** The profile as a function of the sorted log and the stored digraphs and
    trigraphs: what [generateTypingProfile] computes on a non-empty log. *)
Lemma generateTypingProfile_nonempty (sessionId : string) (ka : t) :
  logOf sessionId ka <> [] ->
  keystrokeEvents (snd (generateTypingProfile sessionId ka))
  = <[sessionId := sortBy ke_t (logOf sessionId ka)]> (keystrokeEvents ka)
  /\ typingProfiles (snd (generateTypingProfile sessionId ka))
     = <[sessionId := fst (generateTypingProfile sessionId ka)]> (typingProfiles ka)
  /\ digraphs (snd (generateTypingProfile sessionId ka)) = digraphs ka
  /\ trigraphs (snd (generateTypingProfile sessionId ka)) = trigraphs ka
  /\ tp_sessionId (fst (generateTypingProfile sessionId ka)) = sessionId.
Proof.
  intros Hlog. unfold generateTypingProfile. fold (logOf sessionId ka).
  destruct (logOf sessionId ka) as [|e0 rest] eqn:E; [congruence|].
  cbn [length Nat.eqb].
  pose proof (getSessionDuration_sorted (e0 :: rest)) as Hsorted.
  destruct (getSessionDuration (e0 :: rest)) as [duration sorted].
  cbn [snd] in Hsorted. subst sorted. cbn. auto.
Qed.

Lemma generateTypingProfile_empty (sessionId : string) (ka : t) :
  logOf sessionId ka = [] ->
  generateTypingProfile sessionId ka = (createEmptyProfile sessionId, ka).
Proof.
  intros Hlog. unfold generateTypingProfile. fold (logOf sessionId ka).
  rewrite Hlog. reflexivity.
Qed.

(** X3. On a session with a non-empty log, [generateTypingProfile] stores
    the profile it returns, and leaves the log of the session sorted by
    time: the same events, in non-decreasing order of [t], events of equal
    time in their previous order.  Digraphs and trigraphs are not touched. *)
Theorem generateTypingProfile_effect (sessionId : string) (ka : t) :
  logOf sessionId ka <> [] ->
  let r := generateTypingProfile sessionId ka in
  getTypingProfile sessionId (snd r) = Some (fst r)
  /\ logOf sessionId (snd r) ≡ₚ logOf sessionId ka
  /\ StronglySorted (byKey ke_t) (logOf sessionId (snd r))
  /\ (forall time : Z,
        List.filter (fun e => (ke_t e =? time)%Z) (logOf sessionId (snd r))
        = List.filter (fun e => (ke_t e =? time)%Z) (logOf sessionId ka))
  /\ digraphs (snd r) = digraphs ka
  /\ trigraphs (snd r) = trigraphs ka.
Proof.
  intros Hlog r.
  destruct (generateTypingProfile_nonempty sessionId ka Hlog)
    as (Hevents & Hprofiles & Hdigraphs & Htrigraphs & _).
  fold r in Hevents, Hprofiles, Hdigraphs, Htrigraphs.
  assert (logOf sessionId (snd r) = sortBy ke_t (logOf sessionId ka)) as Hsorted.
  { unfold logOf at 1. rewrite Hevents, lookup_insert_eq. reflexivity. }
  split; [unfold getTypingProfile; rewrite Hprofiles; apply lookup_insert_eq|].
  rewrite Hsorted.
  split; [apply sortBy_perm|]. split; [apply sortBy_sorted|].
  split; [intros time; apply sortBy_stable|]. auto.
Qed.

(** X4. [generateTypingProfile] is idempotent: called again at once, it
    returns the same profile and leaves the analyzer as the first call left
    it. *)
Theorem generateTypingProfile_idempotent (sessionId : string) (ka : t) :
  generateTypingProfile sessionId (snd (generateTypingProfile sessionId ka))
  = generateTypingProfile sessionId ka.
Proof.
  destruct (logOf sessionId ka) as [|e0 rest] eqn:Hlog.
  { rewrite (generateTypingProfile_empty _ _ Hlog). cbn [snd].
    apply generateTypingProfile_empty, Hlog. }
  unfold generateTypingProfile at 2 3. fold (logOf sessionId ka). rewrite Hlog.
  cbn [length Nat.eqb].
  pose proof (getSessionDuration_again (e0 :: rest)) as Hagain.
  pose proof (getSessionDuration_sorted (e0 :: rest)) as Hsorted.
  destruct (getSessionDuration (e0 :: rest)) as [duration sorted] eqn:Hfirst.
  cbn [snd] in Hagain, Hsorted. cbn [snd].
  unfold generateTypingProfile. cbn [keystrokeEvents digraphs trigraphs typingProfiles].
  rewrite lookup_insert_eq. cbn [from_option Datatypes.id].
  assert ((length sorted =? 0)%nat = false) as ->.
  { rewrite Hsorted, sortBy_length. reflexivity. }
  rewrite Hagain. rewrite !insert_insert_eq. reflexivity.
Qed.

Definition press (time : Z) (key : string) : KeystrokeEvent :=
  mkKeystrokeEvent "s1" time key down.
Definition release (time : Z) (key : string) : KeystrokeEvent :=
  mkKeystrokeEvent "s1" time key up.

(** Two key presses recorded with the later one first. *)
Definition lateFirst : t := recordFor "s1" [press 200 "b"; press 100 "a"] new.

Lemma generateTypingProfile_effect_witness :
  logOf "s1" lateFirst <> []
  /\ logOf "s1" (snd (generateTypingProfile "s1" lateFirst))
     ≡ₚ logOf "s1" lateFirst.
Proof.
  assert (logOf "s1" lateFirst <> []) as Hlog by (vm_compute; discriminate).
  split; [exact Hlog|].
  exact (proj1 (proj2 (generateTypingProfile_effect "s1" lateFirst Hlog))).
Defined.

End KeystrokeExtras.

(** ** Maps kept as association lists *)

Module GroupFacts.
Import Num NumFacts.

(** [groups.get(k)] on a map kept as an association list. *)
Definition mapGet {B} (k : string) (m : list (string * B)) : option B :=
  snd <$> List.find (fun g => String.eqb (fst g) k) m.

Lemma mapGet_cons {B} (k k' : string) (v : B) (m : list (string * B)) :
  mapGet k ((k', v) :: m) = if String.eqb k' k then Some v else mapGet k m.
Proof. unfold mapGet. cbn. destruct (String.eqb k' k); reflexivity. Qed.

Lemma mapGet_map {B C} (f : B -> C) (k : string) (m : list (string * B)) :
  mapGet k (map (fun '(key, v) => (key, f v)) m) = f <$> mapGet k m.
Proof.
  induction m as [|[k' v] m IH]; [reflexivity|].
  cbn [map]. rewrite !mapGet_cons. destruct (String.eqb k' k); [reflexivity|exact IH].
Qed.

Lemma map_fst_map {B C} (f : B -> C) (m : list (string * B)) :
  map fst (map (fun '(key, v) => (key, f v)) m) = map fst m.
Proof. induction m as [|[k v] m IH]; [reflexivity|]. cbn. rewrite IH. reflexivity. Qed.

Lemma mapGet_None {B} (k : string) (m : list (string * B)) :
  mapGet k m = None <-> k ∉ map fst m.
Proof.
  induction m as [|[k' v] m IH]; [cbn; split; [intros _; apply not_elem_of_nil | reflexivity]|].
  rewrite mapGet_cons. cbn [map fst]. rewrite not_elem_of_cons.
  destruct (String.eqb_spec k' k) as [->|Hne].
  - split; [discriminate | intros [H _]; congruence].
  - rewrite IH. split; [intros H; split; [congruence | exact H] | intros [_ H]; exact H].
Qed.

Section GroupPush.
Context {B : Type}.
Implicit Types (groups : list (string * list B)) (k : string) (v : B).

Lemma mapGet_groupPush k k' v groups :
  mapGet k (groupPush k' v groups)
  = if String.eqb k' k then Some (default [] (mapGet k groups) ++ [v])
    else mapGet k groups.
Proof.
  induction groups as [|[k0 vs] groups IH]; cbn [groupPush].
  - rewrite mapGet_cons. destruct (String.eqb k' k); reflexivity.
  - destruct (String.eqb_spec k0 k') as [->|Hne]; rewrite !mapGet_cons.
    + destruct (String.eqb k' k); reflexivity.
    + rewrite IH. destruct (String.eqb_spec k0 k) as [->|Hne'].
      * destruct (String.eqb_spec k' k) as [->|]; [congruence|reflexivity].
      * reflexivity.
Qed.

Lemma groupPush_keys k v groups :
  map fst (groupPush k v groups)
  = if decide (k ∈ map fst groups) then map fst groups
    else map fst groups ++ [k].
Proof.
  induction groups as [|[k0 vs] groups IH]; cbn [groupPush map fst].
  - destruct (decide (k ∈ [])) as [Hin|]; [|reflexivity].
    apply elem_of_nil in Hin. destruct Hin.
  - destruct (String.eqb_spec k0 k) as [->|Hne]; cbn [map fst].
    + destruct (decide (k ∈ k :: map fst groups)) as [|Hn]; [reflexivity|].
      exfalso. apply Hn. left.
    + rewrite IH. destruct (decide (k ∈ map fst groups)) as [Hin|Hnin];
        destruct (decide (k ∈ k0 :: map fst groups)) as [Hin'|Hnin'];
        try reflexivity.
      * exfalso. apply Hnin'. right. exact Hin.
      * apply elem_of_cons in Hin' as [?|?]; [congruence|contradiction].
Qed.

Lemma groupPush_NoDup k v groups :
  NoDup (map fst groups) -> NoDup (map fst (groupPush k v groups)).
Proof.
  intros Hnd. rewrite groupPush_keys.
  destruct (decide (k ∈ map fst groups)) as [|Hnin]; [exact Hnd|].
  apply NoDup_app. split; [exact Hnd|]. split.
  - intros x Hx Hk. apply list_elem_of_singleton in Hk. subst. contradiction.
  - apply NoDup_singleton.
Qed.

(** Pushing keeps every group non-empty and within a bound that the pushed
    value meets. *)
Lemma groupPush_Forall (P : B -> Prop) k v groups :
  P v ->
  Forall (fun g => snd g <> [] /\ Forall P (snd g)) groups ->
  Forall (fun g => snd g <> [] /\ Forall P (snd g)) (groupPush k v groups).
Proof.
  intros Hv. induction 1 as [|[k0 vs] groups [Hne HP] Hrest IH]; cbn [groupPush].
  - repeat constructor; [discriminate | exact Hv].
  - destruct (String.eqb k0 k).
    + constructor; [|exact Hrest]. cbn [snd] in *. split.
      * destruct vs; discriminate.
      * apply Forall_app. split; [exact HP | repeat constructor; exact Hv].
    + constructor; [split; assumption | exact IH].
Qed.

End GroupPush.

(** *** Means *)

Lemma fold_left_Zadd (xs : list Z) (acc : Z) :
  fold_left Z.add xs acc = (acc + fold_right Z.add 0 xs)%Z.
Proof.
  revert acc. induction xs as [|x xs IH]; intros acc; cbn; [lia|].
  rewrite IH. lia.
Qed.

Lemma sumZ_bounds (lo hi : Z) (xs : list Z) :
  Forall (fun x => (lo <= x <= hi)%Z) xs ->
  (lo * Z.of_nat (length xs) <= sumZ xs <= hi * Z.of_nat (length xs))%Z.
Proof.
  unfold sumZ. rewrite fold_left_Zadd.
  induction 1 as [|x xs Hx Hxs IH]; cbn [fold_right length]; [lia|].
  rewrite Nat2Z.inj_succ. lia.
Qed.

(** The mean of a non-empty list of integers lies between any bounds that
    all of them meet. *)
Lemma averageZ_bounds (lo hi : Z) (xs : list Z) :
  xs <> [] ->
  Forall (fun x => (lo <= x <= hi)%Z) xs ->
  (ofZ lo <= KeystrokeAnalyzer.averageZ xs <= ofZ hi)%Q.
Proof.
  intros Hne Hall. pose proof (sumZ_bounds lo hi xs Hall) as [Hlo Hhi].
  assert (0 < Z.of_nat (length xs))%Z as Hlen by (destruct xs; [congruence | cbn; lia]).
  unfold KeystrokeAnalyzer.averageZ, ofZ, ofNat.
  assert (0 < inject_Z (Z.of_nat (length xs)))%Q as HlenQ
      by (change 0%Q with (inject_Z 0); rewrite <- Zlt_Qlt; exact Hlen).
  split.
  - apply Qle_shift_div_l; [exact HlenQ|].
    rewrite <- inject_Z_mult, <- Zle_Qle. exact Hlo.
  - apply Qle_shift_div_r; [exact HlenQ|].
    rewrite <- inject_Z_mult, <- Zle_Qle. exact Hhi.
Qed.

End GroupFacts.

(** ** The typing profile *)

Module ProfileExtras.
Import Num NumFacts SortFacts GroupFacts KeystrokeAnalyzer KeystrokeExtras.

(** *** Grouping *)

(** The latencies stored for one key pair, in the order of the store. *)
Definition latenciesOf (pair : string) (ds : list KeystrokeDigraph) : list Z :=
  map dg_latency (List.filter (fun d => String.eqb (keyPair d) pair) ds).

Definition wellGrouped {B} (groups : list (string * list B)) : Prop :=
  NoDup (map fst groups) /\ Forall (fun g => snd g <> [] /\ Forall (fun _ => True) (snd g)) groups.

Lemma groupDigraphs_fold (ds : list KeystrokeDigraph) (acc : list (string * list Z))
  (pair : string) :
  default [] (mapGet pair
                (fold_left (fun groups d => groupPush (keyPair d) (dg_latency d) groups)
                   ds acc))
  = default [] (mapGet pair acc) ++ latenciesOf pair ds.
Proof.
  revert acc. induction ds as [|d ds IH]; intros acc; cbn [fold_left].
  - unfold latenciesOf. cbn. rewrite app_nil_r. reflexivity.
  - rewrite IH, mapGet_groupPush. unfold latenciesOf. cbn [List.filter].
    destruct (String.eqb (keyPair d) pair); cbn [map from_option Datatypes.id].
    + rewrite <- app_assoc. reflexivity.
    + reflexivity.
Qed.

Lemma groupDigraphs_wellGrouped (ds : list KeystrokeDigraph)
  (acc : list (string * list Z)) :
  wellGrouped acc ->
  wellGrouped (fold_left (fun groups d => groupPush (keyPair d) (dg_latency d) groups)
                 ds acc).
Proof.
  revert acc. induction ds as [|d ds IH]; intros acc Hacc; [exact Hacc|].
  cbn [fold_left]. apply IH. destruct Hacc as [Hnd Hne]. split.
  - apply groupPush_NoDup, Hnd.
  - apply groupPush_Forall; [exact I | exact Hne].
Qed.

Lemma mapGet_nonempty {B} (k : string) (groups : list (string * list B)) (vs : list B) :
  Forall (fun g => snd g <> [] /\ Forall (fun _ => True) (snd g)) groups ->
  mapGet k groups = Some vs -> vs <> [].
Proof.
  induction 1 as [|[k0 vs0] groups [Hne _] Hrest IH]; [discriminate|].
  rewrite mapGet_cons. destruct (String.eqb k0 k); [|exact IH].
  intros [= <-]. exact Hne.
Qed.

Lemma groupDigraphs_lookup (ds : list KeystrokeDigraph) (pair : string) :
  mapGet pair (groupDigraphsByKeyPair ds)
  = match latenciesOf pair ds with
    | [] => None
    | latencies => Some latencies
    end.
Proof.
  assert (wellGrouped (groupDigraphsByKeyPair ds)) as [_ Hne].
  { apply groupDigraphs_wellGrouped. split; constructor. }
  pose proof (groupDigraphs_fold ds [] pair) as Hfold.
  fold (groupDigraphsByKeyPair ds) in Hfold.
  change (default [] (mapGet pair [])) with (@nil Z) in Hfold. cbn [app] in Hfold.
  destruct (mapGet pair (groupDigraphsByKeyPair ds)) as [vs|] eqn:Hget.
  - pose proof (mapGet_nonempty _ _ _ Hne Hget) as Hvs.
    cbn in Hfold. rewrite <- Hfold. destruct vs; [congruence|reflexivity].
  - cbn in Hfold. rewrite <- Hfold. reflexivity.
Qed.

(** X5. [groupDigraphsByKeyPair] has one group per key pair that occurs,
    and the group of a pair holds the latencies of all the digraphs of that
    pair, in their order; no group is empty. *)
Theorem groupDigraphsByKeyPair_spec (ds : list KeystrokeDigraph) (pair : string) :
  NoDup (map fst (groupDigraphsByKeyPair ds))
  /\ Forall (fun g => snd g <> []) (groupDigraphsByKeyPair ds)
  /\ mapGet pair (groupDigraphsByKeyPair ds)
     = match latenciesOf pair ds with
       | [] => None
       | latencies => Some latencies
       end.
Proof.
  assert (wellGrouped (groupDigraphsByKeyPair ds)) as [Hnd Hne].
  { apply groupDigraphs_wellGrouped. split; constructor. }
  split; [exact Hnd|]. split; [|apply groupDigraphs_lookup].
  eapply Forall_impl; [exact Hne|]. intros g [Hg _]. exact Hg.
Qed.

(** X6. In the profile of a session with a non-empty log, the digraph
    latency of a key pair is the arithmetic mean of the latencies stored for
    that pair, and a pair with no stored digraph has no entry. *)
Theorem profile_digraph_means (sessionId : string) (ka : t) (pair : string) :
  logOf sessionId ka <> [] ->
  mapGet pair (digraphLatencies (fst (generateTypingProfile sessionId ka)))
  = match latenciesOf pair (digraphsOf sessionId ka) with
    | [] => None
    | latencies => Some (averageZ latencies)
    end.
Proof.
  intros Hlog. unfold generateTypingProfile. fold (logOf sessionId ka).
  destruct (logOf sessionId ka) as [|e0 rest]; [congruence|].
  cbn [length Nat.eqb]. destruct (getSessionDuration (e0 :: rest)) as [duration sorted].
  cbn [fst digraphLatencies]. fold (digraphsOf sessionId ka).
  rewrite mapGet_map.
  rewrite groupDigraphs_lookup.
  destruct (latenciesOf pair (digraphsOf sessionId ka)); reflexivity.
Qed.

Lemma profile_digraph_means_witness :
  logOf "s1" (recordFor "s1" [release 0 "a"; press 100 "b"] new) <> []
  /\ mapGet "a-b"
       (digraphLatencies
          (fst (generateTypingProfile "s1"
                  (recordFor "s1" [release 0 "a"; press 100 "b"] new))))
     = Some (averageZ [100%Z]).
Proof.
  assert (logOf "s1" (recordFor "s1" [release 0 "a"; press 100 "b"] new) <> [])
    as Hlog by (vm_compute; discriminate).
  split; [exact Hlog|].
  exact (profile_digraph_means "s1"
           (recordFor "s1" [release 0 "a"; press 100 "b"] new) "a-b" Hlog).
Defined.

(** *** Ranges of the profile *)

Lemma sumQ_nonneg_acc (xs : list Q) (acc : Q) :
  Forall (fun x => (0 <= x)%Q) xs -> (0 <= acc)%Q -> (0 <= fold_left Qplus xs acc)%Q.
Proof.
  intros Hall. revert acc. induction Hall as [|x xs Hx Hxs IH]; intros acc Hacc; [exact Hacc|].
  cbn [fold_left]. apply IH. lra.
Qed.

Lemma Qdiv_nonneg (a b : Q) : (0 <= a)%Q -> (0 <= b)%Q -> (0 <= a / b)%Q.
Proof.
  intros Ha Hb. unfold Qdiv. apply Qmult_le_0_compat; [exact Ha|].
  apply Qinv_le_0_compat, Hb.
Qed.

Lemma ofNat_nonneg (n : nat) : (0 <= ofNat n)%Q.
Proof.
  unfold ofNat. change 0%Q with (inject_Z 0). rewrite <- Zle_Qle. lia.
Qed.

Lemma Qsquare_nonneg (y : Q) : (0 <= y * y)%Q.
Proof.
  destruct (Qlt_le_dec y 0) as [Hneg|Hpos].
  - assert (y * y == (- y) * (- y))%Q as -> by ring.
    apply Qmult_le_0_compat; lra.
  - apply Qmult_le_0_compat; exact Hpos.
Qed.

Lemma varianceQ_nonneg (xs : list Q) : (0 <= varianceQ xs)%Q.
Proof.
  unfold varianceQ, sumQ. apply Qdiv_nonneg; [|apply ofNat_nonneg].
  apply sumQ_nonneg_acc; [|lra].
  apply Forall_forall. intros y Hy. apply list_elem_of_In, in_map_iff in Hy.
  destruct Hy as (x & <- & _). apply Qsquare_nonneg.
Qed.

Lemma scanHolds_bounded (events : list KeystrokeEvent) (acc : list (string * list Z)) :
  Forall (fun g => snd g <> [] /\ Forall (fun d => (1 <= d <= 1999)%Z) (snd g)) acc ->
  Forall (fun g => snd g <> [] /\ Forall (fun d => (1 <= d <= 1999)%Z) (snd g))
    (scanHolds events acc).
Proof.
  revert acc. induction events as [|press rest IH]; intros acc Hacc; [exact Hacc|].
  destruct rest as [|release rest']; [exact Hacc|].
  cbn [scanHolds]. apply IH.
  destruct (KeyAction_eqb (ke_action press) down
            && KeyAction_eqb (ke_action release) up
            && String.eqb (ke_key press) (ke_key release)
            && ((0 <? ke_t release - ke_t press)%Z
                && (ke_t release - ke_t press <? 2000)%Z)) eqn:E; [|exact Hacc].
  apply groupPush_Forall; [|exact Hacc].
  apply andb_true_iff in E as [_ E]. apply andb_true_iff in E as [E1 E2].
  apply Z.ltb_lt in E1, E2. lia.
Qed.

(** X7. Whatever the analyzer holds, the profile generated for a session
    has a non-negative speed and variance, only pauses longer than 100 ms,
    and mean hold durations strictly between 0 and 2000 ms. *)
Theorem profile_ranges (sessionId : string) (ka : t) :
  let p := fst (generateTypingProfile sessionId ka) in
  (0 <= averageSpeed p)%Q
  /\ (0 <= variance p)%Q
  /\ Forall (fun pause => (100 < pause)%Z) (pauseDistribution p)
  /\ Forall (fun hold => (0 < snd hold < 2000)%Q) (keyHoldDurations p).
Proof.
  intros p. unfold p, generateTypingProfile.
  destruct (length (default [] (keystrokeEvents ka !! sessionId)) =? 0)%nat.
  { cbn. repeat split; try lra; constructor. }
  destruct (getSessionDuration _) as [duration sorted].
  cbn [fst averageSpeed variance pauseDistribution keyHoldDurations].
  split; [|split; [|split]].
  - destruct (0 <? duration)%Z eqn:E; [|lra]. apply Z.ltb_lt in E.
    apply Qmult_le_0_compat; [|lra].
    apply Qdiv_nonneg; [apply ofNat_nonneg|].
    unfold ofZ. change 0%Q with (inject_Z 0). rewrite <- Zle_Qle. lia.
  - unfold calculateInterKeystrokeVariance.
    destruct (length (keyPresses sorted) <? 2)%nat; [lra | apply varianceQ_nonneg].
  - unfold calculatePauseDistribution. apply Forall_forall. intros pause Hin.
    apply list_elem_of_In, filter_In in Hin. destruct Hin as [_ Hin].
    apply Z.ltb_lt in Hin. exact Hin.
  - unfold calculateKeyHoldDurations.
    pose proof (scanHolds_bounded sorted [] (List.Forall_nil _)) as Hholds.
    induction Hholds as [|[key durations] groups [Hne Hall] _ IH]; cbn [map]; constructor; [|exact IH].
    cbn [snd] in *. pose proof (averageZ_bounds 1 1999 durations Hne Hall) as [Hlo Hhi].
    unfold ofZ in Hlo, Hhi. split.
    + eapply Qlt_le_trans; [|exact Hlo]. reflexivity.
    + eapply Qle_lt_trans; [exact Hhi|]. reflexivity.
Qed.

End ProfileExtras.

(** ** The typing verdict and the reachable analyzers *)

Module VerdictExtras.
Import Num NumFacts SortFacts GroupFacts KeystrokeAnalyzer KeystrokeExtras.

(** X8. The typing verdict on any profile: at most four anomalies are
    reported and the confidence lies between 0 and 0.9, so the cap at 1.0
    never applies; one anomaly alone is never suspicious, three always
    are. *)
Theorem detectOnProfile_ranges (profile : TypingProfile) :
  let r := detectOnProfile profile in
  (length (anomalies r) <= 4)%nat
  /\ (0 <= confidence r <= 9 # 10)%Q
  /\ ((length (anomalies r) <= 1)%nat -> isSuspicious r = false)
  /\ ((3 <= length (anomalies r))%nat -> isSuspicious r = true).
Proof.
  unfold detectOnProfile.
  generalize (Qltb (variance profile) 50) (Qltb 200 (averageSpeed profile))
    (Qltb (averageSpeed profile) 20) (pausePatternFires profile)
    (Qltb (calculateDigraphVariance (digraphLatencies profile)) 100).
  intros [] [] [] [] []; vm_compute; (split; [lia|]);
    (split; [split; discriminate|]); split; intros H;
    first [reflexivity | exfalso; lia].
Qed.

(** *** Sequences of analyzer calls *)

Inductive Call :=
| Record (sessionId : string) (event : KeystrokeEvent)
| Generate (sessionId : string)
| Clear (sessionId : string).

Definition target (c : Call) : string :=
  match c with
  | Record sessionId _ | Generate sessionId | Clear sessionId => sessionId
  end.

Definition call (c : Call) (ka : t) : t :=
  match c with
  | Record sessionId event => recordKeystroke sessionId event ka
  | Generate sessionId => snd (generateTypingProfile sessionId ka)
  | Clear sessionId => clearSession sessionId ka
  end.

Definition calls (cs : list Call) (ka : t) : t :=
  fold_left (fun ka c => call c ka) cs ka.

Lemma generateTypingProfile_other (sessionId other : string) (ka : t) :
  other <> sessionId ->
  let ka' := snd (generateTypingProfile sessionId ka) in
  keystrokeEvents ka' !! other = keystrokeEvents ka !! other
  /\ digraphs ka' !! other = digraphs ka !! other
  /\ trigraphs ka' !! other = trigraphs ka !! other
  /\ typingProfiles ka' !! other = typingProfiles ka !! other.
Proof.
  intros Hne ka'. unfold ka'.
  destruct (logOf sessionId ka) as [|e0 rest] eqn:Hlog.
  - rewrite (generateTypingProfile_empty _ _ Hlog). auto.
  - assert (logOf sessionId ka <> []) as Hnonempty by congruence.
    destruct (generateTypingProfile_nonempty sessionId ka Hnonempty)
      as (-> & -> & -> & -> & _).
    rewrite !lookup_insert_ne by congruence. auto.
Qed.

Lemma recordKeystroke_other (sessionId other : string) (e : KeystrokeEvent) (ka : t) :
  other <> sessionId ->
  let ka' := recordKeystroke sessionId e ka in
  keystrokeEvents ka' !! other = keystrokeEvents ka !! other
  /\ digraphs ka' !! other = digraphs ka !! other
  /\ trigraphs ka' !! other = trigraphs ka !! other
  /\ typingProfiles ka' !! other = typingProfiles ka !! other.
Proof.
  intros Hne ka'. unfold ka', recordKeystroke, analyzeTrigraphs, analyzeDigraphs.
  repeat match goal with |- context [if ?b then _ else _] => destruct b end;
    cbn [keystrokeEvents digraphs trigraphs typingProfiles];
    rewrite ?lookup_insert_ne by congruence; auto.
Qed.

(** X10. A call of the analyzer for one session ([recordKeystroke],
    [generateTypingProfile] or [clearSession]) leaves the log, the digraphs,
    the trigraphs and the profile of every other session as they were. *)
Theorem analyzer_call_isolated (c : Call) (other : string) (ka : t) :
  other <> target c ->
  keystrokeEvents (call c ka) !! other = keystrokeEvents ka !! other
  /\ digraphs (call c ka) !! other = digraphs ka !! other
  /\ trigraphs (call c ka) !! other = trigraphs ka !! other
  /\ typingProfiles (call c ka) !! other = typingProfiles ka !! other.
Proof.
  intros Hne. destruct c as [sessionId e | sessionId | sessionId]; cbn [call target] in *.
  - apply recordKeystroke_other, Hne.
  - apply generateTypingProfile_other, Hne.
  - unfold clearSession. cbn. rewrite !lookup_delete_ne by congruence. auto.
Qed.

Lemma analyzer_call_isolated_witness :
  "s2" <> target (Clear "s1")
  /\ keystrokeEvents (call (Clear "s1") (recordFor "s2" [press 0 "a"] new)) !! "s2"
     = keystrokeEvents (recordFor "s2" [press 0 "a"] new) !! "s2".
Proof.
  assert ("s2" <> target (Clear "s1")) as Hne by discriminate.
  split; [exact Hne|].
  exact (proj1 (analyzer_call_isolated (Clear "s1") "s2"
                  (recordFor "s2" [press 0 "a"] new) Hne)).
Defined.

(** What every reachable analyzer satisfies. *)
Record consistent (ka : t) : Prop := {
  digraphs_in_band :
    forall sessionId ds, digraphs ka !! sessionId = Some ds ->
      Forall (fun d => dg_sessionId d = sessionId
                       /\ (10 <= dg_latency d <= 2000)%Z) ds;
  no_trigraph :
    forall sessionId gs, trigraphs ka !! sessionId = Some gs -> gs = [];
  profile_has_log :
    forall sessionId p, typingProfiles ka !! sessionId = Some p ->
      tp_sessionId p = sessionId /\ logOf sessionId ka <> []
}.

Lemma consistent_new : consistent new.
Proof.
  split; intros sessionId x H; cbn in H; rewrite lookup_empty in H; discriminate H.
Qed.

Lemma scanDigraphs_in_band (sessionId : string) (events : list KeystrokeEvent) :
  Forall (fun d => dg_sessionId d = sessionId /\ (10 <= dg_latency d <= 2000)%Z)
    (scanDigraphs sessionId events).
Proof.
  induction events as [|a rest IH]; [constructor|].
  destruct rest as [|b rest']; [constructor|].
  rewrite scanDigraphs_cons. apply Forall_app. split; [|exact IH].
  destruct (qualifies a b) eqn:Hq; [|constructor].
  apply qualifies_spec in Hq. repeat constructor; apply Hq.
Qed.

Lemma recordKeystroke_typingProfiles (sessionId : string) (e : KeystrokeEvent) (ka : t) :
  typingProfiles (recordKeystroke sessionId e ka) = typingProfiles ka.
Proof.
  unfold recordKeystroke, analyzeTrigraphs, analyzeDigraphs.
  repeat match goal with |- context [if ?b then _ else _] => destruct b end; reflexivity.
Qed.

Lemma recordKeystroke_consistent (sessionId : string) (e : KeystrokeEvent) (ka : t) :
  consistent ka -> consistent (recordKeystroke sessionId e ka).
Proof.
  intros [Hband Htri Hprofile]. split.
  - intros sid ds Hds. destruct (decide (sid = sessionId)) as [->|Hne].
    + pose proof (recordKeystroke_digraphsOf sessionId e ka) as Hstep.
      unfold digraphsOf at 1 in Hstep. rewrite Hds in Hstep. cbn in Hstep. subst ds.
      apply Forall_app. split; [|apply scanDigraphs_in_band].
      unfold digraphsOf. destruct (digraphs ka !! sessionId) as [old|] eqn:Hold.
      * apply (Hband _ _ Hold).
      * constructor.
    + destruct (recordKeystroke_other sessionId sid e ka Hne) as (_ & Hsame & _).
      rewrite Hsame in Hds. apply (Hband _ _ Hds).
  - intros sid gs Hgs.
    pose proof (KeystrokeFacts.recordKeystroke_trigraphs_any sid sessionId e ka) as Hsame.
    rewrite Hgs in Hsame. cbn in Hsame. subst gs.
    destruct (trigraphs ka !! sid) as [old|] eqn:Hold; [|reflexivity].
    apply (Htri _ _ Hold).
  - intros sid p Hp. rewrite recordKeystroke_typingProfiles in Hp.
    destruct (Hprofile _ _ Hp) as [Hid Hlog]. split; [exact Hid|].
    destruct (decide (sid = sessionId)) as [->|Hne].
    + rewrite recordKeystroke_logOf. destruct (logOf sessionId ka); discriminate.
    + destruct (recordKeystroke_other sessionId sid e ka Hne) as (Hsame & _).
      unfold logOf in *. rewrite Hsame. exact Hlog.
Qed.

Lemma generateTypingProfile_consistent (sessionId : string) (ka : t) :
  consistent ka -> consistent (snd (generateTypingProfile sessionId ka)).
Proof.
  intros Hka. destruct (logOf sessionId ka) as [|e0 rest] eqn:Hlog.
  { rewrite (generateTypingProfile_empty _ _ Hlog). exact Hka. }
  assert (logOf sessionId ka <> []) as Hnonempty by congruence.
  destruct (generateTypingProfile_nonempty sessionId ka Hnonempty)
    as (Hevents & Hprofiles & Hdigraphs & Htrigraphs & Hid).
  destruct Hka as [Hband Htri Hprofile]. split.
  - intros sid ds. rewrite Hdigraphs. apply Hband.
  - intros sid gs. rewrite Htrigraphs. apply Htri.
  - intros sid p. rewrite Hprofiles. unfold logOf. rewrite Hevents.
    destruct (decide (sid = sessionId)) as [->|Hne].
    + rewrite !lookup_insert_eq. intros [= <-]. split; [exact Hid|].
      cbn. intros Hnil. apply (f_equal length) in Hnil.
      rewrite sortBy_length, Hlog in Hnil. discriminate Hnil.
    + rewrite !lookup_insert_ne by congruence. apply Hprofile.
Qed.

Lemma clearSession_consistent (sessionId : string) (ka : t) :
  consistent ka -> consistent (clearSession sessionId ka).
Proof.
  intros [Hband Htri Hprofile]. unfold clearSession.
  split; cbn [digraphs trigraphs typingProfiles]; intros sid x Hx;
    (destruct (decide (sid = sessionId)) as [->|Hne];
     [rewrite lookup_delete_eq in Hx; discriminate Hx
     |rewrite lookup_delete_ne in Hx by congruence]).
  - apply (Hband _ _ Hx).
  - apply (Htri _ _ Hx).
  - unfold logOf. cbn [keystrokeEvents]. rewrite lookup_delete_ne by congruence.
    apply (Hprofile _ _ Hx).
Qed.

(** X11. After any sequence of calls on a fresh analyzer: every stored
    digraph carries the session it is stored under and a latency between 10
    and 2000 ms; no trigraph is stored; and a stored profile carries its
    session, which has a non-empty log. *)
Theorem analyzer_consistent (cs : list Call) : consistent (calls cs new).
Proof.
  unfold calls. generalize consistent_new. generalize new.
  induction cs as [|c cs IH]; intros ka Hka; [exact Hka|].
  cbn [fold_left]. apply IH.
  destruct c as [sessionId e | sessionId | sessionId]; cbn [call].
  - apply recordKeystroke_consistent, Hka.
  - apply generateTypingProfile_consistent, Hka.
  - apply clearSession_consistent, Hka.
Qed.

(** X12. Clearing a session makes the analyzer forget it: the next profile
    is the all-zero empty one, generating it stores nothing, and the typing
    verdict is the empty one. *)
Theorem analyzer_clear_forgets (sessionId : string) (ka : t) :
  let cleared := clearSession sessionId ka in
  generateTypingProfile sessionId cleared
  = (mkTypingProfile sessionId 0 [] [] [] [] 0, cleared)
  /\ getTypingProfile sessionId cleared = None
  /\ detectTypingAnomalies sessionId cleared = mkAnomalies false [] 0
  /\ logOf sessionId cleared = []
  /\ digraphsOf sessionId cleared = []
  /\ trigraphsOf sessionId cleared = [].
Proof.
  intros cleared.
  assert (logOf sessionId cleared = []) as Hlog.
  { unfold logOf, cleared, clearSession. cbn [keystrokeEvents].
    rewrite lookup_delete_eq. reflexivity. }
  split; [apply generateTypingProfile_empty, Hlog|].
  unfold getTypingProfile, detectTypingAnomalies, digraphsOf, trigraphsOf, cleared, clearSession.
  cbn [typingProfiles digraphs trigraphs]. rewrite !lookup_delete_eq.
  repeat split; auto.
Qed.

(** *** The verdict on a first keystroke *)

Import Doubles PrimFloat.
#[local] Set Warnings "-inexact-float".

(** X9. The first keystroke of a session, whatever the event: the profile
    made of that one-event log is flagged for uniform timing, slow typing
    and consistent digraphs.  The confidence is 0.3 + 0.1 + 0.2 added in
    doubles, which is 0.6000000000000001, above 0.6; the verdict is
    suspicious. *)
Theorem first_keystroke_verdict (sessionId : string) (e : KeystrokeEvent) :
  let ka := snd (generateTypingProfile sessionId (recordKeystroke sessionId e new)) in
  let r := detectTypingAnomaliesD sessionId ka in
  anomaliesD r
  = ["Unusually uniform keystroke timing detected";
     "Unusually slow typing speed detected";
     "Unusually consistent digraph timing detected"]
  /\ confidenceD r = 0x1.3333333333334p-1%float
  /\ (0.6 <? confidenceD r)%float = true
  /\ isSuspiciousD r = true.
Proof.
  unfold recordKeystroke, analyzeTrigraphs, analyzeDigraphs, new.
  cbn [keystrokeEvents]. rewrite lookup_empty. cbn [from_option app length Nat.ltb Nat.leb].
  unfold generateTypingProfile. cbn [keystrokeEvents digraphs trigraphs typingProfiles].
  rewrite lookup_insert_eq, !lookup_empty.
  cbn [from_option Datatypes.id length Nat.eqb getSessionDuration Nat.ltb Nat.leb].
  cbn [snd]. unfold detectTypingAnomaliesD. cbn [typingProfiles].
  rewrite lookup_insert_eq.
  unfold detectOnProfileD.
  cbn [variance averageSpeed pauseDistribution digraphLatencies Z.ltb Z.compare
       groupDigraphsByKeyPair fold_left map].
  assert (calculateInterKeystrokeVariance [e] = 0%Q) as ->.
  { unfold calculateInterKeystrokeVariance, keyPresses. cbn [List.filter].
    destruct (KeyAction_eqb (ke_action e) down); reflexivity. }
  assert (calculatePauseDistribution [e] = []) as Hpauses.
  { unfold calculatePauseDistribution, keyPresses. cbn [List.filter].
    destruct (KeyAction_eqb (ke_action e) down); reflexivity. }
  unfold pausePatternFires. cbn [pauseDistribution]. rewrite Hpauses.
  vm_compute. repeat split.
Qed.

End VerdictExtras.

(** ** The code verdict, and both verdicts in doubles *)

Module StylometryExtras.
Import Num NumFacts Stylometry Doubles PrimFloat.
#[local] Set Warnings "-inexact-float".

(** The five weights of the rules that fire, added up in doubles in the
    order of the tests. *)
Definition codeConfidenceSumD (f : CodeStylometryFeatures) : float :=
  (contributionD (aiLikely f) 0.4 + contributionD (chatLike f) 0.3
   + contributionD (tooClean f) 0.2 + contributionD (tooSimple f) 0.2
   + contributionD (camelNaming f) 0.1)%float.

(** X13. The code verdict on any features, in the doubles of the source: at
    most five anomalies; the confidence is the sum of the weights of the
    rules that fire, capped at 1, hence between 0 and 1; [isSuspicious]
    holds exactly when the returned confidence exceeds 0.3.  The sum exceeds
    the cap exactly when the first four rules all fire, which needs more
    than 30 lines of code. *)
Theorem detectCodeAnomalies_ranges (features : CodeStylometryFeatures) :
  let r := detectCodeAnomaliesD features in
  (length (anomaliesD r) <= 5)%nat
  /\ confidenceD r = minD (codeConfidenceSumD features) 1
  /\ (0 <=? confidenceD r)%float = true
  /\ (confidenceD r <=? 1)%float = true
  /\ isSuspiciousD r = (0.3 <? confidenceD r)%float
  /\ (1 <? codeConfidenceSumD features)%float
     = aiLikely features && chatLike features && tooClean features
       && tooSimple features
  /\ ((1 <? codeConfidenceSumD features)%float = true ->
      (30 < lineCount features)%nat).
Proof.
  assert (tooSimple features = true -> (30 < lineCount features)%nat) as Hlines.
  { unfold tooSimple. intros H. apply andb_true_iff in H as [_ H].
    apply Nat.ltb_lt in H. exact H. }
  unfold detectCodeAnomaliesD, codeConfidenceSumD. revert Hlines.
  generalize (aiLikely features) (chatLike features) (tooClean features)
    (tooSimple features) (camelNaming features).
  intros [] [] [] [] [] Hlines;
    (split; [vm_compute; lia|]);
    (split; [vm_compute; reflexivity|]);
    (split; [vm_compute; reflexivity|]);
    (split; [vm_compute; reflexivity|]);
    (split; [vm_compute; reflexivity|]);
    (split; [vm_compute; reflexivity|]);
    first [intros _; exact (Hlines eq_refl) | vm_compute; congruence].
Qed.


(** X15. In binary64 the code verdict reports the anomalies of the exact
    model and is suspicious exactly when the first rule fires or at least
    two rules fire; the returned confidence never exceeds 1. *)
Theorem detectCodeAnomaliesD_spec (features : CodeStylometryFeatures) :
  let r := detectCodeAnomaliesD features in
  let q := detectCodeAnomalies features in
  anomaliesD r = anomalies q
  /\ isSuspiciousD r = (aiLikely features || (2 <=? length (anomaliesD r))%nat)
  /\ (isSuspicious q = true -> isSuspiciousD r = true)
  /\ atMostOne (confidenceD r) = true.
Proof.
  unfold detectCodeAnomaliesD, detectCodeAnomalies.
  generalize (aiLikely features) (chatLike features) (tooClean features)
    (tooSimple features) (camelNaming features).
  intros [] [] [] [] []; vm_compute; repeat split; intros; try discriminate.
Qed.

End StylometryExtras.

(** ** Nesting level *)

Module NestingExtras.
Import Stdlib.Strings.Ascii Stylometry.

Definition isOpener (char : Ascii.ascii) : bool :=
  Ascii.eqb char "{"%char || Ascii.eqb char "("%char.
Definition isCloser (char : Ascii.ascii) : bool :=
  Ascii.eqb char "}"%char || Ascii.eqb char ")"%char.

Definition nestingFrom (st : nat * nat) (chars : list Ascii.ascii) : nat * nat :=
  fold_left nestingStep chars st.

Lemma nestingStep_cases (m c : nat) (char : Ascii.ascii) :
  nestingStep (m, c) char
  = if isOpener char then (Nat.max m (S c), S c)
    else if isCloser char then (m, (c - 1)%nat)
    else (m, c).
Proof. unfold nestingStep, isOpener, isCloser. repeat destruct (_ || _); reflexivity. Qed.

Lemma nestingFrom_bounds (chars : list Ascii.ascii) (m c : nat) :
  (c <= m)%nat ->
  let r := nestingFrom (m, c) chars in
  (m <= fst r)%nat /\ (snd r <= fst r)%nat
  /\ (fst r <= Nat.max m (c + length (List.filter isOpener chars)))%nat.
Proof.
  revert m c. induction chars as [|char chars IH]; intros m c Hcm; cbn [nestingFrom fold_left].
  - cbn. lia.
  - rewrite nestingStep_cases. cbn [List.filter].
    destruct (isOpener char).
    + specialize (IH (Nat.max m (S c)) (S c) ltac:(lia)). cbn zeta in IH.
      unfold nestingFrom in IH. cbn [length]. lia.
    + destruct (isCloser char).
      * specialize (IH m (c - 1)%nat ltac:(lia)). cbn zeta in IH.
        unfold nestingFrom in IH. lia.
      * specialize (IH m c Hcm). cbn zeta in IH. unfold nestingFrom in IH. lia.
Qed.

Lemma nestingFrom_no_opener (chars : list Ascii.ascii) (m c : nat) :
  Forall (fun char => isOpener char = false) chars ->
  fst (nestingFrom (m, c) chars) = m.
Proof.
  intros Hall. revert c. induction Hall as [|char chars Hchar _ IH]; intros c; [reflexivity|].
  cbn [nestingFrom fold_left]. rewrite nestingStep_cases, Hchar.
  destruct (isCloser char); apply IH.
Qed.

Lemma nestingFrom_opener (chars : list Ascii.ascii) (m c : nat) :
  (c <= m)%nat ->
  Exists (fun char => isOpener char = true) chars ->
  (1 <= fst (nestingFrom (m, c) chars))%nat.
Proof.
  intros Hcm Hex. revert m c Hcm.
  induction Hex as [char chars Hchar | char chars _ IH]; intros m c Hcm;
    cbn [nestingFrom fold_left]; rewrite nestingStep_cases.
  - rewrite Hchar.
    pose proof (nestingFrom_bounds chars (Nat.max m (S c)) (S c) ltac:(lia)) as (H & _).
    unfold nestingFrom in H. lia.
  - destruct (isOpener char); [apply IH; lia|].
    destruct (isCloser char); apply IH; lia.
Qed.

(** X16. The nesting level of a text is at most its number of opening
    braces and parentheses, and it is zero exactly when the text has
    none. *)
Theorem calculateNestingLevel_bounds (code : string) :
  let chars := String.list_ascii_of_string code in
  (calculateNestingLevel code <= length (List.filter isOpener chars))%nat
  /\ (calculateNestingLevel code = 0%nat
      <-> Forall (fun char => isOpener char = false) chars).
Proof.
  intros chars. unfold calculateNestingLevel. fold chars.
  fold (nestingFrom (0, 0)%nat chars). split.
  - pose proof (nestingFrom_bounds chars 0 0 (Nat.le_refl 0)) as (_ & _ & H).
    cbn zeta in H. lia.
  - split.
    + intros Hzero. apply Forall_forall. intros char Hin.
      destruct (isOpener char) eqn:E; [|reflexivity]. exfalso.
      assert (Exists (fun ch => isOpener ch = true) chars) as Hex.
      { apply Exists_exists. exists char. split; [exact Hin | exact E]. }
      pose proof (nestingFrom_opener chars 0 0 (Nat.le_refl 0) Hex). lia.
    + apply nestingFrom_no_opener.
Qed.

Lemma list_ascii_of_string_append (s1 s2 : string) :
  String.list_ascii_of_string (s1 ++ s2)%string
  = String.list_ascii_of_string s1 ++ String.list_ascii_of_string s2.
Proof.
  induction s1 as [|char s1 IH]; [reflexivity|].
  change (String.list_ascii_of_string (String char (s1 ++ s2)%string)
          = char :: (String.list_ascii_of_string s1 ++ String.list_ascii_of_string s2)).
  cbn [String.list_ascii_of_string]. f_equal. exact IH.
Qed.

Lemma closer_not_opener (char : Ascii.ascii) : isCloser char = true -> isOpener char = false.
Proof.
  unfold isOpener, isCloser.
  destruct (Ascii.eqb_spec char "{"%char) as [->|]; [discriminate|].
  destruct (Ascii.eqb_spec char "("%char) as [->|]; [discriminate|]. reflexivity.
Qed.

Lemma nestingFrom_closers (closers chars : list Ascii.ascii) :
  Forall (fun char => isCloser char = true) closers ->
  nestingFrom (0, 0)%nat (closers ++ chars) = nestingFrom (0, 0)%nat chars.
Proof.
  induction 1 as [|char closers Hchar _ IH]; [reflexivity|].
  cbn [app nestingFrom fold_left]. rewrite nestingStep_cases.
  rewrite (closer_not_opener _ Hchar), Hchar. exact IH.
Qed.

(** X17. Closing braces and parentheses that come before any opening one
    are ignored: the depth never goes below zero. *)
Theorem calculateNestingLevel_leading_closers (closers code : string) :
  Forall (fun char => isCloser char = true) (String.list_ascii_of_string closers) ->
  calculateNestingLevel (closers ++ code)%string = calculateNestingLevel code.
Proof.
  intros Hall. unfold calculateNestingLevel. rewrite list_ascii_of_string_append.
  fold (nestingFrom (0, 0)%nat (String.list_ascii_of_string code)).
  rewrite <- (nestingFrom_closers _ _ Hall). reflexivity.
Qed.

Lemma calculateNestingLevel_leading_closers_witness :
  Forall (fun char => isCloser char = true) (String.list_ascii_of_string "})")
  /\ calculateNestingLevel ("})" ++ "f(g(x))")%string = calculateNestingLevel "f(g(x))".
Proof.
  assert (Forall (fun char => isCloser char = true) (String.list_ascii_of_string "})"))
    as Hclosers by (repeat constructor).
  split; [exact Hclosers|].
  exact (calculateNestingLevel_leading_closers "})" "f(g(x))" Hclosers).
Defined.

End NestingExtras.

(** ** Requests to the service *)

Module ServiceExtras.
Import Num NumFacts SortFacts FraudDetectionService ServiceFacts.

(** *** Requests *)

(** The five calls that trigger a rescoring, with the arguments that the
    clock and the UUID generator supply. *)
Inductive Request :=
| Transcript (uuid : string) (data : TranscriptChunk)
| Screen (uuid : string) (data : ScreenEvent)
| Compile (uuid : string) (data : CompileRunEvent)
| Keystroke (data : KeystrokeEvent)
| Code (sessionId : string) (code : string).

Definition subject (r : Request) : string :=
  match r with
  | Transcript _ data => tc_sessionId data
  | Screen _ data => se_sessionId data
  | Compile _ data => ce_sessionId data
  | Keystroke data => ke_sessionId data
  | Code sessionId _ => sessionId
  end.

Section Requests.
Context {csa : CodeStylometryAnalyzer.t}.

Definition handle (now : Z) (r : Request) (s : t) : Outcome Ack * t :=
  match r with
  | Transcript uuid data => ingestTranscript now uuid data s
  | Screen uuid data => ingestScreenEvent now uuid data s
  | Compile uuid data => ingestCompileEvent now uuid data s
  | Keystroke data => ingestKeystrokeEvent now data s
  | Code sessionId code => analyzeCode now sessionId code s
  end.

Definition handleAll (rs : list (Z * Request)) (s : t) : t :=
  fold_left (fun s '(now, r) => snd (handle now r s)) rs s.

Definition historyOf (sessionId : string) (s : t) : list FraudScore :=
  default [] (fraudSignals s !! sessionId).

(** The state on which the rescoring of a request runs: the state with the
    datum of the request stored. *)
Definition stored (r : Request) (s : t) : t :=
  match r with
  | Transcript uuid data =>
      set_transcriptChunks
        (insert (tc_sessionId data)
           (default [] (transcriptChunks s !! tc_sessionId data)
            ++ [mkChunk (Some uuid) (tc_sessionId data) (seq data) (text data)
                  (startMs data) (endMs data) (speaker data)])) s
  | Screen uuid data =>
      set_screenEvents
        (insert (se_sessionId data)
           (default [] (screenEvents s !! se_sessionId data)
            ++ [mkScreenEvent (Some uuid) (se_sessionId data) (se_t data)
                  (se_type data) (meta data)])) s
  | Compile uuid data =>
      set_compileEvents
        (insert (ce_sessionId data)
           (default [] (compileEvents s !! ce_sessionId data)
            ++ [mkCompileEvent (Some uuid) (ce_sessionId data) (ce_t data)
                  (ce_action data) (ok data)])) s
  | Keystroke data =>
      set_keystrokeAnalyzer
        (KeystrokeAnalyzer.recordKeystroke (ke_sessionId data) data)
        (set_keystrokeEvents
           (insert (ke_sessionId data)
              (default [] (keystrokeEvents s !! ke_sessionId data) ++ [data])) s)
  | Code sessionId code => set_codeSamples (insert sessionId code) s
  end.

Lemma handle_stored (now : Z) (r : Request) (s : t) :
  handle now r s = (Returns (mkAck true), analyzeFraud now (subject r) (stored r s)).
Proof. destruct r; reflexivity. Qed.

Lemma stored_fraudSignals (r : Request) (s : t) :
  fraudSignals (stored r s) = fraudSignals s.
Proof. destruct r; reflexivity. Qed.

Lemma handle_history_own (now : Z) (r : Request) (s : t) :
  historyOf (subject r) (snd (handle now r s))
  = historyOf (subject r) s ++ [scoreFor now (subject r) (stored r s)].
Proof.
  rewrite handle_stored. cbn [snd]. unfold historyOf.
  rewrite analyzeFraud_fraudSignals, lookup_insert_eq, stored_fraudSignals. reflexivity.
Qed.

Lemma handle_history_other (now : Z) (r : Request) (s : t) (other : string) :
  other <> subject r ->
  fraudSignals (snd (handle now r s)) !! other = fraudSignals s !! other.
Proof.
  intros Hne. rewrite handle_stored. cbn [snd].
  rewrite analyzeFraud_fraudSignals, lookup_insert_ne by congruence.
  apply (f_equal (fun m => m !! other)), stored_fraudSignals.
Qed.

(** X18. A request for one session returns success, appends exactly one
    snapshot to the score history of that session, the one [getLatestScore]
    then returns, and leaves the history of every other session as it was.
    This holds for [analyzeCode] as for the four ingestion calls. *)
Theorem handle_history (now : Z) (r : Request) (s : t) :
  fst (handle now r s) = Returns (mkAck true)
  /\ (exists snapshot,
        historyOf (subject r) (snd (handle now r s))
        = historyOf (subject r) s ++ [snapshot]
        /\ forall now', getLatestScore now' (subject r) (snd (handle now r s)) = snapshot)
  /\ (forall other, other <> subject r ->
        fraudSignals (snd (handle now r s)) !! other = fraudSignals s !! other).
Proof.
  split; [rewrite handle_stored; reflexivity|]. split.
  - exists (scoreFor now (subject r) (stored r s)). split; [apply handle_history_own|].
    intros now'. rewrite handle_stored. apply getLatestScore_analyzeFraud.
  - intros other. apply handle_history_other.
Qed.

Lemma handleAll_snoc (rs : list (Z * Request)) (now : Z) (r : Request) (s : t) :
  handleAll (rs ++ [(now, r)]) s = snd (handle now r (handleAll rs s)).
Proof. unfold handleAll. rewrite fold_left_app. reflexivity. Qed.

(** X19. Over any sequence of requests, the score history of a session
    keeps what it held as a prefix and grows by one snapshot per request for
    that session: histories are append-only. *)
Theorem history_append_only (rs : list (Z * Request)) (sessionId : string) (s : t) :
  exists added,
    historyOf sessionId (handleAll rs s) = historyOf sessionId s ++ added
    /\ length added
       = length (List.filter (fun nr => String.eqb (subject (snd nr)) sessionId) rs).
Proof.
  induction rs as [|[now r] rs IH] using rev_ind.
  - exists []. rewrite app_nil_r. split; reflexivity.
  - destruct IH as (added & Hadded & Hlen). rewrite handleAll_snoc.
    rewrite List.filter_app, length_app. cbn [List.filter snd].
    destruct (String.eqb_spec (subject r) sessionId) as [<-|Hne].
    + exists (added ++ [scoreFor now (subject r) (stored r (handleAll rs s))]).
      rewrite handle_history_own, Hadded, <- app_assoc.
      split; [reflexivity|]. rewrite length_app, Hlen. reflexivity.
    + exists added. unfold historyOf. rewrite handle_history_other by congruence.
      fold (historyOf sessionId (handleAll rs s)). rewrite Hadded.
      split; [reflexivity|]. cbn [length]. lia.
Qed.

(** *** Logs *)

(** What a request adds to each log of a session. *)
Definition newScreenEvents (sessionId : string) (r : Request) : list ScreenEvent :=
  match r with
  | Screen uuid data =>
      if String.eqb (se_sessionId data) sessionId
      then [mkScreenEvent (Some uuid) (se_sessionId data) (se_t data)
              (se_type data) (meta data)]
      else []
  | _ => []
  end.

Definition newCompileEvents (sessionId : string) (r : Request) : list CompileRunEvent :=
  match r with
  | Compile uuid data =>
      if String.eqb (ce_sessionId data) sessionId
      then [mkCompileEvent (Some uuid) (ce_sessionId data) (ce_t data)
              (ce_action data) (ok data)]
      else []
  | _ => []
  end.

Definition newKeystrokes (sessionId : string) (r : Request) : list KeystrokeEvent :=
  match r with
  | Keystroke data => if String.eqb (ke_sessionId data) sessionId then [data] else []
  | _ => []
  end.

Definition newChunks (sessionId : string) (r : Request) : list TranscriptChunk :=
  match r with
  | Transcript uuid data =>
      if String.eqb (tc_sessionId data) sessionId
      then [mkChunk (Some uuid) (tc_sessionId data) (seq data) (text data)
              (startMs data) (endMs data) (speaker data)]
      else []
  | _ => []
  end.

Definition screenLog (sessionId : string) (s : t) : list ScreenEvent :=
  default [] (screenEvents s !! sessionId).
Definition compileLog (sessionId : string) (s : t) : list CompileRunEvent :=
  default [] (compileEvents s !! sessionId).
Definition keystrokeLog (sessionId : string) (s : t) : list KeystrokeEvent :=
  default [] (keystrokeEvents s !! sessionId).
Definition transcriptLog (sessionId : string) (s : t) : list TranscriptChunk :=
  default [] (transcriptChunks s !! sessionId).

Lemma lookup_insert_default {B} (m : gmap string (list B)) (k k' : string) (new : list B) :
  default [] (<[k := default [] (m !! k) ++ new]> m !! k')
  = default [] (m !! k') ++ (if String.eqb k k' then new else []).
Proof.
  destruct (String.eqb_spec k k') as [->|Hne].
  - rewrite lookup_insert_eq. reflexivity.
  - rewrite lookup_insert_ne by exact Hne. rewrite app_nil_r. reflexivity.
Qed.

Lemma handle_logs (now : Z) (r : Request) (s : t) (sessionId : string) :
  let s' := snd (handle now r s) in
  screenLog sessionId s' = screenLog sessionId s ++ newScreenEvents sessionId r
  /\ compileLog sessionId s' = compileLog sessionId s ++ newCompileEvents sessionId r
  /\ keystrokeLog sessionId s' = keystrokeLog sessionId s ++ newKeystrokes sessionId r.
Proof.
  intros s'. unfold s'. rewrite handle_stored. cbn [snd].
  destruct (analyzeFraud_frame now (subject r) (stored r s)) as (_ & Hscreen & Hcompile & Hkeys & _).
  unfold screenLog, compileLog, keystrokeLog. rewrite Hscreen, Hcompile, Hkeys.
  destruct r; cbn [stored screenEvents compileEvents keystrokeEvents
                   set_transcriptChunks set_screenEvents set_compileEvents
                   set_keystrokeEvents set_keystrokeAnalyzer set_codeSamples
                   newScreenEvents newCompileEvents newKeystrokes];
    rewrite ?lookup_insert_default, ?app_nil_r; auto.
Qed.

(** X20. Over any sequence of requests, the screen-event log, the
    compile-event log and the service's keystroke log of a session are what
    they were, followed by the events of the requests for that session in
    the order of the requests: these three logs keep arrival order. *)
Theorem logs_keep_arrival_order (rs : list (Z * Request)) (sessionId : string) (s : t) :
  screenLog sessionId (handleAll rs s)
  = screenLog sessionId s ++ flat_map (fun nr => newScreenEvents sessionId (snd nr)) rs
  /\ compileLog sessionId (handleAll rs s)
     = compileLog sessionId s ++ flat_map (fun nr => newCompileEvents sessionId (snd nr)) rs
  /\ keystrokeLog sessionId (handleAll rs s)
     = keystrokeLog sessionId s ++ flat_map (fun nr => newKeystrokes sessionId (snd nr)) rs.
Proof.
  induction rs as [|[now r] rs IH] using rev_ind.
  - cbn. rewrite !app_nil_r. auto.
  - destruct IH as (Hscreen & Hcompile & Hkeys). rewrite handleAll_snoc.
    destruct (handle_logs now r (handleAll rs s) sessionId) as (-> & -> & ->).
    rewrite Hscreen, Hcompile, Hkeys, !flat_map_app. cbn [flat_map snd].
    rewrite !app_nil_r, <- !app_assoc. auto.
Qed.

Lemma detectSuspiciousTiming_chunks (chunks : list TranscriptChunk) :
  snd (detectSuspiciousTiming chunks) = sortBy startMs chunks.
Proof.
  unfold detectSuspiciousTiming. destruct (length chunks <? 2)%nat eqn:E; [|reflexivity].
  destruct chunks as [|a [|b rest]]; try reflexivity. discriminate E.
Qed.

Lemma handle_transcriptLog (now : Z) (r : Request) (s : t) (sessionId : string) :
  transcriptLog sessionId (snd (handle now r s))
  = if String.eqb (subject r) sessionId
    then sortBy startMs (transcriptLog sessionId s ++ newChunks sessionId r)
    else transcriptLog sessionId s.
Proof.
  rewrite handle_stored. cbn [snd]. unfold transcriptLog.
  rewrite analyzeFraud_transcriptChunks, detectSuspiciousTiming_chunks.
  destruct (String.eqb_spec (subject r) sessionId) as [<-|Hne].
  - rewrite lookup_alter_eq.
    destruct r as [uuid data| | | |]; cbn [stored subject transcriptChunks
      set_transcriptChunks set_screenEvents set_compileEvents set_keystrokeEvents
      set_keystrokeAnalyzer set_codeSamples newChunks];
      rewrite ?lookup_insert_eq, ?String.eqb_refl, ?app_nil_r; cbn [from_option Datatypes.id fmap option_fmap option_map];
      try reflexivity;
      match goal with |- context [transcriptChunks s !! ?k] =>
        destruct (transcriptChunks s !! k); reflexivity end.
  - rewrite lookup_alter_ne by exact Hne.
    destruct r as [uuid data| | | |]; cbn [stored subject transcriptChunks
      set_transcriptChunks set_screenEvents set_compileEvents set_keystrokeEvents
      set_keystrokeAnalyzer set_codeSamples] in *;
      rewrite ?lookup_insert_ne by exact Hne; reflexivity.
Qed.

(** X21. The transcript log of a session after a request for that session
    is the log with the new chunk, if any, sorted by [startMs]; a request for
    another session leaves it as it was.  So over any sequence of requests
    the log holds what it held and the chunks that arrived for the session,
    each once. *)
Theorem transcripts_kept (rs : list (Z * Request)) (sessionId : string) (s : t) :
  (forall now r,
      transcriptLog sessionId (snd (handle now r s))
      = if String.eqb (subject r) sessionId
        then sortBy startMs (transcriptLog sessionId s ++ newChunks sessionId r)
        else transcriptLog sessionId s)
  /\ transcriptLog sessionId (handleAll rs s)
     ≡ₚ transcriptLog sessionId s ++ flat_map (fun nr => newChunks sessionId (snd nr)) rs.
Proof.
  split; [intros now r; apply handle_transcriptLog|].
  induction rs as [|[now r] rs IH] using rev_ind.
  - cbn. rewrite app_nil_r. reflexivity.
  - rewrite handleAll_snoc, handle_transcriptLog, flat_map_app. cbn [flat_map snd].
    rewrite app_nil_r, app_assoc.
    destruct (String.eqb_spec (subject r) sessionId) as [Heq|Hne].
    + rewrite sortBy_perm, IH. reflexivity.
    + assert (newChunks sessionId r = []) as ->.
      { destruct r; try reflexivity. cbn [subject newChunks] in *.
        destruct (String.eqb_spec (tc_sessionId data) sessionId); [contradiction|reflexivity]. }
      rewrite app_nil_r. exact IH.
Qed.

(** X22. Requests neither read nor write the table of sessions: a request
    commutes with any change of that table, so it is served alike for a
    session that is live, ended, or was never started. *)
Theorem handle_ignores_sessions (now : Z) (r : Request) (s : t)
  (f : gmap string SessionData -> gmap string SessionData) :
  handle now r (set_sessions f s)
  = (fst (handle now r s), set_sessions f (snd (handle now r s))).
Proof.
  rewrite !handle_stored. cbn [fst snd]. f_equal.
  assert (stored r (set_sessions f s) = set_sessions f (stored r s)) as ->
      by (destruct r; reflexivity).
  unfold analyzeFraud.
  cbn [set_sessions transcriptChunks screenEvents compileEvents keystrokeEvents
       codeSamples keystrokeAnalyzer].
  destruct (calculateEnhancedFraudScore _ _ _ _ _ _ _) as [[snapshot chunks] ka].
  reflexivity.
Qed.

End Requests.
End ServiceExtras.

(** ** Sessions *)

Module LifecycleExtras.
Import Num NumFacts FraudDetectionService ServiceFacts.

(** X23. A started interview: the identifier is built from the clock and
    the first eight characters of the UUID; the session is stored live, with
    its start time and no end time; its report holds that session and four
    empty logs; its latest score is the zero-score low-risk default.  Ending
    it then sets the status to [ended] and the end time, keeping the start
    time.  Reports of other sessions are as before. *)
Theorem interview_lifecycle (now later : Z) (uuid : string) (data : StartData) (s : t) :
  let sessionId := fst (startInterview now uuid data s) in
  let started := snd (startInterview now uuid data s) in
  let session status endedAt :=
    mkSession sessionId (sd_candidateId data) (sd_companyId data) (sd_role data)
      status (Some now) endedAt (sd_consent data) in
  sessionId = "session_" +:+ pretty now +:+ "_" +:+ String.substring 0 8 uuid
  /\ getReport sessionId started = mkReport (Some (session live None)) [] [] [] []
  /\ (forall now', getLatestScore now' sessionId started
                   = mkFraudScore sessionId 0 low [] now')
  /\ fst (endInterview later sessionId started) = Returns (mkAck true)
  /\ getSession sessionId (snd (endInterview later sessionId started))
     = Some (session ended (Some later))
  /\ (forall other, other <> sessionId ->
        getReport other started = getReport other s
        /\ getReport other (snd (endInterview later sessionId started))
           = getReport other s).
Proof.
  intros sessionId started session.
  assert (sessions started !! sessionId = Some (session live None)) as Hsession.
  { unfold started, startInterview. cbn [snd sessions]. apply lookup_insert_eq. }
  split; [reflexivity|]. split.
  { unfold getReport. rewrite Hsession. unfold started, startInterview.
    cbn [snd fraudSignals transcriptChunks screenEvents compileEvents].
    rewrite !lookup_insert_eq. reflexivity. }
  split.
  { intros now'. unfold getLatestScore, started, startInterview.
    cbn [snd fraudSignals]. rewrite lookup_insert_eq. reflexivity. }
  unfold endInterview. rewrite Hsession. cbn [fst snd].
  split; [reflexivity|]. split.
  { unfold getSession. cbn [set_sessions sessions]. rewrite lookup_insert_eq. reflexivity. }
  intros other Hne.
  assert (getReport other started = getReport other s) as Hother.
  { unfold getReport, started, startInterview.
    cbn [snd sessions fraudSignals transcriptChunks screenEvents compileEvents].
    rewrite !lookup_insert_ne by (intros Heq; apply Hne; symmetry; exact Heq).
    reflexivity. }
  split; [exact Hother|]. rewrite <- Hother. unfold getReport.
  cbn [set_sessions sessions fraudSignals transcriptChunks screenEvents compileEvents].
  rewrite lookup_insert_ne by (intros Heq; apply Hne; symmetry; exact Heq).
  reflexivity.
Qed.

(** X24. Clearing a session makes the service forget it: no session record,
    an empty report, the default latest score, no keystroke log and no code
    sample, nothing in the keystroke analyzer, and [endInterview] throws
    [Session not found] without changing the state. *)
Theorem clearSession_forgets (now : Z) (sessionId : string) (s : t) :
  let cleared := clearSession sessionId s in
  getSession sessionId cleared = None
  /\ getReport sessionId cleared = mkReport None [] [] [] []
  /\ getLatestScore now sessionId cleared = mkFraudScore sessionId 0 low [] now
  /\ keystrokeEvents cleared !! sessionId = None
  /\ codeSamples cleared !! sessionId = None
  /\ KeystrokeAnalyzer.getTypingProfile sessionId (keystrokeAnalyzer cleared) = None
  /\ KeystrokeAnalyzer.keystrokeEvents (keystrokeAnalyzer cleared) !! sessionId = None
  /\ KeystrokeAnalyzer.digraphs (keystrokeAnalyzer cleared) !! sessionId = None
  /\ endInterview now sessionId cleared = (Throws "Session not found", cleared).
Proof.
  intros cleared. unfold cleared, clearSession, getSession, getReport, getLatestScore,
    endInterview, KeystrokeAnalyzer.getTypingProfile, KeystrokeAnalyzer.clearSession.
  cbn [sessions fraudSignals transcriptChunks screenEvents compileEvents
       keystrokeEvents codeSamples keystrokeAnalyzer
       KeystrokeAnalyzer.typingProfiles KeystrokeAnalyzer.keystrokeEvents
       KeystrokeAnalyzer.digraphs].
  rewrite !lookup_delete_eq. repeat split; reflexivity.
Qed.

(** X25. Clearing one session leaves every other session as it was: its
    record, report, latest score, keystroke log, code sample and what the
    keystroke analyzer holds for it. *)
Theorem clearSession_isolated (now : Z) (sessionId other : string) (s : t) :
  other <> sessionId ->
  let cleared := clearSession sessionId s in
  getSession other cleared = getSession other s
  /\ getReport other cleared = getReport other s
  /\ getLatestScore now other cleared = getLatestScore now other s
  /\ keystrokeEvents cleared !! other = keystrokeEvents s !! other
  /\ codeSamples cleared !! other = codeSamples s !! other
  /\ fst (KeystrokeAnalyzer.generateTypingProfile other (keystrokeAnalyzer cleared))
     = fst (KeystrokeAnalyzer.generateTypingProfile other (keystrokeAnalyzer s))
  /\ KeystrokeAnalyzer.detectTypingAnomalies other (keystrokeAnalyzer cleared)
     = KeystrokeAnalyzer.detectTypingAnomalies other (keystrokeAnalyzer s).
Proof.
  intros Hne cleared. unfold cleared, clearSession, getSession, getReport, getLatestScore.
  cbn [sessions fraudSignals transcriptChunks screenEvents compileEvents
       keystrokeEvents codeSamples keystrokeAnalyzer].
  rewrite !lookup_delete_ne by congruence.
  repeat (split; [reflexivity|]). split.
  - unfold KeystrokeAnalyzer.generateTypingProfile, KeystrokeAnalyzer.clearSession.
    cbn [KeystrokeAnalyzer.keystrokeEvents KeystrokeAnalyzer.digraphs
         KeystrokeAnalyzer.trigraphs KeystrokeAnalyzer.typingProfiles].
    rewrite !lookup_delete_ne by congruence.
    destruct (length _ =? 0)%nat; [reflexivity|].
    destruct (KeystrokeAnalyzer.getSessionDuration _) as [duration sorted].
    reflexivity.
  - unfold KeystrokeAnalyzer.detectTypingAnomalies, KeystrokeAnalyzer.clearSession.
    cbn [KeystrokeAnalyzer.typingProfiles]. rewrite lookup_delete_ne by congruence.
    reflexivity.
Qed.

(** A session of which the service holds nothing. *)
Record unknownTo (sessionId : string) (s : t) : Prop := {
  no_session : sessions s !! sessionId = None;
  no_history : fraudSignals s !! sessionId = None;
  no_transcript : transcriptChunks s !! sessionId = None;
  no_screen : screenEvents s !! sessionId = None;
  no_compile : compileEvents s !! sessionId = None;
  no_keystroke : keystrokeEvents s !! sessionId = None;
  no_code : codeSamples s !! sessionId = None;
  no_analyzer_log :
    KeystrokeAnalyzer.keystrokeEvents (keystrokeAnalyzer s) !! sessionId = None;
  no_digraph : KeystrokeAnalyzer.digraphs (keystrokeAnalyzer s) !! sessionId = None;
  no_trigraphs : KeystrokeAnalyzer.trigraphs (keystrokeAnalyzer s) !! sessionId = None;
  no_profile : KeystrokeAnalyzer.typingProfiles (keystrokeAnalyzer s) !! sessionId = None
}.

(** X26. Starting an interview under an identifier of which the service
    holds nothing and clearing it at once gives back the state before the
    start. *)
Theorem start_then_clear (now : Z) (uuid : string) (data : StartData) (s : t) :
  unknownTo (fst (startInterview now uuid data s)) s ->
  clearSession (fst (startInterview now uuid data s))
    (snd (startInterview now uuid data s))
  = s.
Proof.
  intros [H1 H2 H3 H4 H5 H6 H7 H8 H9 H10 H11].
  unfold clearSession, KeystrokeAnalyzer.clearSession.
  cbn [startInterview fst snd sessions fraudSignals transcriptChunks screenEvents
       compileEvents keystrokeEvents codeSamples keystrokeAnalyzer] in *.
  rewrite !delete_insert_eq.
  rewrite !delete_id by assumption.
  destruct s as [? ? ? ? ? ? ? [? ? ? ?]]. reflexivity.
Qed.

Lemma start_then_clear_witness :
  unknownTo (fst (startInterview 1000 "0123456789abcdef" (mkStartData "c" "k" None (mkConsent true true true true)) new)) new
  /\ clearSession (fst (startInterview 1000 "0123456789abcdef" (mkStartData "c" "k" None (mkConsent true true true true)) new))
       (snd (startInterview 1000 "0123456789abcdef" (mkStartData "c" "k" None (mkConsent true true true true)) new))
     = new.
Proof.
  assert (unknownTo (fst (startInterview 1000 "0123456789abcdef" (mkStartData "c" "k" None (mkConsent true true true true)) new)) new) as H
    by (split; reflexivity).
  split; [exact H|].
  exact (start_then_clear 1000 "0123456789abcdef" (mkStartData "c" "k" None (mkConsent true true true true)) new H).
Defined.

(** Two interviews started one after the other. *)
Definition twoStarted : t :=
  snd (startInterview 2000 "bbbbbbbbbbbb" (mkStartData "c2" "k" None (mkConsent true true true true))
         (snd (startInterview 1000 "aaaaaaaaaaaa" (mkStartData "c1" "k" None (mkConsent true true true true)) new))).

Lemma clearSession_isolated_witness :
  "session_2000_bbbbbbbb" <> "session_1000_aaaaaaaa"
  /\ getReport "session_2000_bbbbbbbb" (clearSession "session_1000_aaaaaaaa" twoStarted)
     = getReport "session_2000_bbbbbbbb" twoStarted.
Proof.
  assert ("session_2000_bbbbbbbb" <> "session_1000_aaaaaaaa") as Hne by discriminate.
  split; [exact Hne|].
  exact (proj1 (proj2 (clearSession_isolated 0 "session_1000_aaaaaaaa"
                         "session_2000_bbbbbbbb" twoStarted Hne))).
Defined.

End LifecycleExtras.

(** ** Fusion, and what consumes the score *)

Module FusionExtras.
Import Num NumFacts FraudDetectionService ServiceFacts.

Section AnyAnalyzer.
Context {csa : CodeStylometryAnalyzer.t}.

Definition once (fires : bool) (code : string) : list string :=
  if fires then [code] else [].

(** The codes of the reasons, rule by rule in the order of the source. *)
Definition firedCodes (sg : Signals) : list string :=
  let b := behavioralAnalysis sg in
  (if isSuspicious (typingAnomalies sg)
   then replicate (length (anomalies (typingAnomalies sg))) "KEYSTROKE_ANOMALY"
   else [])
  ++ (if isSuspicious (codeAnomalies sg)
      then replicate (length (anomalies (codeAnomalies sg))) "CODE_STYLOMETRY_ANOMALY"
      else [])
  ++ once (2 <=? pasteBursts b)%nat "PASTE_BURST"
  ++ once (3 <=? tabSwitches b)%nat "TAB_SWITCHING"
  ++ once ((compileCount b <=? 1)%nat && longSession b) "LOW_COMPILE"
  ++ once (suspiciousTiming b) "SUSPICIOUS_TIMING"
  ++ once (mouseAnomalies b) "MOUSE_ANOMALIES"
  ++ once (applicationSwitching b) "APPLICATION_SWITCHING".

Lemma map_code_anomalyReasons (c : string) (a : Anomalies) (k : Q) :
  map code (anomalyReasons c a k) = replicate (length (anomalies a)) c.
Proof.
  unfold anomalyReasons. induction (anomalies a) as [|x l IH]; [reflexivity|].
  cbn. f_equal. exact IH.
Qed.

Lemma rule_codes (fires : bool) (w : Q) (rs : list FraudReason)
  (acc : Q * list FraudReason) :
  map code (snd (rule fires w rs acc))
  = map code (snd acc) ++ (if fires then map code rs else []).
Proof.
  unfold rule. destruct fires; cbn [snd]; [apply map_app | rewrite app_nil_r; reflexivity].
Qed.

Lemma scoreFor_reasons (now : Z) (sessionId : string) (s : t) :
  reasons (scoreFor now sessionId s)
  = snd (fuse (typingAnomalies (signalsFor now sessionId s))
           (codeAnomalies (signalsFor now sessionId s))
           (behavioralAnalysis (signalsFor now sessionId s))).
Proof.
  unfold scoreFor, calculateEnhancedFraudScore, signalsFor.
  destruct (fuse _ _ _) as [rawScore rs]. reflexivity.
Qed.

(** X27. The reasons of a snapshot come in the fixed order of the rules:
    one [KEYSTROKE_ANOMALY] per typing anomaly if the typing verdict is
    suspicious, one [CODE_STYLOMETRY_ANOMALY] per code anomaly if the code
    verdict is, then at most one each of [PASTE_BURST], [TAB_SWITCHING],
    [LOW_COMPILE], [SUSPICIOUS_TIMING], [MOUSE_ANOMALIES] and
    [APPLICATION_SWITCHING]. *)
Theorem reasons_in_rule_order (now : Z) (sessionId : string) (s : t) :
  map code (reasons (scoreFor now sessionId s))
  = firedCodes (signalsFor now sessionId s).
Proof.
  rewrite scoreFor_reasons. unfold fuse, firedCodes, once. cbv zeta.
  rewrite !rule_codes, !map_code_anomalyReasons. cbn [snd map code app].
  rewrite <- !app_assoc. reflexivity.
Qed.

(** *** Application switching *)

Definition recentSwitch (now : Z) (e : ScreenEvent) : bool :=
  hasType APPLICATION_SWITCH e && (now - se_t e <? 30000)%Z.

Lemma filter_filter_length {B} (f g : B -> bool) (l : list B) :
  (length (List.filter g (List.filter f l)) <= length (List.filter f l))%nat.
Proof.
  induction (List.filter f l) as [|x l' IH]; [reflexivity|].
  cbn [List.filter]. destruct (g x); cbn [length]; lia.
Qed.

Lemma filter_filter_and {B} (f g : B -> bool) (l : list B) :
  List.filter g (List.filter f l) = List.filter (fun x => f x && g x) l.
Proof.
  induction l as [|x l IH]; [reflexivity|]. cbn [List.filter].
  destruct (f x); cbn [List.filter andb]; [destruct (g x)|]; rewrite IH; reflexivity.
Qed.

Lemma filter_length_mono {B} (f g : B -> bool) (l : list B) :
  (forall x, f x = true -> g x = true) ->
  (length (List.filter f l) <= length (List.filter g l))%nat.
Proof.
  intros Himp. induction l as [|x l IH]; [reflexivity|]. cbn [List.filter].
  destruct (f x) eqn:Ef.
  - rewrite (Himp x Ef). cbn [length]. lia.
  - destruct (g x); cbn [length]; lia.
Qed.

(** X28. Application switching fires exactly when at least five
    [APPLICATION_SWITCH] events are less than 30 seconds old at scoring time
    (the early exit on fewer than five events changes nothing), so for the
    same events a verdict that fires at some time fires at any earlier
    time. *)
Theorem detectApplicationSwitching_spec (now earlier : Z)
  (screenEvents : list ScreenEvent) :
  detectApplicationSwitching now screenEvents
  = (5 <=? length (List.filter (recentSwitch now) screenEvents))%nat
  /\ ((earlier <= now)%Z ->
      detectApplicationSwitching now screenEvents = true ->
      detectApplicationSwitching earlier screenEvents = true).
Proof.
  assert (forall time, detectApplicationSwitching time screenEvents
                       = (5 <=? length (List.filter (recentSwitch time) screenEvents))%nat)
    as Hspec.
  { intros time. unfold detectApplicationSwitching.
    pose proof (filter_filter_length (hasType APPLICATION_SWITCH)
                  (fun e => (time - se_t e <? 30000)%Z) screenEvents) as Hle.
    rewrite filter_filter_and in Hle |- *. fold (recentSwitch time) in Hle |- *.
    destruct (length (List.filter (hasType APPLICATION_SWITCH) screenEvents) <? 5)%nat eqn:E;
      [|reflexivity].
    apply Nat.ltb_lt in E. symmetry. apply Nat.leb_gt. lia. }
  split; [apply Hspec|].
  intros Hle. rewrite !Hspec. intros Hfires. apply Nat.leb_le in Hfires. apply Nat.leb_le.
  etransitivity; [exact Hfires|]. apply filter_length_mono.
  intros e. unfold recentSwitch. rewrite !andb_true_iff, !Z.ltb_lt. intros [? ?].
  split; [assumption | lia].
Qed.

End AnyAnalyzer.

(** *** With the verdict of the repository *)

Lemma contribution_range (fires : bool) (w : Q) :
  (0 <= w)%Q -> (0 <= contribution fires w <= w)%Q.
Proof. intros Hw. destruct fires; cbn; lra. Qed.

Lemma detectOnProfile_confidence_range (profile : TypingProfile) :
  (0 <= confidence (KeystrokeAnalyzer.detectOnProfile profile) <= 9 # 10)%Q.
Proof.
  unfold KeystrokeAnalyzer.detectOnProfile.
  generalize (Qltb (variance profile) 50) (Qltb 200 (averageSpeed profile))
    (Qltb (averageSpeed profile) 20) (KeystrokeAnalyzer.pausePatternFires profile)
    (Qltb (KeystrokeAnalyzer.calculateDigraphVariance (digraphLatencies profile)) 100).
  intros [] [] [] [] []; vm_compute; split; discriminate.
Qed.

Lemma detectTypingAnomalies_confidence_range (sessionId : string)
  (ka : KeystrokeAnalyzer.t) :
  (0 <= confidence (KeystrokeAnalyzer.detectTypingAnomalies sessionId ka) <= 9 # 10)%Q.
Proof.
  unfold KeystrokeAnalyzer.detectTypingAnomalies.
  destruct (KeystrokeAnalyzer.typingProfiles ka !! sessionId).
  - apply detectOnProfile_confidence_range.
  - vm_compute. split; discriminate.
Qed.

Lemma detectCodeAnomalies_confidence_range (features : Stylometry.CodeStylometryFeatures) :
  (0 <= confidence (Stylometry.detectCodeAnomalies features) <= 1)%Q.
Proof.
  unfold Stylometry.detectCodeAnomalies.
  generalize (Stylometry.aiLikely features) (Stylometry.chatLike features)
    (Stylometry.tooClean features) (Stylometry.tooSimple features)
    (Stylometry.camelNaming features).
  intros [] [] [] [] []; vm_compute; split; discriminate.
Qed.

Lemma weight_ranges (b : BehavioralAnalysis) :
  (0 <= pasteWeight b <= 15)%Q /\ (0 <= tabWeight b <= 10)%Q.
Proof.
  unfold pasteWeight, tabWeight, ofNat.
  change 0%Q with (inject_Z 0). change 15%Q with (inject_Z 15).
  change 10%Q with (inject_Z 10). rewrite <- !Zle_Qle. lia.
Qed.

(** X29. With the code verdict of the repository, whatever the feature
    extraction: the raw sum of a rescoring lies between 0 and 97, so the
    clamp to [0,100] never changes it and the score is the raw sum; and when
    neither the typing nor the code verdict is suspicious, the score is at
    most 45 and the level is never [high]. *)
Theorem raw_score_within_clamp (extract : string -> Stylometry.CodeStylometryFeatures)
  (now : Z) (sessionId : string) (s : t) :
  let sg := signalsFor (csa := Stylometry.analyzerWith extract) now sessionId s in
  let f := scoreFor (csa := Stylometry.analyzerWith extract) now sessionId s in
  (0 <= rawScoreOf sg <= 97)%Q
  /\ (score f == rawScoreOf sg)%Q
  /\ (isSuspicious (typingAnomalies sg) = false ->
      isSuspicious (codeAnomalies sg) = false ->
      (score f <= 45)%Q /\ level f <> high).
Proof.
  intros sg f.
  pose proof (rawScoreOf_guarded sg) as Hraw.
  assert (0 <= confidence (typingAnomalies sg) <= 9 # 10)%Q as Htyping.
  { unfold sg, signalsFor. rewrite gatherSignals_typingAnomalies.
    apply detectTypingAnomalies_confidence_range. }
  assert (0 <= confidence (codeAnomalies sg) <= 1)%Q as Hcode.
  { unfold sg, signalsFor, gatherSignals, analyzeBehavioralPatterns.
    destruct (KeystrokeAnalyzer.generateTypingProfile _ _) as [profile ka'].
    destruct (detectSuspiciousTiming _) as [verdict sorted].
    cbn [codeAnomalies]. apply detectCodeAnomalies_confidence_range. }
  destruct (weight_ranges (behavioralAnalysis sg)) as [Hpaste Htab].
  unfold guardedRawSum in Hraw. cbn zeta in Hraw.
  set (b := behavioralAnalysis sg) in *.
  pose proof (contribution_range ((compileCount b <=? 1)%nat && longSession b) 10 ltac:(lra)) as H5.
  pose proof (contribution_range (suspiciousTiming b) 5 ltac:(lra)) as H6.
  pose proof (contribution_range (mouseAnomalies b) 3 ltac:(lra)) as H7.
  pose proof (contribution_range (applicationSwitching b) 2 ltac:(lra)) as H8.
  pose proof (contribution_range (2 <=? pasteBursts b)%nat (pasteWeight b) ltac:(lra)) as H3.
  pose proof (contribution_range (3 <=? tabSwitches b)%nat (tabWeight b) ltac:(lra)) as H4.
  pose proof (contribution_range (isSuspicious (typingAnomalies sg))
                (confidence (typingAnomalies sg) * 30) ltac:(lra)) as H1.
  pose proof (contribution_range (isSuspicious (codeAnomalies sg))
                (confidence (codeAnomalies sg) * 25) ltac:(lra)) as H2.
  assert (0 <= rawScoreOf sg <= 97)%Q as Hrange by (rewrite Hraw; lra).
  assert (score f == rawScoreOf sg)%Q as Hscore.
  { unfold f. rewrite scoreFor_raw. fold sg.
    rewrite Q.min_r by lra. rewrite Q.max_r by lra. reflexivity. }
  split; [exact Hrange|]. split; [exact Hscore|].
  intros Hnt Hnc. rewrite Hnt, Hnc in Hraw. cbn [contribution] in Hraw.
  assert (score f <= 45)%Q as Hle by (rewrite Hscore, Hraw; lra).
  split; [exact Hle|].
  intros Hhigh.
  pose proof (calculateEnhancedFraudScore_level (csa := Stylometry.analyzerWith extract) now
                (default [] (transcriptChunks s !! sessionId))
                (default [] (screenEvents s !! sessionId))
                (default [] (compileEvents s !! sessionId))
                (default [] (keystrokeEvents s !! sessionId))
                (default "" (codeSamples s !! sessionId))
                (keystrokeAnalyzer s)) as Hlevel.
  cbn zeta in Hlevel. fold (scoreFor (csa := Stylometry.analyzerWith extract) now sessionId s) in Hlevel.
  fold f in Hlevel. rewrite Hhigh in Hlevel. symmetry in Hlevel.
  apply (proj1 (levelOf_spec (score f))) in Hlevel. lra.
Qed.

Lemma score_range_aux {csa : CodeStylometryAnalyzer.t} (now : Z)
  (sessionId : string) (s : t) :
  let f := scoreFor now sessionId s in
  (0 <= score f <= 100)%Q
  /\ ((level f = high <-> (70 <= score f)%Q)
      /\ (level f = medium <-> (40 <= score f)%Q /\ (score f < 70)%Q)
      /\ (level f = low <-> (score f < 40)%Q)).
Proof.
  intros f. split.
  - unfold f. rewrite scoreFor_raw. apply clamp_bounds.
  - unfold f, scoreFor. rewrite calculateEnhancedFraudScore_level. apply levelOf_spec.
Qed.

(** X30. The fallback analysis on the score of a snapshot: a [high]
    snapshot is always reported as suspicious behaviour and a [low] one
    never; the confidence is the score capped at 80; risk factors are listed
    exactly when the behaviour is suspicious; three follow-up questions are
    always proposed. *)
Theorem fallback_follows_level {csa : CodeStylometryAnalyzer.t}
  (now : Z) (sessionId : string) (s : t) :
  let f := scoreFor now sessionId s in
  let a := LLMService.getFallbackAnalysis (score f) in
  (level f = high -> LLMService.suspiciousBehavior a = true)
  /\ (level f = low -> LLMService.suspiciousBehavior a = false)
  /\ (0 <= LLMService.ia_confidence a <= 80)%Q
  /\ (LLMService.ia_confidence a == Qmin (score f) 80)%Q
  /\ (LLMService.riskFactors a = [] <-> LLMService.suspiciousBehavior a = false)
  /\ length (LLMService.nextQuestions a) = 3%nat.
Proof.
  intros f a.
  pose proof (score_range_aux now sessionId s) as [Hrange Hlevels].
  fold f in Hrange, Hlevels.
  destruct Hlevels as (Hhigh & _ & Hlow).
  unfold a, LLMService.getFallbackAnalysis.
  cbn [LLMService.suspiciousBehavior LLMService.ia_confidence LLMService.riskFactors
       LLMService.nextQuestions length].
  split; [intros H; apply Hhigh in H; apply Qltb_lt; lra|].
  split; [intros H; apply Hlow in H; apply Qltb_ge; lra|].
  split.
  { split.
    - apply Q.min_glb; lra.
    - apply Q.le_min_r. }
  split; [reflexivity|].
  split; [|reflexivity].
  destruct (Qltb 50 (score f)); split; intros H; congruence.
Qed.

End FusionExtras.
